(** * template-catalog: the catalog update and validation scripts

    A shallow embedding of [.github/scripts/update-catalog.py] and
    [.github/scripts/validate-catalog.py].

    Modelling conventions.
    - A Python [str] is a [string] whose characters are read as code
      points 0..255.  On that range the regular expression class [\d] is
      exactly ['0'..'9'] and the characters removed by [str.strip()] are
      9..13, 28..31, 32, 133 and 160.
    - A Python [int] is unbounded: [N] for the version components, [Z] for
      integers read from YAML.
    - A value produced by [yaml.safe_load] is a tree ([pyval]); a mapping
      keeps its insertion order (an association list with string keys).
      YAML anchors that make two fields share one object are not covered.
    - PyYAML, git and the Python rendering of containers are not part of
      the repository: they are parameters of the development.
    - The Version Bump Engine is also given on sequences of code points
      ([PyUnicode]), with the character tables of Python as parameters: there
      [\d], [int()] and [strip()] are those of Python on every [str], and the
      8-bit engine is proved to be its restriction to code points 0..255.
    - The limit of the interpreter on the number of digits that [int()] and
      [str()] convert is taken as lifted.
    - The working tree, the answers of git and the two output streams form
      the [world]; the scripts run in a state-and-exception monad over it,
      and the state reached when an exception escapes is kept. *)

From Stdlib Require Import ZArith NArith Lia Ascii String List Bool.
From stdpp Require Import base strings pretty list sorting gmap.

Local Open Scope string_scope.

(** ** Python strings *)

Module PyStr.

Definition code (c : ascii) : N := N_of_ascii c.

(** [\d] of the [re] module on code points 0..255. *)
Definition is_digit (c : ascii) : bool :=
  ((48 <=? code c) && (code c <=? 57))%N.

(** [str.isspace] on code points 0..255: what [strip()] removes. *)
Definition is_space (c : ascii) : bool :=
  let n := code c in
  (((9 <=? n) && (n <=? 13)) || ((28 <=? n) && (n <=? 32))
   || (n =? 133) || (n =? 160))%N.

Definition is_empty (s : string) : bool :=
  match s with EmptyString => true | String _ _ => false end.

Fixpoint lstrip (s : string) : string :=
  match s with
  | EmptyString => EmptyString
  | String c r => if is_space c then lstrip r else s
  end.

Fixpoint rstrip (s : string) : string :=
  match s with
  | EmptyString => EmptyString
  | String c r =>
      let r' := rstrip r in
      if is_space c && is_empty r' then EmptyString else String c r'
  end.

(** [s.strip()] *)
Definition strip (s : string) : string := rstrip (lstrip s).

(** [s.startswith(p)] *)
Fixpoint startswith (p s : string) : bool :=
  match p, s with
  | EmptyString, _ => true
  | String a p', String b s' => if Ascii.eqb a b then startswith p' s' else false
  | String _ _, EmptyString => false
  end.

(** [p in s] for two strings: [p] occurs as a substring of [s]. *)
Fixpoint contains (p s : string) : bool :=
  startswith p s
  || match s with
     | EmptyString => false
     | String _ s' => contains p s'
     end.

(** [s.endswith(p)] *)
Fixpoint endswith (p s : string) : bool :=
  String.eqb p s
  || match s with
     | EmptyString => false
     | String _ s' => endswith p s'
     end.

(** [s.split("/")[0]]: the text before the first ["/"]. *)
Fixpoint first_segment (s : string) : string :=
  match s with
  | EmptyString => EmptyString
  | String c r => if Ascii.eqb c "/" then EmptyString else String c (first_segment r)
  end.

(** Line boundaries of [str.splitlines()] on code points 0..255. *)
Definition is_linebreak (c : ascii) : bool :=
  let n := code c in
  (((10 <=? n) && (n <=? 13)) || ((28 <=? n) && (n <=? 30)) || (n =? 133))%N.

(** [s.splitlines()]: [cur] is the line being read, reversed; ["\r\n"]
    counts as one boundary and a final boundary opens no empty line. *)
Fixpoint splitlines_go (cur : list ascii) (s : string) : list string :=
  match s with
  | EmptyString =>
      match cur with
      | [] => []
      | _ => [string_of_list_ascii (rev cur)]
      end
  | String c r =>
      if is_linebreak c then
        string_of_list_ascii (rev cur) ::
          match r with
          | String d r' =>
              if Ascii.eqb c "013" && Ascii.eqb d "010"
              then splitlines_go [] r' else splitlines_go [] r
          | EmptyString => []
          end
      else splitlines_go (c :: cur) r
  end.

Definition splitlines (s : string) : list string := splitlines_go [] s.

(** [sep.join(l)] *)
Fixpoint join (sep : string) (l : list string) : string :=
  match l with
  | [] => ""
  | [x] => x
  | x :: r => x +:+ sep +:+ join sep r
  end.

(** [int(s)] on a run of digits. *)
Definition digit_value (c : ascii) : N := (code c - 48)%N.

Fixpoint int_of_digits_from (acc : N) (s : string) : N :=
  match s with
  | EmptyString => acc
  | String c r => int_of_digits_from (acc * 10 + digit_value c)%N r
  end.

Definition int_of_digits (s : string) : N := int_of_digits_from 0 s.

(** The longest prefix of digits, and what follows it. *)
Fixpoint span_digits (s : string) : string * string :=
  match s with
  | EmptyString => (EmptyString, EmptyString)
  | String c r =>
      if is_digit c
      then let '(d, t) := span_digits r in (String c d, t)
      else (EmptyString, s)
  end.

Fixpoint all_digits (s : string) : bool :=
  match s with
  | EmptyString => true
  | String c r => is_digit c && all_digits r
  end.

End PyStr.

(** ** The Version Bump Engine *)

(** [SEMVER_PATTERN.match(s)], with [SEMVER_PATTERN] the compiled
    [^(\d+)\.(\d+)\.(\d+)$]: the three captured groups.  A digit run can only
    be followed by a dot or by the end, so the greedy runs are the only
    candidates; [$] also accepts one final line feed. *)
Definition SEMVER_PATTERN_match (s : string) : option (string * string * string) :=
  let '(a, r1) := PyStr.span_digits s in
  if PyStr.is_empty a then None else
  match r1 with
  | String "." r1' =>
      let '(b, r2) := PyStr.span_digits r1' in
      if PyStr.is_empty b then None else
      match r2 with
      | String "." r2' =>
          let '(c, r3) := PyStr.span_digits r2' in
          if PyStr.is_empty c then None else
          match r3 with
          | EmptyString => Some (a, b, c)
          | String "010" EmptyString => Some (a, b, c)
          | _ => None
          end
      | _ => None
      end
  | _ => None
  end.

(** [f"{major}.{minor}.{patch}"] *)
Definition format_version (major minor patch : N) : string :=
  pretty major +:+ "." +:+ pretty minor +:+ "." +:+ pretty patch.

Definition bump_patch_version (version : string) : string :=
  match SEMVER_PATTERN_match (PyStr.strip version) with
  | None => version
  | Some (a, b, c) =>
      let major := PyStr.int_of_digits a in
      let minor := PyStr.int_of_digits b in
      let patch := PyStr.int_of_digits c in
      format_version major minor (patch + 1)
  end.

(** ** Values read from YAML *)

#[warnings="-register-all"]
Inductive pyval : Type :=
| PNone
| PBool (b : bool)
| PInt (z : Z)
| PFloat (text : string)        (* a float, carried by its [str()] *)
| PStr (s : string)
| PList (l : list pyval)
| PDict (d : list (string * pyval)).

Module PyDict.

(** Entries in insertion order. *)
Definition t := list (string * pyval).

(** [d.get(k)] on the entries: [None] when the key is missing. *)
Fixpoint get (k : string) (d : t) : option pyval :=
  match d with
  | [] => None
  | (k', v) :: r => if String.eqb k k' then Some v else get k r
  end.

(** [d[k] = v]: an existing key keeps its place, a new key goes last. *)
Fixpoint set (k : string) (v : pyval) (d : t) : t :=
  match d with
  | [] => [(k, v)]
  | (k', v') :: r =>
      if String.eqb k k' then (k', v) :: r else (k', v') :: set k v r
  end.

(** The entries whose key is not [k], in order. *)
Fixpoint without (k : string) (d : t) : t :=
  match d with
  | [] => []
  | (k', v) :: r =>
      if String.eqb k k' then without k r else (k', v) :: without k r
  end.

Definition keys (d : t) : list string := map fst d.

End PyDict.

(** ** Exceptions and the state of a run *)

Inductive py_error : Type :=
| YAMLError (msg : string)
| AttributeError
| TypeError
| FileNotFoundError
| CalledProcessError
| UnicodeDecodeError
| ValueError.

Inductive outcome (A : Type) : Type :=
| Return (a : A)
| Raise (e : py_error).
Arguments Return {A} a.
Arguments Raise {A} e.

(** What git answers during one run.  The scripts only compare the two
    commits [HEAD~1] and [HEAD], which a write to the working tree does not
    change. *)
Record git_answers : Type := GitAnswers {
  (* [git rev-parse HEAD~1] exits with 0 *)
  has_parent : bool;
  (* [git diff --name-only HEAD~1 HEAD]: its output, [None] on a failure *)
  diff_name_only : option string;
  (* [git ls-tree -r --name-only HEAD]: its output, [None] on a failure *)
  ls_tree : option string;
  (* [git diff HEAD~1 HEAD -- path]: exit code and output *)
  diff_path : string -> Z * string
}.

Record world : Type := World {
  (* names of the directories under REPO_ROOT, as [iterdir()] lists them *)
  dirs : list string;
  (* regular files of the working tree, by path relative to REPO_ROOT *)
  files : gmap string string;
  git : git_answers;
  (* lines printed to standard output and to standard error, oldest first *)
  stdout : list string;
  stderr : list string;
  (* paths opened for writing, oldest first *)
  writes : list string
}.

Definition M (A : Type) : Type := world -> world * outcome A.

Definition ret {A} (a : A) : M A := fun w => (w, Return a).
Definition raise {A} (e : py_error) : M A := fun w => (w, Raise e).
Definition bind {A B} (m : M A) (k : A -> M B) : M B :=
  fun w =>
    match m w with
    | (w', Return a) => k a w'
    | (w', Raise e) => (w', Raise e)
    end.

Notation "'do' x <- m ; k" := (bind m (fun x => k))
  (at level 10, x name, m at level 100, k at level 200,
   format "'[v' 'do'  x  <-  m ; '/' k ']'").
Notation "'run' m ; k" := (bind m (fun _ => k))
  (at level 10, m at level 100, k at level 200,
   format "'[v' 'run'  m ; '/' k ']'").

(** [for x in l: body(x)] *)
Fixpoint for_each {A} (l : list A) (body : A -> M unit) : M unit :=
  match l with
  | [] => ret tt
  | x :: r => run body x; for_each r body
  end.

Definition get_world : M world := fun w => (w, Return w).

(** [open(path).read()], [path.read_text()] *)
Definition read_file (path : string) : M string :=
  fun w =>
    match files w !! path with
    | Some text => (w, Return text)
    | None => (w, Raise FileNotFoundError)
    end.

(** [open(path, "w").write(text)], [path.write_text(text)] *)
Definition write_file (path text : string) : M unit :=
  fun w =>
    (World (dirs w) (<[path := text]> (files w)) (git w)
           (stdout w) (stderr w) (writes w ++ [path]),
     Return tt).

(** [path.exists()] *)
Definition path_exists (path : string) : M bool :=
  fun w => (w, Return (bool_decide (is_Some (files w !! path)))).

(** [print(line)] and [print(line, file=sys.stderr)] *)
Definition print (line : string) : M unit :=
  fun w =>
    (World (dirs w) (files w) (git w) (stdout w ++ [line]) (stderr w) (writes w),
     Return tt).

Definition print_err (line : string) : M unit :=
  fun w =>
    (World (dirs w) (files w) (git w) (stdout w) (stderr w ++ [line]) (writes w),
     Return tt).

(** The exit status of [sys.exit(main())]: an exception that reaches the top
    ends the process with status 1. *)
Definition exit_status (r : outcome Z) : Z :=
  match r with
  | Return n => n
  | Raise _ => 1
  end.

(** [sorted(s)] for a set of strings: increasing code-point order. *)
Definition sorted (s : gset string) : list string :=
  merge_sort String.le (elements s).

Definition manifest_path (template_dir : string) : string :=
  template_dir +:+ "/manifest.yaml".

(** [d.is_dir() and not d.name.startswith(".") and (d / "manifest.yaml").exists()]
    for an entry [d] of the listing *)
Definition is_template_dir (w : world) (d : string) : bool :=
  negb (PyStr.startswith "." d)
  && bool_decide (is_Some (files w !! manifest_path d)).

(** ** update-catalog.py *)

Module Update.
Section WithRuntime.

(** [yaml.safe_load] on the text of a file: the value, or the message of
    the [yaml.YAMLError] it raises. *)
Variable yaml_safe_load : string -> string + pyval.
(** [yaml.dump(v, default_flow_style=False, sort_keys=False, allow_unicode=True)] *)
Variable yaml_dump : pyval -> string.
(** [str(v)] for a list or a mapping. *)
Variable py_repr : pyval -> string.

(** [str(v)] *)
Definition py_str (v : pyval) : string :=
  match v with
  | PNone => "None"
  | PBool true => "True"
  | PBool false => "False"
  | PInt z => pretty z
  | PFloat text => text
  | PStr s => s
  | PList _ | PDict _ => py_repr v
  end.

(** [with open(path) as f: data = yaml.safe_load(f)] *)
Definition load_yaml (path : string) : M pyval :=
  do text <- read_file path;
  match yaml_safe_load text with
  | inl msg => raise (YAMLError msg)
  | inr data => ret data
  end.

(** [obj.get(key, default)]: of the values YAML yields only a mapping has
    a [get]. *)
Definition py_get (obj : pyval) (key : string) (default : pyval) : M pyval :=
  match obj with
  | PDict d =>
      match PyDict.get key d with
      | Some v => ret v
      | None => ret default
      end
  | _ => raise AttributeError
  end.

(** [obj[key] = v], giving the object after the assignment. *)
Definition py_setitem (obj : pyval) (key : string) (v : pyval) : M pyval :=
  match obj with
  | PDict d => ret (PDict (PyDict.set key v d))
  | _ => raise TypeError
  end.

(** Which object the name [manifest] is bound to by
    [manifest = data.get("manifest", data)]: the document itself, or the
    object stored under its ["manifest"] key.  No copy is made, so an
    assignment through [manifest] is seen through [data]. *)
Inductive manifest_ref : Type := IsData | IsNested.

Definition get_manifest (data : pyval) : M (manifest_ref * pyval) :=
  match data with
  | PDict d =>
      match PyDict.get "manifest" d with
      | Some m => ret (IsNested, m)
      | None => ret (IsData, data)
      end
  | _ => raise AttributeError
  end.

(** [data] as it reads once the object [manifest] names has become
    [manifest']. *)
Definition seen_through (data : pyval) (r : manifest_ref) (manifest' : pyval) : pyval :=
  match r, data with
  | IsData, _ => manifest'
  | IsNested, PDict d => PDict (PyDict.set "manifest" manifest' d)
  | IsNested, _ => data
  end.

Definition get_template_dirs : M (list string) :=
  do w <- get_world;
  ret (List.filter (is_template_dir w) (dirs w)).

Definition get_changed_template_dirs : M (gset string) :=
  do w <- get_world;
  if negb (has_parent (git w)) then
    do ds <- get_template_dirs;
    ret (list_to_set ds)
  else
    match diff_name_only (git w) with
    | None => raise CalledProcessError
    | Some out =>
        let files :=
          if PyStr.is_empty (PyStr.strip out) then []
          else PyStr.splitlines (PyStr.strip out) in
        do template_dirs <- get_template_dirs;
        ret (list_to_set
               (List.map PyStr.first_segment
                  (List.filter
                     (fun f => PyStr.contains "/" f
                               && bool_decide (PyStr.first_segment f ∈ template_dirs))
                     files)))
    end.

(** [bool(v)]: the values Python takes for false are [None], [False],
    zero, the empty string and the empty containers.  The floats equal to
    zero print as ["0.0"] and ["-0.0"]. *)
Definition py_truthy (v : pyval) : bool :=
  match v with
  | PNone => false
  | PBool b => b
  | PInt z => negb (z =? 0)%Z
  | PFloat text => negb (String.eqb text "0.0" || String.eqb text "-0.0")
  | PStr s => negb (PyStr.is_empty s)
  | PList l => match l with [] => false | _ => true end
  | PDict d => match d with [] => false | _ => true end
  end.

(** [manifest.get("version")] followed by [str(version) if version else None] *)
Definition get_manifest_version (path : string) : M (option string) :=
  do data <- load_yaml path;
  do rm <- get_manifest data;
  do version <- py_get (snd rm) "version" PNone;
  ret (if py_truthy version then Some (py_str version) else None).

Definition version_was_bumped (template_dir : string) : M bool :=
  do w <- get_world;
  if negb (has_parent (git w)) then ret false
  else
    let '(returncode, out) := diff_path (git w) (manifest_path template_dir) in
    if negb (returncode =? 0)%Z || PyStr.is_empty out then ret false
    else ret (PyStr.contains "version:" out).

(** The part of [bump_manifest_version] between the read and the write:
    from the document loaded to the document dumped, with the old and the
    new version. *)
Definition bump_document (data : pyval) : M (pyval * pyval * string) :=
  do rm <- get_manifest data;
  let '(r, manifest) := rm in
  do old_version <- py_get manifest "version" (PStr "0.0.0");
  let new_version := bump_patch_version (py_str old_version) in
  do manifest' <- py_setitem manifest "version" (PStr new_version);
  ret (seen_through data r manifest', old_version, new_version).

Definition bump_manifest_version (template_dir : string) : M bool :=
  do data <- load_yaml (manifest_path template_dir);
  do bumped <- bump_document data;
  let '(data', old_version, new_version) := bumped in
  run write_file (manifest_path template_dir) (yaml_dump data');
  run print ("Bumped " +:+ template_dir +:+ " version: "
             +:+ py_str old_version +:+ " -> " +:+ new_version);
  ret true.

(** The summary record of one template. *)
Definition summary (template_dir : string) (manifest : pyval) : M pyval :=
  do id_ <- py_get manifest "id" (PStr template_dir);
  do name <- py_get manifest "name" PNone;
  do description <- py_get manifest "description" PNone;
  do version <- py_get manifest "version" PNone;
  do tags <- py_get manifest "tags" (PList []);
  do keywords <- py_get manifest "keywords" (PList []);
  ret (PDict [("id", id_); ("name", name); ("description", description);
              ("version", version); ("tags", tags); ("keywords", keywords)]).

Fixpoint build_templates (template_dirs : list string) : M (list pyval) :=
  match template_dirs with
  | [] => ret []
  | template_dir :: rest =>
      do data <- load_yaml (manifest_path template_dir);
      do rm <- get_manifest data;
      do record <- summary template_dir (snd rm);
      do records <- build_templates rest;
      ret (record :: records)
  end.

Definition build_info_yaml : M pyval :=
  do template_dirs <- get_template_dirs;
  do templates <- build_templates template_dirs;
  ret (PDict [("templates", PList templates)]).

(** Lines 144 to 151 of [main]: regenerate [info.yaml] from all manifests. *)
Definition regenerate_info : M unit :=
  do info_content <- build_info_yaml;
  do present <- path_exists "info.yaml";
  do existing <- (if present then read_file "info.yaml" else ret "");
  let new_content := yaml_dump info_content in
  if negb (String.eqb existing new_content) then
    run write_file "info.yaml" new_content;
    print "Updated info.yaml"
  else ret tt.

(** The body of the loop of [main]. *)
Definition bump_if_needed (template_dir : string) : M unit :=
  do bumped <- version_was_bumped template_dir;
  if negb bumped then
    run bump_manifest_version template_dir;
    ret tt
  else ret tt.

(** [os.chdir(REPO_ROOT)] only fixes the directory the paths are relative
    to; the flag [modified] is assigned and never read. *)
Definition main : M Z :=
  do changed <- get_changed_template_dirs;
  run for_each (sorted changed) bump_if_needed;
  run regenerate_info;
  ret 0%Z.

End WithRuntime.
End Update.

(** ** validate-catalog.py *)

Module Validate.
Section WithRuntime.

Variable yaml_safe_load : string -> string + pyval.
(** The exception, other than a [yaml.YAMLError], with which reading and
    loading a file of this content ends, if it ends with one: a
    [UnicodeDecodeError] from the text layer of [open], a [ValueError] from
    a constructor of PyYAML (a timestamp such as [2024-13-45]). *)
Variable load_escapes : string -> option py_error.

Definition get_template_dirs : M (list string) :=
  do w <- get_world;
  ret (List.filter (is_template_dir w) (dirs w)).

(** [result.stdout.strip().splitlines() if result.stdout.strip() else []] *)
Definition output_lines (out : string) : list string :=
  if PyStr.is_empty (PyStr.strip out) then []
  else PyStr.splitlines (PyStr.strip out).

(** Both calls of git are made with [check=True]. *)
Definition get_changed_files : M (list string) :=
  do w <- get_world;
  let result :=
    if negb (has_parent (git w)) then ls_tree (git w)
    else diff_name_only (git w) in
  match result with
  | None => raise CalledProcessError
  | Some out => ret (output_lines out)
  end.

(** [parts = f.split("/")]: [len(parts) >= 2] says that [f] has a ["/"],
    and [parts[0]] is the text before the first one. *)
Definition get_changed_template_dirs
    (changed_files template_dirs : list string) : gset string :=
  fold_left
    (fun changed f =>
       if PyStr.contains "/" f
          && bool_decide (PyStr.first_segment f ∈ template_dirs)
       then changed ∪ {[PyStr.first_segment f]}
       else changed)
    changed_files ∅.

Definition is_yaml_file (f : string) : bool :=
  PyStr.endswith ".yaml" f || PyStr.endswith ".yml" f.

(** The loop of [validate_yaml_files], with [errors] the list built so
    far.  The handler is [except yaml.YAMLError]: any other exception leaves
    the loop and the function. *)
Fixpoint check_files (yaml_files : list string) (errors : list string)
    : M (list string) :=
  match yaml_files with
  | [] => ret errors
  | rel_path :: rest =>
      do present <- path_exists rel_path;
      if negb present then check_files rest errors
      else
        do text <- read_file rel_path;
        match load_escapes text with
        | Some e => raise e
        | None =>
            match yaml_safe_load text with
            | inl e => check_files rest (errors ++ [rel_path +:+ ": " +:+ e])
            | inr _ => check_files rest errors
            end
        end
  end.

Definition validate_yaml_files (changed_files : list string) : M bool :=
  let yaml_files := List.filter is_yaml_file changed_files in
  do errors <- check_files yaml_files [];
  match errors with
  | [] => ret true
  | _ =>
      run for_each errors (fun err => print_err ("ERROR: " +:+ err));
      ret false
  end.

Definition main : M Z :=
  do template_dirs <- get_template_dirs;
  do changed_files <- get_changed_files;
  let changed_templates := get_changed_template_dirs changed_files template_dirs in
  do valid <- validate_yaml_files changed_files;
  if negb valid then ret 1%Z
  else
    run print ("Validated: " +:+
               (if bool_decide (changed_templates ≠ ∅)
                then PyStr.join ", " (sorted changed_templates)
                else "no template changes"));
    ret 0%Z.

End WithRuntime.
End Validate.

(** ** The Version Bump Engine on every Python string

    A Python [str] is a sequence of code points.  What [\d] matches, what
    [int()] reads and what [strip()] removes are decided by the character
    tables of the interpreter, which are parameters here:
    [Py_UNICODE_TODECIMAL] gives the value of a decimal digit of any script
    (ASCII, Arabic-Indic, fullwidth, ...) and [Py_UNICODE_ISSPACE] the white
    space.  The f-string writes the numbers in ASCII. *)

Module PyUnicode.

Definition str : Type := list N.

(** The code points of a text of the 8-bit model. *)
Definition of_string (s : string) : str :=
  List.map N_of_ascii (list_ascii_of_string s).

Section Tables.

(** [Py_UNICODE_TODECIMAL]: the value of a decimal digit, [None] for any
    other character. *)
Variable to_decimal : N -> option N.
(** [Py_UNICODE_ISSPACE] *)
Variable is_space : N -> bool.

(** [\d] *)
Definition is_digit (c : N) : bool :=
  match to_decimal c with
  | Some _ => true
  | None => false
  end.

Definition digit_value (c : N) : N :=
  match to_decimal c with
  | Some v => v
  | None => 0%N
  end.

Fixpoint lstrip (s : str) : str :=
  match s with
  | [] => []
  | c :: r => if is_space c then lstrip r else s
  end.

Definition is_empty (s : str) : bool :=
  match s with [] => true | _ :: _ => false end.

Fixpoint rstrip (s : str) : str :=
  match s with
  | [] => []
  | c :: r =>
      let r' := rstrip r in
      if is_space c && is_empty r' then [] else c :: r'
  end.

(** [s.strip()] *)
Definition strip (s : str) : str := rstrip (lstrip s).

(** [int(s)] on a run of decimal digits. *)
Fixpoint int_of_digits_from (acc : N) (s : str) : N :=
  match s with
  | [] => acc
  | c :: r => int_of_digits_from (acc * 10 + digit_value c)%N r
  end.

Definition int_of_digits (s : str) : N := int_of_digits_from 0 s.

(** The longest prefix of decimal digits, and what follows it. *)
Fixpoint span_digits (s : str) : str * str :=
  match s with
  | [] => ([], [])
  | c :: r =>
      if is_digit c
      then let '(d, t) := span_digits r in (c :: d, t)
      else ([], s)
  end.

(** [SEMVER_PATTERN.match(s)] for [^(\d+)\.(\d+)\.(\d+)$]: 46 is the dot,
    and [$] also accepts one final line feed, 10. *)
Definition SEMVER_PATTERN_match (s : str) : option (str * str * str) :=
  let '(a, r1) := span_digits s in
  match a, r1 with
  | _ :: _, dot1 :: r1' =>
      if negb (dot1 =? 46)%N then None else
      let '(b, r2) := span_digits r1' in
      match b, r2 with
      | _ :: _, dot2 :: r2' =>
          if negb (dot2 =? 46)%N then None else
          let '(c, r3) := span_digits r2' in
          match c, r3 with
          | _ :: _, [] => Some (a, b, c)
          | _ :: _, [lf] => if (lf =? 10)%N then Some (a, b, c) else None
          | _, _ => None
          end
      | _, _ => None
      end
  | _, _ => None
  end.

(** [f"{major}.{minor}.{patch}"] *)
Definition format_version (major minor patch : N) : str :=
  of_string (format_version major minor patch).

Definition bump_patch_version (version : str) : str :=
  match SEMVER_PATTERN_match (strip version) with
  | None => version
  | Some (a, b, c) =>
      let major := int_of_digits a in
      let minor := int_of_digits b in
      let patch := int_of_digits c in
      format_version major minor (patch + 1)
  end.

(** A non-empty run of decimal digits of any script. *)
Definition digit_run (s : str) : Prop :=
  s <> [] /\ forallb is_digit s = true.

Definition dotted (a b c : str) : str := (a ++ 46%N :: b ++ 46%N :: c)%list.

(** The strict form: three runs of decimal digits and two dots. *)
Definition strict_form (s : str) : Prop :=
  exists a b c, digit_run a /\ digit_run b /\ digit_run c /\ s = dotted a b c.

(** What the engine needs of the tables: the ASCII digits have their
    values, the dot is no digit, the line feed is white space and no white
    space is a digit. *)
Definition tables_of_python : Prop :=
  (forall d, (d < 10)%N -> to_decimal (48 + d) = Some d)
  /\ to_decimal 46 = None
  /\ is_space 10 = true
  /\ (forall c, is_space c = true -> to_decimal c = None).

(** The tables read as those of the 8-bit model on the code points 0..255. *)
Definition tables_on_latin1 : Prop :=
  (forall c : ascii,
     to_decimal (N_of_ascii c)
     = if PyStr.is_digit c then Some (PyStr.digit_value c) else None)
  /\ (forall c : ascii, is_space (N_of_ascii c) = PyStr.is_space c).

End Tables.
End PyUnicode.

(** ** A small reader and writer of block mappings

    The closed examples below need a concrete reader and writer in the place
    of PyYAML.  This one handles the documents the manifests are made of:
    [key: text] lines, and one level of [key:] followed by indented
    [key: text] lines.  An empty text is the empty document. *)

Module BlockCodec.

(** The text before and after the first [": "]. *)
Fixpoint cut_colon (s : string) : option (string * string) :=
  match s with
  | EmptyString => None
  | String c r =>
      if Ascii.eqb c ":" && PyStr.startswith " " r then
        match r with
        | String _ v => Some (EmptyString, v)
        | EmptyString => None
        end
      else
        match cut_colon r with
        | Some (k, v) => Some (String c k, v)
        | None => None
        end
  end.

(** The key of a line [key:]. *)
Fixpoint header (s : string) : option string :=
  match s with
  | EmptyString => None
  | String c r =>
      if Ascii.eqb c ":" && PyStr.is_empty r then Some EmptyString
      else match header r with
           | Some k => Some (String c k)
           | None => None
           end
  end.

Definition scalar (text : string) : pyval :=
  if String.eqb text "null" then PNone else PStr text.

(** Reads the lines from the last one up: the indented entries met since
    the last top-level line, and the top-level entries. *)
Fixpoint read_lines (ls : list string)
    : option (PyDict.t * PyDict.t) :=
  match ls with
  | [] => Some ([], [])
  | l :: r =>
      match read_lines r with
      | None => None
      | Some (pending, entries) =>
          match l with
          | String " " (String " " l') =>
              match cut_colon l' with
              | Some (k, v) => Some ((k, scalar v) :: pending, entries)
              | None => None
              end
          | _ =>
              match cut_colon l, header l, pending with
              | Some (k, v), _, [] => Some ([], (k, scalar v) :: entries)
              | None, Some k, _ => Some ([], (k, PDict pending) :: entries)
              | _, _, _ => None
              end
          end
      end
  end.

Definition safe_load (text : string) : string + pyval :=
  match PyStr.splitlines text with
  | [] => inr PNone
  | ls =>
      match read_lines ls with
      | Some ([], entries) => inr (PDict entries)
      | _ => inl "mapping values are not allowed here"
      end
  end.

Definition scalar_text (v : pyval) : string :=
  match v with
  | PStr s => s
  | PNone => "null"
  | PList [] => "[]"
  | _ => "?"
  end.

Definition dump_flat (indent : string) (d : PyDict.t) : string :=
  String.concat ""
    (List.map (fun kv => indent +:+ fst kv +:+ ": " +:+ scalar_text (snd kv) +:+ "
") d).

(** An item of a sequence: a mapping starts on the line of the dash. *)
Definition dump_item (v : pyval) : string :=
  match v with
  | PDict (kv :: d) =>
      "- " +:+ fst kv +:+ ": " +:+ scalar_text (snd kv) +:+ "
" +:+ dump_flat "  " d
  | _ => "- " +:+ scalar_text v +:+ "
"
  end.

Definition dump_entry (kv : string * pyval) : string :=
  match snd kv with
  | PDict d => fst kv +:+ ":
" +:+ dump_flat "  " d
  | PList (x :: l) => fst kv +:+ ":
" +:+ String.concat "" (List.map dump_item (x :: l))
  | v => fst kv +:+ ": " +:+ scalar_text v +:+ "
"
  end.

Definition dump (v : pyval) : string :=
  match v with
  | PDict d => String.concat "" (List.map dump_entry d)
  | _ => ""
  end.

Definition repr (v : pyval) : string := dump v.

End BlockCodec.

(** ** Vocabulary of the specification *)

(** A non-empty run of decimal digits: the text of a non-negative integer. *)
Definition digit_run (s : string) : Prop :=
  s <> "" /\ PyStr.all_digits s = true.

Definition dotted (a b c : string) : string :=
  a +:+ "." +:+ b +:+ "." +:+ c.

(** The strict form ["M.N.P"]: three digit runs separated by two dots and
    nothing else. *)
Definition strict_form (s : string) : Prop :=
  exists a b c, digit_run a /\ digit_run b /\ digit_run c /\ s = dotted a b c.

(** The contract of the Version Bump Engine as the specification words it:
    a string in strict form has its patch component incremented, every other
    string comes back unchanged. *)
Definition bump_contract_as_specified : Prop :=
  (forall a b c, digit_run a -> digit_run b -> digit_run c ->
     bump_patch_version (dotted a b c)
     = format_version (PyStr.int_of_digits a) (PyStr.int_of_digits b)
                      (PyStr.int_of_digits c + 1))
  /\ (forall s, ~ strict_form s -> bump_patch_version s = s).

(** The two shapes of a manifest document: fields at the top level, or
    under a [manifest] key. *)
Definition flat_form (data : pyval) : Prop :=
  exists d, data = PDict d /\ PyDict.get "manifest" d = None.

Definition nested_form (data : pyval) : Prop :=
  exists d m, data = PDict d /\ PyDict.get "manifest" d = Some (PDict m).

(** The mapping that holds the fields of a manifest of either shape; [None]
    for a document of neither shape. *)
Definition manifest_view (data : pyval) : option PyDict.t :=
  match data with
  | PDict d =>
      match PyDict.get "manifest" d with
      | Some (PDict m) => Some m
      | Some _ => None
      | None => Some d
      end
  | _ => None
  end.

(** The document [data] with the mapping of its fields replaced by [m']. *)
Definition with_manifest (data : pyval) (m' : PyDict.t) : pyval :=
  match data with
  | PDict d =>
      match PyDict.get "manifest" d with
      | Some _ => PDict (PyDict.set "manifest" (PDict m') d)
      | None => PDict m'
      end
  | _ => data
  end.

(** [manifest.get("version", "0.0.0")] on the fields [m]. *)
Definition version_or_default (m : PyDict.t) : pyval :=
  match PyDict.get "version" m with
  | Some v => v
  | None => PStr "0.0.0"
  end.

(** "Only the flat top-level form is ever written": whatever document the
    bump hands to [yaml.dump] has its fields at the top level. *)
Definition writes_flat_form_as_specified : Prop :=
  forall (repr : pyval -> string) data data' old new w w',
    Update.bump_document repr data w = (w', Return (data', old, new)) ->
    flat_form data'.

(** The document a bump writes for a manifest whose fields are [m]: the
    version is replaced inside [m], nothing else moves. *)
Definition bumped_document (repr : pyval -> string) (data : pyval) (m : PyDict.t) : pyval :=
  with_manifest data
    (PyDict.set "version"
       (PStr (bump_patch_version (Update.py_str repr (version_or_default m)))) m).

(** The line printed by a bump. *)
Definition bump_message (repr : pyval -> string) (template_dir : string) (m : PyDict.t) : string :=
  "Bumped " +:+ template_dir +:+ " version: "
  +:+ Update.py_str repr (version_or_default m) +:+ " -> "
  +:+ bump_patch_version (Update.py_str repr (version_or_default m)).

(** The world after the manifest of [template_dir] has been rewritten as
    [text] and the bump reported with [line]. *)
Definition after_bump (w : world) (template_dir text line : string) : world :=
  World (dirs w) (<[manifest_path template_dir := text]> (files w)) (git w)
        (stdout w ++ [line])%list (stderr w)
        (writes w ++ [manifest_path template_dir])%list.

(** A manifest text that loads as a document of one of the two shapes. *)
Definition loads_as (load : string -> string + pyval) (text : string)
    (data : pyval) (m : PyDict.t) : Prop :=
  load text = inr data /\ manifest_view data = Some m.

(** A manifest text the update cannot work with: it does not parse, or it
    parses to something that is not a document of either shape. *)
Definition unusable (load : string -> string + pyval) (text : string) : Prop :=
  match load text with
  | inl _ => True
  | inr data => manifest_view data = None
  end.

(** The summary record of a template whose fields are [m]. *)
Definition summary_of (template_dir : string) (m : PyDict.t) : pyval :=
  let field k default :=
    match PyDict.get k m with Some v => v | None => default end in
  PDict [("id", field "id" (PStr template_dir));
         ("name", field "name" PNone);
         ("description", field "description" PNone);
         ("version", field "version" PNone);
         ("tags", field "tags" (PList []));
         ("keywords", field "keywords" (PList []))].

(** The finding of the Bump Decision Gate: a parent commit exists, the diff
    of the manifest between the two commits succeeds, is not empty, and has
    the marker [version:] somewhere in it. *)
Definition author_bumped (w : world) (template_dir : string) : bool :=
  let result := diff_path (git w) (manifest_path template_dir) in
  has_parent (git w)
  && (fst result =? 0)%Z
  && negb (PyStr.is_empty (snd result))
  && PyStr.contains "version:" (snd result).

(** The world after [info.yaml] has been rewritten as [text]. *)
Definition after_index (w : world) (text : string) : world :=
  World (dirs w) (<["info.yaml" := text]> (files w)) (git w)
        (stdout w ++ ["Updated info.yaml"])%list (stderr w)
        (writes w ++ ["info.yaml"])%list.

(** What [info_path.read_text() if info_path.exists() else ""] yields. *)
Definition existing_index (w : world) : string :=
  match files w !! "info.yaml" with
  | Some text => text
  | None => ""
  end.

(** The part of the world a run of the bump loop leaves alone when some
    manifest cannot be used: the listing, git, that manifest, the index. *)
Definition bump_loop_frame (w0 : world) (path text : string) (w : world) : Prop :=
  dirs w = dirs w0 /\ git w = git w0
  /\ files w !! path = Some text
  /\ files w !! "info.yaml" = files w0 !! "info.yaml"
  /\ exists l, writes w = (writes w0 ++ l)%list /\ "info.yaml" ∉ l.

(** The message the Validator builds for a changed file: none when the file
    is gone or parses, one when it is on disk and does not parse. *)
Definition parse_error (load : string -> string + pyval) (w : world) (f : string)
    : list string :=
  match files w !! f with
  | Some text =>
      match load text with
      | inl e => [f +:+ ": " +:+ e]
      | inr _ => []
      end
  | None => []
  end.

(** A changed file that fails the Validator: a YAML file, on disk, that does
    not parse. *)
Definition fails_to_parse (load : string -> string + pyval) (w : world) (f : string) : Prop :=
  Validate.is_yaml_file f = true
  /\ exists text e, files w !! f = Some text /\ load text = inl e.

(** Reading and loading the file [f], when it is on disk, ends with a
    value or with a [yaml.YAMLError], not with another exception. *)
Definition loads_quietly (escapes : string -> option py_error) (w : world) (f : string)
    : Prop :=
  forall text, files w !! f = Some text -> escapes text = None.

(** The line the Validator prints on success, for the names it reports. *)
Definition validated (names : list string) : string :=
  "Validated: " +:+
  match names with
  | [] => "no template changes"
  | _ => String.concat ", " names
  end.

(** The exit status of the Validator as the specification words it: nonzero
    exactly when a changed YAML file that is still on disk fails to parse. *)
Definition validator_contract_as_specified : Prop :=
  forall (load : string -> string + pyval) (escapes : string -> option py_error)
         (w : world),
    exit_status (snd (Validate.main load escapes w)) <> 0%Z
    <-> exists changed_files f,
          Validate.get_changed_files w = (w, Return changed_files)
          /\ f ∈ changed_files /\ fails_to_parse load w f.

(** [record] is the summary of the template [template_dir] as its manifest
    reads in [w]. *)
Definition template_record (load : string -> string + pyval) (w : world)
    (template_dir : string) (record : pyval) : Prop :=
  exists text data m,
    files w !! manifest_path template_dir = Some text
    /\ loads_as load text data m
    /\ record = summary_of template_dir m.

(** The keys of a summary record, in the order they are written. *)
Definition summary_keys : list string :=
  ["id"; "name"; "description"; "version"; "tags"; "keywords"].

(** The template directories of a world, in listing order. *)
Definition template_dirs_of (w : world) : list string :=
  List.filter (is_template_dir w) (dirs w).

(** What a run of update-catalog.py may have done to the world [w0]: write
    manifests of template directories and [info.yaml], print on standard
    output, and nothing else. *)
Definition update_footprint (w0 w : world) : Prop :=
  dirs w = dirs w0 /\ git w = git w0 /\ stderr w = stderr w0
  /\ (forall d, is_Some (files w !! manifest_path d)
                <-> is_Some (files w0 !! manifest_path d))
  /\ (exists l, writes w = (writes w0 ++ l)%list
                /\ forall p, p ∈ l ->
                     p = "info.yaml"
                     \/ exists d, d ∈ template_dirs_of w0 /\ p = manifest_path d)
  /\ (forall p, p <> "info.yaml" ->
        (forall d, d ∈ template_dirs_of w0 -> p <> manifest_path d) ->
        files w !! p = files w0 !! p).

(** A line that [strip()] and [splitlines()] leave whole: not empty, free
    of the characters [splitlines] cuts at, and with no white space at
    either end. *)
Fixpoint no_linebreak (s : string) : bool :=
  match s with
  | EmptyString => true
  | String c r => negb (PyStr.is_linebreak c) && no_linebreak r
  end.

Definition plain_line (s : string) : Prop :=
  no_linebreak s = true
  /\ (exists c t, s = String c t /\ PyStr.is_space c = false)
  /\ (exists x c, s = x +:+ String c "" /\ PyStr.is_space c = false).

(** The text made of the given lines, each ended by a line feed. *)
Definition lines_text (paths : list string) : string :=
  String.concat "" (List.map (fun p => p +:+ "
") paths).

(** ** Sample repositories for the closed examples *)

Module Sample.

(** A git that reports no difference for any path. *)
Definition no_diff (path : string) : Z * string := (0%Z, "").

(** The first commit of a repository: [HEAD~1] does not exist. *)
Definition first_commit : git_answers :=
  GitAnswers false None
    (Some "api/manifest.yaml
web/manifest.yaml
web/readme.md
") no_diff.

(** A commit that changed [web/readme.md] only. *)
Definition readme_commit : git_answers :=
  GitAnswers true (Some "web/readme.md
") None no_diff.

Definition repository (g : git_answers) (content : list (string * string)) : world :=
  World ["api"; ".github"; "web"] (list_to_map content) g [] [] [].

Definition flat_manifest : string := "id: web
version: 1.2.3
".

Definition nested_manifest : string := "manifest:
  id: api
  version: 0.9.9
".

Definition null_version_manifest : string := "id: web
version: null
".

Definition two_templates : list (string * string) :=
  [("api/manifest.yaml", nested_manifest); ("web/manifest.yaml", flat_manifest);
   ("web/readme.md", "hello")].

(** Two templates, after a commit that touched [web/readme.md]. *)
Definition after_readme_commit : world := repository readme_commit two_templates.

(** The same two templates in a repository with a single commit. *)
Definition after_first_commit : world := repository first_commit two_templates.

(** A template whose manifest has a null version. *)
Definition with_null_version : world :=
  repository readme_commit [("web/manifest.yaml", null_version_manifest)].

(** A template whose manifest is not valid, and one whose manifest is an
    empty document. *)
Definition with_invalid_manifest : world :=
  repository readme_commit
    [("api/manifest.yaml", nested_manifest); ("web/manifest.yaml", "id web")].

Definition with_empty_manifest : world :=
  repository readme_commit
    [("api/manifest.yaml", nested_manifest); ("web/manifest.yaml", "")].

(** The scripts with the block codec in the place of PyYAML. *)
Definition bump_manifest_version : string -> M bool :=
  Update.bump_manifest_version BlockCodec.safe_load BlockCodec.dump BlockCodec.repr.

Definition regenerate_info : M unit :=
  Update.regenerate_info BlockCodec.safe_load BlockCodec.dump.

Definition update_main : M Z :=
  Update.main BlockCodec.safe_load BlockCodec.dump BlockCodec.repr.

(** A commit that changed four YAML files, one of them not valid, and
    deleted a fifth. *)
Definition yaml_commit : git_answers :=
  GitAnswers true
    (Some "api/manifest.yaml
web/manifest.yaml
web/extra.yml
web/broken.yaml
web/deleted.yaml
web/readme.md
") None no_diff.

Definition after_yaml_commit : world :=
  repository yaml_commit
    [("api/manifest.yaml", nested_manifest); ("web/manifest.yaml", flat_manifest);
     ("web/extra.yml", "a: b"); ("web/broken.yaml", "id web");
     ("web/readme.md", "hello")].

(** Loading raises nothing but [yaml.YAMLError]. *)
Definition no_escape (text : string) : option py_error := None.

(** Loading the text [day: 2024-13-45] raises a [ValueError]. *)
Definition date_escape (text : string) : option py_error :=
  if String.eqb text "day: 2024-13-45" then Some ValueError else None.

Definition validate_main : M Z := Validate.main BlockCodec.safe_load no_escape.

(** The commit of [yaml_commit] with a fifth file that holds the date. *)
Definition with_bad_date : world :=
  repository yaml_commit
    [("api/manifest.yaml", nested_manifest); ("web/manifest.yaml", flat_manifest);
     ("web/extra.yml", "a: b"); ("web/broken.yaml", "id web");
     ("web/deleted.yaml", "day: 2024-13-45"); ("web/readme.md", "hello")].

(** A template whose version has two components only. *)
Definition with_short_version : world :=
  repository readme_commit [("web/manifest.yaml", "id: web
version: 1.2
")].

(** The template [web] with its fields under [manifest]. *)
Definition with_nested_web : world :=
  repository readme_commit [("web/manifest.yaml", "manifest:
  id: web
  version: 1.2.3
")].

(** A commit that changed a file at the root and a file of a directory
    that is not a template. *)
Definition docs_commit : git_answers :=
  GitAnswers true (Some "README.md
docs/guide.md
") None no_diff.

Definition after_docs_commit : world := repository docs_commit two_templates.

(** A repository in which git fails. *)
Definition broken_git : git_answers := GitAnswers true None None no_diff.

Definition with_broken_git : world := repository broken_git two_templates.

Definition get_manifest_version : string -> M (option string) :=
  Update.get_manifest_version BlockCodec.safe_load BlockCodec.repr.

(** A first commit in which the manifest of [web] is not valid. *)
Definition first_commit_with_invalid_manifest : world :=
  repository first_commit
    [("api/manifest.yaml", nested_manifest); ("web/manifest.yaml", "id web")].

(** Character tables for the closed examples: the decimal digits of three
    scripts (ASCII, Arabic-Indic, fullwidth) with their values, and the white
    space of [str.isspace]. *)
Definition to_decimal (c : N) : option N :=
  if (48 <=? c)%N && (c <? 58)%N then Some (c - 48)%N
  else if (1632 <=? c)%N && (c <? 1642)%N then Some (c - 1632)%N
  else if (65296 <=? c)%N && (c <? 65306)%N then Some (c - 65296)%N
  else None.

Definition is_space (c : N) : bool :=
  ((9 <=? c)%N && (c <=? 13)%N) || ((28 <=? c)%N && (c <=? 32)%N)
  || (c =? 133)%N || (c =? 160)%N || (c =? 5760)%N
  || ((8192 <=? c)%N && (c <=? 8202)%N)
  || (c =? 8232)%N || (c =? 8233)%N || (c =? 8239)%N || (c =? 8287)%N
  || (c =? 12288)%N.

(** ["\u0661.\u0662.\u0663"], a version in Arabic-Indic digits. *)
Definition arabic_indic_version : PyUnicode.str :=
  [1633; 46; 1634; 46; 1635]%N.

End Sample.

(** * Properties *)

(** ** Sample runs of the string functions *)

Example bump_1 : bump_patch_version "1.2.3" = "1.2.4". Proof. reflexivity. Qed.
Example bump_2 : bump_patch_version "1.2" = "1.2". Proof. reflexivity. Qed.
Example bump_3 : bump_patch_version " 01.2.9
" = "1.2.10". Proof. reflexivity. Qed.
Example bump_4 : bump_patch_version "1.2.3.4" = "1.2.3.4". Proof. reflexivity. Qed.
Example split_1 : PyStr.splitlines "a/b
c
" = ["a/b"; "c"]. Proof. reflexivity. Qed.

Example block_load_flat :
  BlockCodec.safe_load "id: web
version: 1.2.3
" = inr (PDict [("id", PStr "web"); ("version", PStr "1.2.3")]).
Proof. reflexivity. Qed.

Example block_load_nested :
  BlockCodec.safe_load "manifest:
  id: web
  version: 1.2.3
" = inr (PDict [("manifest", PDict [("id", PStr "web"); ("version", PStr "1.2.3")])]).
Proof. reflexivity. Qed.

Example block_load_empty : BlockCodec.safe_load "" = inr PNone.
Proof. reflexivity. Qed.

Example block_load_invalid :
  BlockCodec.safe_load "id web" = inl "mapping values are not allowed here".
Proof. reflexivity. Qed.

Example block_dump_nested :
  BlockCodec.dump (PDict [("manifest", PDict [("id", PStr "web"); ("version", PNone)])])
  = "manifest:
  id: web
  version: null
".
Proof. reflexivity. Qed.

(** ** Digit runs, [strip] and decimal rendering *)

#[local] Arguments String.append !_ _ / : simpl nomatch.

Section StringFacts.
Import PyStr.

Lemma append_nil_r (s : string) : s +:+ "" = s.
Proof. induction s as [|c s IH]; simpl; [done | by rewrite IH]. Qed.

Lemma append_assoc (a b c : string) : (a +:+ b) +:+ c = a +:+ (b +:+ c).
Proof. induction a as [|x a IH]; simpl; [done | by rewrite IH]. Qed.

Lemma is_empty_false (s : string) : is_empty s = false <-> s <> "".
Proof. destruct s; simpl; split; congruence. Qed.

Lemma digit_not_space (c : ascii) : is_digit c = true -> is_space c = false.
Proof.
  unfold is_digit, is_space. intros H.
  apply andb_true_iff in H as [H1 H2].
  apply N.leb_le in H1, H2.
  repeat match goal with
         | |- context [(?a <=? ?b)%N] => destruct (N.leb_spec a b)
         | |- context [(?a =? ?b)%N] => destruct (N.eqb_spec a b)
         end; simpl; try reflexivity; lia.
Qed.

(** [span_digits] cuts the string in two, a digit run first. *)
Lemma span_digits_split (s d t : string) :
  span_digits s = (d, t) ->
  s = d +:+ t /\ all_digits d = true
  /\ match t with String c _ => is_digit c = false | EmptyString => True end.
Proof.
  revert d t. induction s as [|c s IH]; simpl; intros d t H.
  - by inversion H.
  - destruct (is_digit c) eqn:Hc.
    + destruct (span_digits s) as [d' t'] eqn:Hs. inversion H; subst.
      destruct (IH _ _ eq_refl) as (-> & Hd & Ht).
      simpl. by rewrite Hc, Hd.
    + inversion H; subst. simpl. by rewrite Hc.
Qed.

(** A digit run followed by something that is not a digit is found whole. *)
Lemma span_digits_app (d t : string) :
  all_digits d = true ->
  match t with String c _ => is_digit c = false | EmptyString => True end ->
  span_digits (d +:+ t) = (d, t).
Proof.
  intros Hd Ht. induction d as [|c d IH]; simpl in *.
  - destruct t as [|c t]; simpl; [done | by rewrite Ht].
  - apply andb_true_iff in Hd as [Hc Hd]. by rewrite Hc, (IH Hd).
Qed.

(** [rstrip] leaves no white space at the end. *)
Lemma rstrip_last (s x : string) (c : ascii) :
  rstrip s = x +:+ String c "" -> is_space c = false.
Proof.
  revert x. induction s as [|a s IH]; simpl; intros x H.
  - by destruct x.
  - destruct (is_space a && is_empty (rstrip s)) eqn:E.
    + by destruct x.
    + destruct x as [|b x]; simpl in H; inversion H; subst.
      * apply andb_false_iff in E as [E|E]; [done|].
        rewrite H2 in E. discriminate.
      * by eapply IH.
Qed.

Lemma strip_last (s x : string) (c : ascii) :
  strip s = x +:+ String c "" -> is_space c = false.
Proof. apply rstrip_last. Qed.

(** [rstrip] is the identity on a string that ends with a visible
    character. *)
Lemma rstrip_id (x : string) (c : ascii) :
  is_space c = false -> rstrip (x +:+ String c "") = x +:+ String c "".
Proof.
  intros Hc. induction x as [|a x IH]; simpl.
  - by rewrite Hc.
  - rewrite IH. destruct x; simpl; by rewrite andb_false_r.
Qed.

Lemma lstrip_id (s : string) :
  match s with String c _ => is_space c = false | EmptyString => True end ->
  lstrip s = s.
Proof. destruct s as [|c s]; simpl; [done|]. by intros ->. Qed.

Lemma int_of_digits_from_acc (acc : N) (s : string) :
  int_of_digits_from acc s
  = (acc * 10 ^ N.of_nat (String.length s) + int_of_digits_from 0 s)%N.
Proof.
  revert acc. induction s as [|c s IH]; intros acc.
  - simpl. lia.
  - cbn [int_of_digits_from String.length].
    rewrite IH, (IH (0 * 10 + digit_value c)%N).
    rewrite Nat2N.inj_succ, N.pow_succ_r'. lia.
Qed.

Lemma digit_value_char (d : N) :
  (d < 10)%N -> digit_value (pretty_N_char d) = d /\ is_digit (pretty_N_char d) = true.
Proof.
  intros H.
  assert (d = 0 \/ d = 1 \/ d = 2 \/ d = 3 \/ d = 4 \/ d = 5 \/ d = 6
          \/ d = 7 \/ d = 8 \/ d = 9)%N as Hd by lia.
  repeat destruct Hd as [->|Hd]; try subst d; by vm_compute.
Qed.

(** The digits written by [pretty], read back. *)
Lemma pretty_N_go_spec (x : N) (s : string) :
  all_digits s = true ->
  all_digits (pretty_N_go x s) = true
  /\ int_of_digits (pretty_N_go x s)
     = (x * 10 ^ N.of_nat (String.length s) + int_of_digits s)%N
  /\ (s <> "" -> pretty_N_go x s <> "").
Proof.
  revert s. induction (N.lt_wf_0 x) as [x _ IH]; intros s Hs.
  destruct (decide (0 < x)%N) as [Hx|Hx].
  - rewrite pretty_N_go_step by done.
    assert (x `mod` 10 < 10)%N as Hm by (apply N.mod_lt; lia).
    destruct (digit_value_char _ Hm) as [Hv Hd].
    destruct (IH (x `div` 10)%N) with (s := String (pretty_N_char (x `mod` 10)) s)
      as (H1 & H2 & H3).
    + apply N.div_lt; lia.
    + simpl. by rewrite Hd, Hs.
    + split; [done|]. split; [|intros _; by apply H3].
      rewrite H2. unfold int_of_digits.
      cbn [int_of_digits_from String.length].
      rewrite (int_of_digits_from_acc (0 * 10 + _)), Hv.
      rewrite Nat2N.inj_succ, N.pow_succ_r'.
      pose proof (N.div_mod x 10). lia.
  - assert (x = 0%N) as -> by lia. rewrite pretty_N_go_0.
    split; [done|]. split; [simpl; lia | done].
Qed.

Lemma pretty_N_digits (n : N) :
  all_digits (pretty n) = true /\ int_of_digits (pretty n) = n /\ pretty n <> "".
Proof.
  unfold pretty, pretty_N. destruct (decide (n = 0%N)) as [->|Hn].
  - by vm_compute.
  - rewrite pretty_N_go_step by lia.
    assert (n `mod` 10 < 10)%N as Hm by (apply N.mod_lt; lia).
    destruct (digit_value_char _ Hm) as [Hv Hd].
    destruct (pretty_N_go_spec (n `div` 10)%N (String (pretty_N_char (n `mod` 10)) ""))
      as (H1 & H2 & H3).
    + simpl. by rewrite Hd.
    + split; [done|]. split; [|by apply H3].
      rewrite H2. unfold int_of_digits. simpl int_of_digits_from.
      rewrite Hv. simpl String.length. pose proof (N.div_mod n 10). lia.
Qed.

Lemma length_append (a b : string) :
  String.length (a +:+ b) = String.length a + String.length b.
Proof. induction a as [|c a IH]; simpl; [done | by rewrite IH]. Qed.

Lemma manifest_path_not_index (template_dir : string) :
  manifest_path template_dir <> "info.yaml".
Proof.
  intros H. apply (f_equal String.length) in H.
  unfold manifest_path in H. rewrite length_append in H. simpl in H. lia.
Qed.

Lemma append_inv_tail (a b t : string) : a +:+ t = b +:+ t -> a = b.
Proof.
  revert b. induction a as [|x a IH]; intros [|y b] H; simpl in H.
  - done.
  - apply (f_equal String.length) in H. simpl in H.
    rewrite length_append in H. lia.
  - apply (f_equal String.length) in H. simpl in H.
    rewrite length_append in H. lia.
  - inversion H. f_equal. by apply IH.
Qed.

Lemma manifest_path_inj (d d' : string) :
  manifest_path d = manifest_path d' -> d = d'.
Proof. apply append_inv_tail. Qed.

Lemma startswith_spec (p s : string) :
  startswith p s = true <-> exists post, s = p +:+ post.
Proof.
  revert s. induction p as [|a p IH]; intros s; simpl.
  - split; [intros _; by exists s | done].
  - destruct s as [|b s].
    + split; [done | intros [post H]; discriminate H].
    + destruct (Ascii.eqb_spec a b) as [->|Hab].
      * rewrite IH. split; intros [post H]; exists post.
        -- by rewrite H.
        -- by inversion H.
      * split; [done | intros [post H]; inversion H; done].
Qed.

(** [p in s] says that [s] is some text, then [p], then some text. *)
Lemma contains_spec (p s : string) :
  contains p s = true <-> exists pre post, s = pre +:+ p +:+ post.
Proof.
  induction s as [|c s IH].
  - cbn [contains]. rewrite orb_false_r, startswith_spec. split.
    + intros [post H]. by exists "", post.
    + intros (pre & post & H). destruct pre; [by exists post | discriminate H].
  - cbn [contains]. rewrite orb_true_iff, startswith_spec, IH. split.
    + intros [[post H] | (pre & post & H)].
      * by exists "", post.
      * exists (String c pre), post. simpl. by rewrite H.
    + intros (pre & post & H). destruct pre as [|x pre].
      * left. by exists post.
      * right. simpl in H. inversion H. by exists pre, post.
Qed.

End StringFacts.

(** ** The Version Bump Engine *)

Section BumpEngine.
Import PyStr.

Lemma digit_run_head (s : string) :
  digit_run s ->
  exists c r, s = String c r /\ is_digit c = true /\ all_digits r = true.
Proof.
  intros [Hne Hd]. destruct s as [|c r]; [done|].
  simpl in Hd. apply andb_true_iff in Hd as [? ?]. eauto.
Qed.

Lemma digit_run_last (s : string) :
  digit_run s -> exists x c, s = x +:+ String c "" /\ is_digit c = true.
Proof.
  intros [Hne Hd]. induction s as [|a s IH]; [done|].
  simpl in Hd. apply andb_true_iff in Hd as [Ha Hs].
  destruct s as [|b s].
  - exists "", a. done.
  - destruct IH as (x & c & Hx & Hc); [done | done |].
    exists (String a x), c. simpl. by rewrite Hx.
Qed.

Lemma digit_run_pretty (n : N) : digit_run (pretty n).
Proof. destruct (pretty_N_digits n) as (? & ? & ?). by split. Qed.

Lemma SEMVER_PATTERN_match_dotted (a b c : string) :
  digit_run a -> digit_run b -> digit_run c ->
  SEMVER_PATTERN_match (dotted a b c) = Some (a, b, c).
Proof.
  intros [Ha1 Ha2] [Hb1 Hb2] [Hc1 Hc2].
  unfold SEMVER_PATTERN_match, dotted.
  rewrite (span_digits_app a) by done.
  apply is_empty_false in Ha1 as ->. simpl.
  rewrite (span_digits_app b) by done.
  apply is_empty_false in Hb1 as ->. simpl.
  rewrite <- (append_nil_r c) at 1.
  rewrite (span_digits_app c) by done.
  by apply is_empty_false in Hc1 as ->.
Qed.

Lemma SEMVER_PATTERN_match_inv (s a b c : string) :
  SEMVER_PATTERN_match s = Some (a, b, c) ->
  digit_run a /\ digit_run b /\ digit_run c
  /\ (s = dotted a b c \/ s = dotted a b c +:+ String "010" "").
Proof.
  unfold SEMVER_PATTERN_match, dotted, digit_run.
  destruct (span_digits s) as [a' r1] eqn:E1.
  destruct (is_empty a') eqn:Ea; [done|].
  destruct r1 as [|x1 r1']; [done|].
  destruct (Ascii.eqb_spec x1 ".") as [->|Hx1]; cycle 1.
  { destruct x1 as [[] [] [] [] [] [] [] []]; done. }
  destruct (span_digits r1') as [b' r2] eqn:E2.
  destruct (is_empty b') eqn:Eb; [done|].
  destruct r2 as [|x2 r2']; [done|].
  destruct (Ascii.eqb_spec x2 ".") as [->|Hx2]; cycle 1.
  { destruct x2 as [[] [] [] [] [] [] [] []]; done. }
  destruct (span_digits r2') as [c' r3] eqn:E3.
  destruct (is_empty c') eqn:Ec; [done|].
  apply span_digits_split in E1 as (-> & Ha & _).
  apply span_digits_split in E2 as (-> & Hb & _).
  apply span_digits_split in E3 as (-> & Hc & _).
  apply is_empty_false in Ea, Eb, Ec.
  intros H.
  assert ((a', b', c') = (a, b, c)
          /\ (r3 = "" \/ r3 = String "010" "")) as [Heq Hr3].
  { destruct r3 as [|x3 r3']; [by inversion H; auto|].
    destruct (Ascii.eqb_spec x3 "010") as [->|Hx3]; cycle 1.
    { destruct x3 as [[] [] [] [] [] [] [] []]; done. }
    destruct r3'; [by inversion H; auto | done]. }
  inversion Heq; subst. repeat split; try done.
  destruct Hr3 as [-> | ->]; [left | right].
  - by rewrite append_nil_r.
  - by rewrite !append_assoc.
Qed.

Lemma strip_dotted (a b c : string) :
  digit_run a -> digit_run b -> digit_run c ->
  strip (dotted a b c) = dotted a b c.
Proof.
  intros Ha _ Hc. unfold strip.
  destruct (digit_run_head a Ha) as (x & r & -> & Hx & _).
  destruct (digit_run_last c Hc) as (y & z & -> & Hz).
  unfold dotted. rewrite lstrip_id by (simpl; by apply digit_not_space).
  replace (String x r +:+ "." +:+ b +:+ "." +:+ y +:+ String z "")
    with ((String x r +:+ "." +:+ b +:+ "." +:+ y) +:+ String z "")
    by (by rewrite !append_assoc).
  apply rstrip_id. by apply digit_not_space.
Qed.

(** After [strip()] the final line feed that [$] tolerates cannot occur. *)
Lemma SEMVER_PATTERN_match_strip (s a b c : string) :
  SEMVER_PATTERN_match (strip s) = Some (a, b, c) ->
  digit_run a /\ digit_run b /\ digit_run c /\ strip s = dotted a b c.
Proof.
  intros H. apply SEMVER_PATTERN_match_inv in H as (Ha & Hb & Hc & [H|H]).
  - done.
  - apply strip_last in H. discriminate H.
Qed.

Lemma strict_form_head (s : string) :
  strict_form s ->
  match s with String c _ => is_digit c = true | EmptyString => False end.
Proof.
  intros (a & b & c & Ha & _ & _ & ->).
  destruct (digit_run_head a Ha) as (x & r & -> & Hx & _). done.
Qed.

End BumpEngine.

(** A version that matches after [strip()] has its three numbers written
    back in plain decimal, the last one incremented. *)
Lemma bump_patch_version_dotted (s a b c : string) :
  digit_run a -> digit_run b -> digit_run c ->
  PyStr.strip s = dotted a b c ->
  bump_patch_version s
  = format_version (PyStr.int_of_digits a) (PyStr.int_of_digits b)
                   (PyStr.int_of_digits c + 1).
Proof.
  intros Ha Hb Hc Hs. unfold bump_patch_version.
  by rewrite Hs, SEMVER_PATTERN_match_dotted.
Qed.

Lemma bump_patch_version_format (major minor patch : N) :
  bump_patch_version (format_version major minor patch)
  = format_version major minor (patch + 1).
Proof.
  rewrite (bump_patch_version_dotted _ (pretty major) (pretty minor) (pretty patch));
    try apply digit_run_pretty.
  - destruct (pretty_N_digits major) as (_ & -> & _).
    destruct (pretty_N_digits minor) as (_ & -> & _).
    by destruct (pretty_N_digits patch) as (_ & -> & _).
  - apply strip_dotted; apply digit_run_pretty.
Qed.

(** The engine on texts of code points 0..255, where the only decimal
    digits are the ASCII ones: it looks at the input with the white space
    around it removed.  When that text is in the strict form of three digit
    runs [a.b.c], the result is the three numbers written in plain decimal,
    the last one incremented; when it is not, the input is returned as it
    came.  In particular a version written from three numbers [M.N.P]
    becomes [M.N.(P+1)]. *)
Lemma bump_patch_version_spec :
  (forall s a b c, digit_run a -> digit_run b -> digit_run c ->
     PyStr.strip s = dotted a b c ->
     bump_patch_version s
     = format_version (PyStr.int_of_digits a) (PyStr.int_of_digits b)
                      (PyStr.int_of_digits c + 1))
  /\ (forall s, ~ strict_form (PyStr.strip s) -> bump_patch_version s = s)
  /\ (forall major minor patch : N,
        bump_patch_version (format_version major minor patch)
        = format_version major minor (patch + 1)).
Proof.
  split; [exact bump_patch_version_dotted|]. split.
  - intros s Hs. unfold bump_patch_version.
    destruct (SEMVER_PATTERN_match (PyStr.strip s)) as [[[a b] c]|] eqn:E; [|done].
    apply SEMVER_PATTERN_match_strip in E as (Ha & Hb & Hc & E).
    destruct Hs. by exists a, b, c.
  - exact bump_patch_version_format.
Qed.

(** The engine at work on [" 01.2.9"]: surrounding white space and leading
    zeros are absorbed. *)
Lemma bump_patch_version_spec_witness :
  PyStr.strip " 01.2.9" = dotted "01" "2" "9"
  /\ bump_patch_version " 01.2.9" = "1.2.10"
  /\ bump_patch_version "1.2" = "1.2".
Proof.
  destruct bump_patch_version_spec as (Hmatch & Hother & _).
  split; [reflexivity|]. split.
  - rewrite (Hmatch " 01.2.9" "01" "2" "9"); try (split; [discriminate | reflexivity]);
      reflexivity.
  - apply Hother. intros (a & b & c & Ha & Hb & Hc & H).
    destruct Ha as [Ha1 Ha2], Hb as [Hb1 Hb2], Hc as [Hc1 Hc2].
    pose proof (SEMVER_PATTERN_match_dotted a b c (conj Ha1 Ha2) (conj Hb1 Hb2)
                  (conj Hc1 Hc2)) as Hm.
    rewrite <- H in Hm. discriminate Hm.
Defined.

(** C1 as the specification states it does not hold: [" 1.2.3"] is not in the
    strict form, because of its leading space, and yet it is not returned
    unchanged. *)
Lemma bump_contract_as_specified_fails : ~ bump_contract_as_specified.
Proof.
  intros [_ H]. specialize (H " 1.2.3").
  assert (bump_patch_version " 1.2.3" = "1.2.4") as E by reflexivity.
  rewrite E in H. discriminate H.
  intros Hs. apply strict_form_head in Hs. discriminate Hs.
Qed.

(** ** The Version Bump Engine on every Python string *)

Section UnicodeEngine.
Variable to_decimal : N -> option N.
Variable is_space : N -> bool.

#[local] Abbreviation str := PyUnicode.str.
#[local] Abbreviation of_string := PyUnicode.of_string.
#[local] Abbreviation udotted := PyUnicode.dotted.

#[local] Abbreviation is_digit := (PyUnicode.is_digit to_decimal).
#[local] Abbreviation span_digits := (PyUnicode.span_digits to_decimal).
#[local] Abbreviation int_of_digits := (PyUnicode.int_of_digits to_decimal).
#[local] Abbreviation digit_run := (PyUnicode.digit_run to_decimal).
#[local] Abbreviation strict_form := (PyUnicode.strict_form to_decimal).
#[local] Abbreviation lstrip := (PyUnicode.lstrip is_space).
#[local] Abbreviation rstrip := (PyUnicode.rstrip is_space).
#[local] Abbreviation strip := (PyUnicode.strip is_space).
#[local] Abbreviation SEMVER_PATTERN_match := (PyUnicode.SEMVER_PATTERN_match to_decimal).
#[local] Abbreviation bump_patch_version :=
  (PyUnicode.bump_patch_version to_decimal is_space).

Lemma of_string_app (a b : string) :
  of_string (a +:+ b) = (of_string a ++ of_string b)%list.
Proof.
  unfold PyUnicode.of_string. induction a as [|c a IH]; [done|].
  simpl. by rewrite IH.
Qed.

Lemma of_string_nil (s : string) : of_string s = [] -> s = "".
Proof. by destruct s. Qed.

Lemma unicode_span_digits_split (s d t : str) :
  span_digits s = (d, t) ->
  s = (d ++ t)%list /\ forallb is_digit d = true
  /\ match t with c :: _ => is_digit c = false | [] => True end.
Proof.
  revert d t. induction s as [|c s IH]; simpl; intros d t H.
  - by inversion H.
  - destruct (is_digit c) eqn:Hc.
    + destruct (span_digits s) as [d' t'] eqn:Hs. inversion H; subst.
      destruct (IH _ _ eq_refl) as (-> & Hd & Ht).
      simpl. by rewrite Hc, Hd.
    + inversion H; subst. simpl. by rewrite Hc.
Qed.

Lemma unicode_span_digits_app (d t : str) :
  forallb is_digit d = true ->
  match t with c :: _ => is_digit c = false | [] => True end ->
  span_digits (d ++ t)%list = (d, t).
Proof.
  intros Hd Ht. induction d as [|c d IH]; simpl in *.
  - destruct t as [|c t]; simpl; [done | by rewrite Ht].
  - apply andb_true_iff in Hd as [Hc Hd]. by rewrite Hc, (IH Hd).
Qed.

Lemma unicode_rstrip_last (s x : str) (c : N) :
  rstrip s = (x ++ [c])%list -> is_space c = false.
Proof.
  revert x. induction s as [|a s IH]; simpl; intros x H.
  - by destruct x.
  - destruct (is_space a && PyUnicode.is_empty (rstrip s)) eqn:E.
    + by destruct x.
    + destruct x as [|b x]; simpl in H; inversion H; subst.
      * apply andb_false_iff in E as [E|E]; [done|].
        rewrite H2 in E. discriminate.
      * by eapply IH.
Qed.

Lemma unicode_rstrip_id (x : str) (c : N) :
  is_space c = false -> rstrip (x ++ [c])%list = (x ++ [c])%list.
Proof.
  intros Hc. induction x as [|a x IH]; simpl.
  - by rewrite Hc.
  - rewrite IH. destruct x; simpl; by rewrite andb_false_r.
Qed.

Lemma unicode_lstrip_id (s : str) :
  match s with c :: _ => is_space c = false | [] => True end ->
  lstrip s = s.
Proof. destruct s as [|c s]; simpl; [done|]. by intros ->. Qed.

Lemma unicode_SEMVER_PATTERN_match_inv (s a b c : str) :
  SEMVER_PATTERN_match s = Some (a, b, c) ->
  digit_run a /\ digit_run b /\ digit_run c
  /\ (s = udotted a b c \/ s = (udotted a b c ++ [10%N])%list).
Proof.
  unfold PyUnicode.SEMVER_PATTERN_match, PyUnicode.dotted, PyUnicode.digit_run.
  destruct (span_digits s) as [a' r1] eqn:E1.
  destruct a' as [|a0 a']; [done|].
  destruct r1 as [|x1 r1']; [done|].
  destruct (N.eqb_spec x1 46) as [->|]; [|done]. cbn [negb].
  destruct (span_digits r1') as [b' r2] eqn:E2.
  destruct b' as [|b0 b']; [done|].
  destruct r2 as [|x2 r2']; [done|].
  destruct (N.eqb_spec x2 46) as [->|]; [|done]. cbn [negb].
  destruct (span_digits r2') as [c' r3] eqn:E3.
  destruct c' as [|c0 c']; [done|].
  apply unicode_span_digits_split in E1 as (-> & Ha & _).
  apply unicode_span_digits_split in E2 as (-> & Hb & _).
  apply unicode_span_digits_split in E3 as (-> & Hc & _).
  intros H.
  assert ((a0 :: a', b0 :: b', c0 :: c') = (a, b, c)
          /\ (r3 = [] \/ r3 = [10%N])) as [Heq Hr3].
  { destruct r3 as [|x3 r3']; [by inversion H; auto|].
    destruct r3'; [|done].
    destruct (N.eqb_spec x3 10) as [->|]; [|done]. by inversion H; auto. }
  inversion Heq; subst. repeat split; try done.
  destruct Hr3 as [-> | ->]; [left | right].
  - by rewrite app_nil_r.
  - by repeat (rewrite <- app_assoc || rewrite <- app_comm_cons).
Qed.

Section WithTables.
Hypothesis Htables : PyUnicode.tables_of_python to_decimal is_space.

Lemma unicode_dot_is_no_digit : is_digit 46 = false.
Proof.
  destruct Htables as (_ & Hdot & _). unfold PyUnicode.is_digit. by rewrite Hdot.
Qed.

Lemma unicode_digit_not_space (c : N) : is_digit c = true -> is_space c = false.
Proof.
  destruct Htables as (_ & _ & _ & Hspace). unfold PyUnicode.is_digit.
  destruct (is_space c) eqn:Hc; [|done]. by rewrite (Hspace c Hc).
Qed.

Lemma unicode_digit_run_head (s : str) :
  digit_run s -> exists c r, s = c :: r /\ is_digit c = true.
Proof.
  intros [Hne Hd]. destruct s as [|c r]; [done|].
  simpl in Hd. apply andb_true_iff in Hd as [? ?]. eauto.
Qed.

Lemma unicode_digit_run_last (s : str) :
  digit_run s -> exists x c, s = (x ++ [c])%list /\ is_digit c = true.
Proof.
  intros [Hne Hd]. induction s as [|a s IH]; [done|].
  simpl in Hd. apply andb_true_iff in Hd as [Ha Hs].
  destruct s as [|b s].
  - by exists [], a.
  - destruct IH as (x & c & Hx & Hc); [done | done |].
    exists (a :: x), c. simpl. by rewrite Hx.
Qed.

Lemma unicode_SEMVER_PATTERN_match_dotted (a b c : str) :
  digit_run a -> digit_run b -> digit_run c ->
  SEMVER_PATTERN_match (udotted a b c) = Some (a, b, c).
Proof.
  intros [Ha1 Ha2] [Hb1 Hb2] [Hc1 Hc2].
  unfold PyUnicode.SEMVER_PATTERN_match, PyUnicode.dotted.
  rewrite (unicode_span_digits_app a) by (done || apply unicode_dot_is_no_digit).
  destruct a as [|a0 a]; [done|]. cbn [N.eqb negb]. change (46 =? 46)%N with true.
  cbn [negb].
  rewrite (unicode_span_digits_app b) by (done || apply unicode_dot_is_no_digit).
  destruct b as [|b0 b]; [done|]. change (46 =? 46)%N with true. cbn [negb].
  rewrite <- (app_nil_r c) at 1.
  rewrite (unicode_span_digits_app c) by done.
  by destruct c as [|c0 c].
Qed.

Lemma unicode_strip_dotted (a b c : str) :
  digit_run a -> digit_run b -> digit_run c ->
  strip (udotted a b c) = udotted a b c.
Proof.
  intros Ha _ Hc. unfold PyUnicode.strip.
  destruct (unicode_digit_run_head a Ha) as (x & r & -> & Hx).
  destruct (unicode_digit_run_last c Hc) as (y & z & -> & Hz).
  unfold PyUnicode.dotted. rewrite unicode_lstrip_id by (simpl; by apply unicode_digit_not_space).
  replace ((x :: r) ++ 46%N :: b ++ 46%N :: y ++ [z])%list
    with (((x :: r) ++ 46%N :: b ++ 46%N :: y) ++ [z])%list.
  - apply unicode_rstrip_id. by apply unicode_digit_not_space.
  - by repeat (rewrite <- app_assoc || rewrite <- app_comm_cons).
Qed.

(** After [strip()] the final line feed that [$] tolerates cannot occur. *)
Lemma unicode_SEMVER_PATTERN_match_strip (s a b c : str) :
  SEMVER_PATTERN_match (strip s) = Some (a, b, c) ->
  digit_run a /\ digit_run b /\ digit_run c /\ strip s = udotted a b c.
Proof.
  intros H. apply unicode_SEMVER_PATTERN_match_inv in H as (Ha & Hb & Hc & [H|H]).
  - done.
  - apply unicode_rstrip_last in H. destruct Htables as (_ & _ & Hlf & _). congruence.
Qed.

(** The ASCII digits written by the f-string, read by the tables. *)
Lemma unicode_ascii_digits (s : string) (acc : N) :
  PyStr.all_digits s = true ->
  forallb is_digit (of_string s) = true
  /\ PyUnicode.int_of_digits_from to_decimal acc (of_string s)
     = PyStr.int_of_digits_from acc s.
Proof.
  destruct Htables as (Hascii & _).
  revert acc. induction s as [|c s IH]; intros acc Hs; [done|].
  cbn [PyStr.all_digits] in Hs. apply andb_true_iff in Hs as [Hc Hs].
  assert (to_decimal (N_of_ascii c) = Some (PyStr.digit_value c)) as Hv.
  { unfold PyStr.is_digit, PyStr.code in Hc. apply andb_true_iff in Hc as [H1 H2].
    apply N.leb_le in H1, H2. unfold PyStr.digit_value, PyStr.code.
    replace (N_of_ascii c) with (48 + (N_of_ascii c - 48))%N at 1 by lia.
    apply Hascii. lia. }
  change (of_string (String c s)) with (N_of_ascii c :: of_string s).
  cbn [forallb PyUnicode.int_of_digits_from PyStr.int_of_digits_from].
  unfold PyUnicode.is_digit at 1, PyUnicode.digit_value. rewrite Hv.
  destruct (IH (acc * 10 + PyStr.digit_value c)%N Hs) as [-> ->]. done.
Qed.

Lemma unicode_pretty_digits (n : N) :
  digit_run (of_string (pretty n)) /\ int_of_digits (of_string (pretty n)) = n.
Proof.
  destruct (pretty_N_digits n) as (Hd & Hint & Hne).
  destruct (unicode_ascii_digits (pretty n) 0 Hd) as [Hall Hval].
  split; [split|].
  - intros H. by apply of_string_nil in H.
  - done.
  - unfold PyUnicode.int_of_digits. by rewrite Hval.
Qed.

Lemma unicode_format_version_dotted (major minor patch : N) :
  PyUnicode.format_version major minor patch
  = udotted (of_string (pretty major)) (of_string (pretty minor))
      (of_string (pretty patch)).
Proof.
  unfold PyUnicode.format_version, format_version, PyUnicode.dotted.
  by rewrite !of_string_app.
Qed.

Lemma unicode_bump_patch_version_dotted (s a b c : str) :
  digit_run a -> digit_run b -> digit_run c ->
  strip s = udotted a b c ->
  bump_patch_version s
  = PyUnicode.format_version (int_of_digits a) (int_of_digits b)
      (int_of_digits c + 1).
Proof.
  intros Ha Hb Hc Hs. unfold PyUnicode.bump_patch_version.
  by rewrite Hs, unicode_SEMVER_PATTERN_match_dotted.
Qed.

Lemma unicode_bump_patch_version_other (s : str) :
  ~ strict_form (strip s) -> bump_patch_version s = s.
Proof.
  intros Hs. unfold PyUnicode.bump_patch_version.
  destruct (SEMVER_PATTERN_match (strip s)) as [[[a b] c]|] eqn:E; [|done].
  apply unicode_SEMVER_PATTERN_match_strip in E as (Ha & Hb & Hc & E).
  destruct Hs. by exists a, b, c.
Qed.

Lemma unicode_format_version_strict (major minor patch : N) :
  strict_form (PyUnicode.format_version major minor patch)
  /\ strip (PyUnicode.format_version major minor patch)
     = PyUnicode.format_version major minor patch.
Proof.
  rewrite unicode_format_version_dotted. split.
  - eexists _, _, _. repeat split; try apply unicode_pretty_digits.
  - apply unicode_strip_dotted; apply unicode_pretty_digits.
Qed.

Lemma unicode_bump_patch_version_format (major minor patch : N) :
  bump_patch_version (PyUnicode.format_version major minor patch)
  = PyUnicode.format_version major minor (patch + 1).
Proof.
  rewrite (unicode_bump_patch_version_dotted _ (of_string (pretty major))
             (of_string (pretty minor)) (of_string (pretty patch)));
    try apply unicode_pretty_digits.
  - destruct (unicode_pretty_digits major) as [_ ->].
    destruct (unicode_pretty_digits minor) as [_ ->].
    by destruct (unicode_pretty_digits patch) as [_ ->].
  - rewrite <- unicode_format_version_dotted. apply unicode_format_version_strict.
Qed.

Lemma unicode_dotted_inj (a b c a' b' c' : str) :
  digit_run a -> digit_run b -> digit_run c ->
  digit_run a' -> digit_run b' -> digit_run c' ->
  udotted a b c = udotted a' b' c' -> a = a' /\ b = b' /\ c = c'.
Proof.
  intros Ha Hb Hc Ha' Hb' Hc' H.
  pose proof (unicode_SEMVER_PATTERN_match_dotted a b c Ha Hb Hc) as H1.
  pose proof (unicode_SEMVER_PATTERN_match_dotted a' b' c' Ha' Hb' Hc') as H2.
  rewrite H in H1. rewrite H1 in H2. by inversion H2.
Qed.

End WithTables.
End UnicodeEngine.

(** C1 (as corrected).  [bump_patch_version] looks at its argument with the
    white space around it removed.  When that text is three non-empty runs of
    decimal digits, of any script, separated by two dots, the result is the
    three numbers written in ASCII decimal, the last one incremented; in
    particular [M.N.P] becomes [M.N.(P+1)].  Any other argument is returned
    as it came. *)
Theorem unicode_bump_patch_version_spec
    (to_decimal : N -> option N) (is_space : N -> bool) :
  PyUnicode.tables_of_python to_decimal is_space ->
  (forall s a b c,
     PyUnicode.digit_run to_decimal a -> PyUnicode.digit_run to_decimal b ->
     PyUnicode.digit_run to_decimal c ->
     PyUnicode.strip is_space s = PyUnicode.dotted a b c ->
     PyUnicode.bump_patch_version to_decimal is_space s
     = PyUnicode.of_string
         (format_version (PyUnicode.int_of_digits to_decimal a)
            (PyUnicode.int_of_digits to_decimal b)
            (PyUnicode.int_of_digits to_decimal c + 1)))
  /\ (forall s,
        ~ PyUnicode.strict_form to_decimal (PyUnicode.strip is_space s) ->
        PyUnicode.bump_patch_version to_decimal is_space s = s)
  /\ (forall major minor patch : N,
        PyUnicode.bump_patch_version to_decimal is_space
          (PyUnicode.of_string (format_version major minor patch))
        = PyUnicode.of_string (format_version major minor (patch + 1))).
Proof.
  intros Htables. split; [|split].
  - intros s a b c Ha Hb Hc Hs.
    by rewrite (unicode_bump_patch_version_dotted _ _ Htables s a b c).
  - intros s Hs. unfold PyUnicode.bump_patch_version.
    destruct (PyUnicode.SEMVER_PATTERN_match to_decimal (PyUnicode.strip is_space s))
      as [[[a b] c]|] eqn:E; [|done].
    apply unicode_SEMVER_PATTERN_match_strip in E as (Ha & Hb & Hc & E); [|done].
    destruct Hs. by exists a, b, c.
  - intros major minor patch.
    apply (unicode_bump_patch_version_format _ _ Htables).
Qed.

(** The sample tables have what the engine needs. *)
Lemma sample_tables_of_python :
  PyUnicode.tables_of_python Sample.to_decimal Sample.is_space.
Proof.
  unfold PyUnicode.tables_of_python, Sample.to_decimal, Sample.is_space.
  split; [|split; [reflexivity|split; [reflexivity|]]].
  - intros d Hd.
    destruct (N.leb_spec 48 (48 + d)); [|lia].
    destruct (N.ltb_spec (48 + d) 58); [|lia].
    cbn [andb]. f_equal. lia.
  - intros c Hc.
    destruct (N.leb_spec 48 c), (N.ltb_spec c 58); cbn [andb];
      [exfalso| | |];
      (destruct (N.leb_spec 1632 c), (N.ltb_spec c 1642); cbn [andb];
       [exfalso| | |]);
      (destruct (N.leb_spec 65296 c), (N.ltb_spec c 65306); cbn [andb];
       [exfalso| | |]);
      try reflexivity; try lia;
      repeat match type of Hc with
             | (_ || _) = true => apply orb_true_iff in Hc as [Hc|Hc]
             | (_ && _) = true => apply andb_true_iff in Hc as [? Hc]
             end;
      repeat match goal with
             | H : (_ <=? _)%N = true |- _ => apply N.leb_le in H
             | H : (_ =? _)%N = true |- _ => apply N.eqb_eq in H
             end; lia.
Qed.

(** The corrected contract at work: a version in Arabic-Indic digits is in
    the strict form and comes back bumped, in ASCII digits; a text of two
    runs is returned as it came. *)
Lemma unicode_bump_patch_version_spec_witness :
  PyUnicode.tables_of_python Sample.to_decimal Sample.is_space
  /\ PyUnicode.bump_patch_version Sample.to_decimal Sample.is_space
       Sample.arabic_indic_version
     = PyUnicode.of_string "1.2.4"
  /\ PyUnicode.bump_patch_version Sample.to_decimal Sample.is_space
       (PyUnicode.of_string "1.2")
     = PyUnicode.of_string "1.2".
Proof.
  destruct (unicode_bump_patch_version_spec _ _ sample_tables_of_python)
    as (Hmatch & Hother & _).
  split; [exact sample_tables_of_python|]. split.
  - rewrite (Hmatch Sample.arabic_indic_version [1633%N] [1634%N] [1635%N]);
      try (split; [discriminate | reflexivity]); reflexivity.
  - apply Hother. intros (a & b & c & Ha & Hb & Hc & H).
    pose proof (unicode_SEMVER_PATTERN_match_dotted _ _ sample_tables_of_python
                  a b c Ha Hb Hc) as Hm.
    rewrite <- H in Hm. discriminate Hm.
Defined.

(** ** The 8-bit engine is the engine on the code points 0..255 *)

Section Latin1.
Variable to_decimal : N -> option N.
Variable is_space : N -> bool.
Hypothesis Hlatin1 : PyUnicode.tables_on_latin1 to_decimal is_space.

#[local] Abbreviation of_string := PyUnicode.of_string.

Lemma latin1_is_digit (c : ascii) :
  PyUnicode.is_digit to_decimal (N_of_ascii c) = PyStr.is_digit c.
Proof.
  destruct Hlatin1 as [Hd _]. unfold PyUnicode.is_digit. rewrite Hd.
  by destruct (PyStr.is_digit c).
Qed.

Lemma latin1_lstrip (s : string) :
  PyUnicode.lstrip is_space (of_string s) = of_string (PyStr.lstrip s).
Proof.
  destruct Hlatin1 as [_ Hs]. induction s as [|c s IH]; [done|].
  change (of_string (String c s)) with (N_of_ascii c :: of_string s).
  cbn [PyUnicode.lstrip PyStr.lstrip]. rewrite Hs.
  by destruct (PyStr.is_space c).
Qed.

Lemma latin1_is_empty (s : string) :
  PyUnicode.is_empty (of_string s) = PyStr.is_empty s.
Proof. by destruct s. Qed.

Lemma latin1_rstrip (s : string) :
  PyUnicode.rstrip is_space (of_string s) = of_string (PyStr.rstrip s).
Proof.
  destruct Hlatin1 as [_ Hs]. induction s as [|c s IH]; [done|].
  change (of_string (String c s)) with (N_of_ascii c :: of_string s).
  cbn [PyUnicode.rstrip PyStr.rstrip]. rewrite IH, Hs, latin1_is_empty.
  by destruct (PyStr.is_space c && PyStr.is_empty (PyStr.rstrip s)).
Qed.

Lemma latin1_strip (s : string) :
  PyUnicode.strip is_space (of_string s) = of_string (PyStr.strip s).
Proof. unfold PyUnicode.strip, PyStr.strip. by rewrite latin1_lstrip, latin1_rstrip. Qed.

Lemma latin1_span_digits (s : string) :
  PyUnicode.span_digits to_decimal (of_string s)
  = (of_string (fst (PyStr.span_digits s)), of_string (snd (PyStr.span_digits s))).
Proof.
  induction s as [|c s IH]; [done|].
  change (of_string (String c s)) with (N_of_ascii c :: of_string s).
  cbn [PyUnicode.span_digits PyStr.span_digits]. rewrite latin1_is_digit, IH.
  destruct (PyStr.is_digit c); [|done].
  by destruct (PyStr.span_digits s).
Qed.

Lemma latin1_int_of_digits (s : string) (acc : N) :
  PyStr.all_digits s = true ->
  PyUnicode.int_of_digits_from to_decimal acc (of_string s)
  = PyStr.int_of_digits_from acc s.
Proof.
  destruct Hlatin1 as [Hd _].
  revert acc. induction s as [|c s IH]; intros acc Hs; [done|].
  cbn [PyStr.all_digits] in Hs. apply andb_true_iff in Hs as [Hc Hs].
  change (of_string (String c s)) with (N_of_ascii c :: of_string s).
  cbn [PyUnicode.int_of_digits_from PyStr.int_of_digits_from].
  unfold PyUnicode.digit_value. rewrite Hd, Hc. by apply IH.
Qed.

Lemma latin1_SEMVER_PATTERN_match (s : string) :
  PyUnicode.SEMVER_PATTERN_match to_decimal (of_string s)
  = match SEMVER_PATTERN_match s with
    | Some (a, b, c) => Some (of_string a, of_string b, of_string c)
    | None => None
    end.
Proof.
  unfold PyUnicode.SEMVER_PATTERN_match, SEMVER_PATTERN_match.
  rewrite latin1_span_digits.
  destruct (PyStr.span_digits s) as [a r1]. cbn [fst snd].
  destruct a as [|a0 a]; [done|].
  destruct r1 as [|x1 r1']; [done|].
  change (of_string (String x1 r1')) with (N_of_ascii x1 :: of_string r1').
  change (of_string (String a0 a)) with (N_of_ascii a0 :: of_string a).
  cbn [PyStr.is_empty].
  destruct (Ascii.eqb_spec x1 ".") as [->|Hx1]; cycle 1.
  { destruct x1 as [[] [] [] [] [] [] [] []]; done. }
  change (N_of_ascii "." =? 46)%N with true. cbn [negb].
  rewrite latin1_span_digits.
  destruct (PyStr.span_digits r1') as [b r2]. cbn [fst snd].
  destruct b as [|b0 b]; [done|].
  destruct r2 as [|x2 r2']; [done|].
  change (of_string (String x2 r2')) with (N_of_ascii x2 :: of_string r2').
  change (of_string (String b0 b)) with (N_of_ascii b0 :: of_string b).
  cbn [PyStr.is_empty].
  destruct (Ascii.eqb_spec x2 ".") as [->|Hx2]; cycle 1.
  { destruct x2 as [[] [] [] [] [] [] [] []]; done. }
  change (N_of_ascii "." =? 46)%N with true. cbn [negb].
  rewrite latin1_span_digits.
  destruct (PyStr.span_digits r2') as [c r3]. cbn [fst snd].
  destruct c as [|c0 c]; [done|].
  change (of_string (String c0 c)) with (N_of_ascii c0 :: of_string c).
  cbn [PyStr.is_empty].
  destruct r3 as [|x3 r3']; [done|].
  change (of_string (String x3 r3')) with (N_of_ascii x3 :: of_string r3').
  destruct r3' as [|y r3''].
  - change (of_string "") with (@nil N).
    destruct (Ascii.eqb_spec x3 "010") as [->|Hx3]; [done|].
    destruct x3 as [[] [] [] [] [] [] [] []]; done.
  - change (of_string (String y r3'')) with (N_of_ascii y :: of_string r3'').
    destruct x3 as [[] [] [] [] [] [] [] []]; done.
Qed.

(** On a text of code points 0..255 the engine of the 8-bit model computes
    what the engine on Python strings computes. *)
Lemma bump_patch_version_latin1 (s : string) :
  PyUnicode.bump_patch_version to_decimal is_space (of_string s)
  = of_string (bump_patch_version s).
Proof.
  unfold PyUnicode.bump_patch_version, bump_patch_version.
  rewrite latin1_strip, latin1_SEMVER_PATTERN_match.
  destruct (SEMVER_PATTERN_match (PyStr.strip s)) as [[[a b] c]|] eqn:E; [|done].
  apply SEMVER_PATTERN_match_inv in E as ((_ & Ha) & (_ & Hb) & (_ & Hc) & _).
  unfold PyUnicode.format_version, PyUnicode.int_of_digits, PyStr.int_of_digits.
  by rewrite !latin1_int_of_digits.
Qed.

End Latin1.

(** The sample tables read as those of the 8-bit model on 0..255. *)
Lemma sample_tables_on_latin1 :
  PyUnicode.tables_on_latin1 Sample.to_decimal Sample.is_space.
Proof.
  split; intros [[] [] [] [] [] [] [] []]; vm_compute; reflexivity.
Qed.

(** The two engines on [" 01.2.9"]. *)
Lemma bump_patch_version_latin1_sample :
  PyUnicode.bump_patch_version Sample.to_decimal Sample.is_space
    (PyUnicode.of_string " 01.2.9")
  = PyUnicode.of_string "1.2.10".
Proof.
  rewrite (bump_patch_version_latin1 _ _ sample_tables_on_latin1). reflexivity.
Qed.

(** ** Mappings *)

Section DictFacts.

Lemma dict_get_set_eq (k : string) (v : pyval) (d : PyDict.t) :
  PyDict.get k (PyDict.set k v d) = Some v.
Proof.
  induction d as [|[k' v'] d IH]; simpl.
  - by rewrite String.eqb_refl.
  - destruct (String.eqb_spec k k') as [->|Hk]; simpl.
    + by rewrite String.eqb_refl.
    + by destruct (String.eqb_spec k k').
Qed.

Lemma dict_get_set_ne (k k' : string) (v : pyval) (d : PyDict.t) :
  k <> k' -> PyDict.get k' (PyDict.set k v d) = PyDict.get k' d.
Proof.
  intros Hne. induction d as [|[k0 v0] d IH]; simpl.
  - by destruct (String.eqb_spec k' k) as [->|].
  - destruct (String.eqb_spec k k0) as [->|Hk]; simpl.
    + by destruct (String.eqb_spec k' k0) as [->|].
    + by rewrite IH.
Qed.

Lemma dict_without_set (k : string) (v : pyval) (d : PyDict.t) :
  PyDict.without k (PyDict.set k v d) = PyDict.without k d.
Proof.
  induction d as [|[k' v'] d IH]; simpl.
  - by rewrite String.eqb_refl.
  - destruct (String.eqb_spec k k') as [->|Hk]; simpl.
    + by rewrite String.eqb_refl.
    + destruct (String.eqb_spec k k'); [done | by rewrite IH].
Qed.

Lemma dict_keys_set (k : string) (v : pyval) (d : PyDict.t) :
  PyDict.keys (PyDict.set k v d)
  = match PyDict.get k d with
    | Some _ => PyDict.keys d
    | None => (PyDict.keys d ++ [k])%list
    end.
Proof.
  unfold PyDict.keys. induction d as [|[k' v'] d IH]; simpl; [done|].
  destruct (String.eqb_spec k k') as [->|Hk]; simpl; [done|].
  rewrite IH. by destruct (PyDict.get k d).
Qed.

End DictFacts.

(** ** The document rewritten by a bump *)

Section Documents.
Variable yaml_safe_load : string -> string + pyval.
Variable yaml_dump : pyval -> string.
Variable py_repr : pyval -> string.

#[local] Abbreviation py_str := (Update.py_str py_repr).
#[local] Abbreviation bump_document := (Update.bump_document py_repr).

(** What [bump_document] computes, for every document: the world is not
    touched; a document of either shape gets its version replaced inside
    the mapping that holds its fields; any other document has no [get]. *)
Lemma bump_document_run (data : pyval) (w : world) :
  bump_document data w
  = (w, match manifest_view data with
        | Some m =>
            let old_version := version_or_default m in
            let new_version := bump_patch_version (py_str old_version) in
            Return (with_manifest data (PyDict.set "version" (PStr new_version) m),
                    old_version, new_version)
        | None => Raise AttributeError
        end).
Proof.
  unfold Update.bump_document, Update.get_manifest, bind, ret, raise.
  destruct data as [| | | | |l|d]; try reflexivity.
  unfold manifest_view, with_manifest, version_or_default.
  destruct (PyDict.get "manifest" d) as [m|] eqn:Hm; simpl.
  - destruct m as [| | | | |l|md]; try reflexivity.
    simpl. unfold ret. by destruct (PyDict.get "version" md).
  - unfold ret. by destruct (PyDict.get "version" d).
Qed.

Lemma manifest_view_with_manifest (data : pyval) (m m' : PyDict.t) :
  manifest_view data = Some m ->
  PyDict.get "manifest" m' = PyDict.get "manifest" m ->
  manifest_view (with_manifest data m') = Some m'.
Proof.
  unfold manifest_view, with_manifest.
  destruct data as [| | | | |l|d]; try done.
  destruct (PyDict.get "manifest" d) as [v|] eqn:Hd.
  - destruct v; try done. intros _ _. by rewrite dict_get_set_eq.
  - intros [= <-] Hm'. by rewrite Hm', Hd.
Qed.

(** The bump keeps the shape of the document. *)
Lemma with_manifest_shape (data : pyval) (m m' : PyDict.t) :
  manifest_view data = Some m ->
  PyDict.get "manifest" m' = PyDict.get "manifest" m ->
  (flat_form data -> flat_form (with_manifest data m'))
  /\ (nested_form data -> nested_form (with_manifest data m')).
Proof.
  unfold manifest_view, with_manifest, flat_form, nested_form.
  destruct data as [| | | | |l|d]; try done.
  destruct (PyDict.get "manifest" d) as [v|] eqn:Hd.
  - destruct v as [| | | | |l|md]; try done. intros _ _. split.
    + intros (d0 & [= <-] & H0). congruence.
    + intros _. eexists _, m'. split; [done|]. apply dict_get_set_eq.
  - intros [= <-] Hm'. split.
    + intros _. exists m'. split; [done|]. congruence.
    + intros (d0 & m0 & [= <-] & H0). congruence.
Qed.

End Documents.

(** ** Runs of update-catalog.py *)

Section UpdateRuns.
Variable yaml_safe_load : string -> string + pyval.
Variable yaml_dump : pyval -> string.
Variable py_repr : pyval -> string.

#[local] Abbreviation load_yaml := (Update.load_yaml yaml_safe_load).
#[local] Abbreviation bump_manifest_version :=
  (Update.bump_manifest_version yaml_safe_load yaml_dump py_repr).
#[local] Abbreviation build_templates := (Update.build_templates yaml_safe_load).
#[local] Abbreviation build_info_yaml := (Update.build_info_yaml yaml_safe_load).
#[local] Abbreviation regenerate_info :=
  (Update.regenerate_info yaml_safe_load yaml_dump).
#[local] Abbreviation bump_if_needed :=
  (Update.bump_if_needed yaml_safe_load yaml_dump py_repr).
#[local] Abbreviation main := (Update.main yaml_safe_load yaml_dump py_repr).

Lemma load_yaml_run (path : string) (w : world) :
  load_yaml path w
  = (w, match files w !! path with
        | None => Raise FileNotFoundError
        | Some text =>
            match yaml_safe_load text with
            | inl msg => Raise (YAMLError msg)
            | inr data => Return data
            end
        end).
Proof.
  unfold Update.load_yaml, bind, read_file.
  destruct (files w !! path) as [text|]; [|done].
  by destruct (yaml_safe_load text).
Qed.

(** Every run of [bump_manifest_version]: it raises before any write, or it
    writes the manifest once and prints one line. *)
Lemma bump_manifest_version_run (template_dir : string) (w : world) :
  bump_manifest_version template_dir w
  = match files w !! manifest_path template_dir with
    | None => (w, Raise FileNotFoundError)
    | Some text =>
        match yaml_safe_load text with
        | inl msg => (w, Raise (YAMLError msg))
        | inr data =>
            match manifest_view data with
            | None => (w, Raise AttributeError)
            | Some m =>
                (after_bump w template_dir
                   (yaml_dump (bumped_document py_repr data m))
                   (bump_message py_repr template_dir m),
                 Return true)
            end
        end
    end.
Proof.
  unfold Update.bump_manifest_version. unfold bind at 1.
  rewrite load_yaml_run.
  destruct (files w !! manifest_path template_dir) as [text|]; [|done].
  destruct (yaml_safe_load text) as [msg|data]; [done|].
  unfold bind at 1. rewrite bump_document_run.
  destruct (manifest_view data) as [m|]; [|done].
  reflexivity.
Qed.

Lemma version_was_bumped_run (template_dir : string) (w : world) :
  Update.version_was_bumped template_dir w
  = (w, Return (author_bumped w template_dir)).
Proof.
  unfold Update.version_was_bumped, author_bumped, bind, get_world, ret.
  destruct (has_parent (git w)); simpl; [|done].
  destruct (diff_path (git w) (manifest_path template_dir)) as [rc out]; simpl.
  destruct (rc =? 0)%Z; simpl; [|done].
  by destruct (PyStr.is_empty out).
Qed.

(** The loop body: either the gate finds a bump by the author and nothing
    happens, or the body is one call of [bump_manifest_version]. *)
Lemma bump_if_needed_run (template_dir : string) (w : world) :
  bump_if_needed template_dir w
  = if author_bumped w template_dir then (w, Return tt)
    else
      match bump_manifest_version template_dir w with
      | (w', Return _) => (w', Return tt)
      | (w', Raise e) => (w', Raise e)
      end.
Proof.
  unfold Update.bump_if_needed. unfold bind at 1.
  rewrite version_was_bumped_run.
  destruct (author_bumped w template_dir); simpl; [done|].
  unfold bind.
  by destruct (Update.bump_manifest_version _ _ _ _ w) as [w' [b|e]].
Qed.

Lemma summary_run (template_dir : string) (manifest : pyval) (w : world) :
  Update.summary template_dir manifest w
  = (w, match manifest with
        | PDict m => Return (summary_of template_dir m)
        | _ => Raise AttributeError
        end).
Proof.
  destruct manifest as [| | | | |l|m]; try reflexivity.
  unfold Update.summary, summary_of, Update.py_get, bind, ret.
  repeat match goal with
         | |- context [PyDict.get ?k m] => destruct (PyDict.get k m)
         end; reflexivity.
Qed.

(** One turn of the loop of [build_info_yaml]. *)
Lemma build_templates_cons (template_dir : string) (rest : list string) (w : world) :
  build_templates (template_dir :: rest) w
  = match files w !! manifest_path template_dir with
    | None => (w, Raise FileNotFoundError)
    | Some text =>
        match yaml_safe_load text with
        | inl msg => (w, Raise (YAMLError msg))
        | inr data =>
            match manifest_view data with
            | None => (w, Raise AttributeError)
            | Some m =>
                match build_templates rest w with
                | (w', Return records) =>
                    (w', Return (summary_of template_dir m :: records))
                | (w', Raise e) => (w', Raise e)
                end
            end
        end
    end.
Proof.
  cbn [Update.build_templates]. unfold bind at 1. rewrite load_yaml_run.
  destruct (files w !! manifest_path template_dir) as [text|]; [|done].
  destruct (yaml_safe_load text) as [msg|data]; [done|].
  unfold bind at 1, Update.get_manifest, manifest_view.
  destruct data as [| | | | |l|d]; try reflexivity.
  destruct (PyDict.get "manifest" d) as [v|]; unfold ret;
    unfold bind at 1; rewrite summary_run; cbn [snd].
  - destruct v as [| | | | |l|md]; try reflexivity;
      unfold bind, ret; by destruct (Update.build_templates _ rest w) as [w' [rs|e]].
  - unfold bind, ret. by destruct (Update.build_templates _ rest w) as [w' [rs|e]].
Qed.

(** Building the records reads files and changes nothing. *)
Lemma build_templates_world (l : list string) (w : world) :
  fst (build_templates l w) = w.
Proof.
  induction l as [|d l IH]; [done|].
  rewrite build_templates_cons.
  destruct (files w !! manifest_path d) as [text|]; [|done].
  destruct (yaml_safe_load text) as [msg|data]; [done|].
  destruct (manifest_view data) as [m|]; [|done].
  destruct (Update.build_templates _ l w) as [w' [rs|e]]; exact IH.
Qed.

(** A manifest that cannot be used stops the loop, at that manifest or at
    an earlier one. *)
Lemma build_templates_unusable (l : list string) (d text : string) (w : world) :
  d ∈ l ->
  files w !! manifest_path d = Some text ->
  unusable yaml_safe_load text ->
  exists e, build_templates l w = (w, Raise e).
Proof.
  intros Hin Hf Hu. induction l as [|d' l IH]; [by apply elem_of_nil in Hin|].
  rewrite build_templates_cons.
  destruct (decide (d' = d)) as [->|Hne].
  - rewrite Hf. unfold unusable in Hu.
    destruct (yaml_safe_load text) as [msg|data]; [by eauto|].
    rewrite Hu. eauto.
  - apply elem_of_cons in Hin as [->|Hin]; [done|].
    destruct (IH Hin) as [e He]. rewrite He.
    destruct (files w !! manifest_path d') as [text'|]; [|by eauto].
    destruct (yaml_safe_load text') as [msg|data]; [by eauto|].
    destruct (manifest_view data) as [m|]; eauto.
Qed.

Lemma build_info_yaml_run (w : world) :
  build_info_yaml w
  = match build_templates (List.filter (is_template_dir w) (dirs w)) w with
    | (w', Return templates) => (w', Return (PDict [("templates", PList templates)]))
    | (w', Raise e) => (w', Raise e)
    end.
Proof.
  unfold Update.build_info_yaml, Update.get_template_dirs, bind, get_world, ret.
  by destruct (Update.build_templates _ _ w) as [w' [rs|e]].
Qed.

Lemma get_changed_template_dirs_world (w : world) :
  fst (Update.get_changed_template_dirs w) = w.
Proof.
  unfold Update.get_changed_template_dirs, Update.get_template_dirs, bind,
    get_world, ret, raise.
  destruct (has_parent (git w)); simpl; [|done].
  by destruct (diff_name_only (git w)).
Qed.

(** Every run of the second half of [main]. *)
Lemma regenerate_info_run (w : world) :
  regenerate_info w
  = match snd (build_templates (List.filter (is_template_dir w) (dirs w)) w) with
    | Raise e => (w, Raise e)
    | Return templates =>
        let new_content := yaml_dump (PDict [("templates", PList templates)]) in
        if String.eqb (existing_index w) new_content then (w, Return tt)
        else (after_index w new_content, Return tt)
    end.
Proof.
  unfold Update.regenerate_info. unfold bind at 1. rewrite build_info_yaml_run.
  pose proof (build_templates_world (List.filter (is_template_dir w) (dirs w)) w) as Hw.
  destruct (Update.build_templates _ _ w) as [w' [templates|e]];
    simpl in Hw; subst w'; [|done].
  cbn [snd]. unfold bind, path_exists, read_file, ret, existing_index.
  destruct (files w !! "info.yaml") as [text|] eqn:Hf.
  - rewrite bool_decide_eq_true_2 by eauto. rewrite Hf.
    by destruct (String.eqb text _).
  - rewrite bool_decide_eq_false_2 by (intros [? ?]; done).
    by destruct (String.eqb "" _).
Qed.

(** A property of the world kept by every turn of a loop holds when the
    loop ends, normally or not. *)
Lemma for_each_invariant {A} (I : world -> Prop) (body : A -> M unit)
    (l : list A) (w : world) :
  I w ->
  (forall x w0, x ∈ l -> I w0 -> I (fst (body x w0))) ->
  I (fst (for_each l body w)).
Proof.
  revert w. induction l as [|x l IH]; intros w Hw Hbody; [done|].
  cbn [for_each]. unfold bind.
  pose proof (Hbody x w (list_elem_of_here x l) Hw) as Hx.
  destruct (body x w) as [w1 [[]|e]]; simpl in Hx; [|done].
  apply IH; [done|]. intros y w0 Hy. apply Hbody. by apply list_elem_of_further.
Qed.

(** What a turn of the loop of [main] can do to the world. *)
Lemma bump_if_needed_cases (template_dir : string) (w : world) :
  fst (bump_if_needed template_dir w) = w
  \/ exists text data m,
       files w !! manifest_path template_dir = Some text
       /\ loads_as yaml_safe_load text data m
       /\ bump_if_needed template_dir w
          = (after_bump w template_dir
               (yaml_dump (bumped_document py_repr data m))
               (bump_message py_repr template_dir m), Return tt).
Proof.
  rewrite bump_if_needed_run, bump_manifest_version_run.
  destruct (author_bumped w template_dir); [by left|].
  destruct (files w !! manifest_path template_dir) as [text|]; [|by left].
  destruct (yaml_safe_load text) as [msg|data] eqn:Hl; [by left|].
  destruct (manifest_view data) as [m|] eqn:Hm; [|by left].
  right. by exists text, data, m.
Qed.

Lemma bump_if_needed_frame (w0 : world) (path text template_dir : string) (w : world) :
  unusable yaml_safe_load text ->
  bump_loop_frame w0 path text w ->
  bump_loop_frame w0 path text (fst (bump_if_needed template_dir w)).
Proof.
  intros Hu (Hd & Hg & Hp & Hi & l & Hw & Hl).
  destruct (bump_if_needed_cases template_dir w)
    as [-> | (text' & data & m & Hf & [Hload Hview] & ->)].
  { by repeat split; eauto. }
  cbn [fst]. unfold bump_loop_frame, after_bump; cbn.
  assert (manifest_path template_dir <> path) as Hne.
  { intros <-. rewrite Hf in Hp. injection Hp as <-.
    unfold unusable in Hu. rewrite Hload in Hu. congruence. }
  repeat split; try done.
  - by rewrite lookup_insert_ne.
  - rewrite lookup_insert_ne; [done | apply manifest_path_not_index].
  - exists (l ++ [manifest_path template_dir])%list. split.
    + by rewrite Hw, <- app_assoc.
    + intros [H|H]%elem_of_app; [done|].
      apply list_elem_of_singleton in H. symmetry in H.
      by apply manifest_path_not_index in H.
Qed.

Lemma main_run (w : world) :
  main w
  = match Update.get_changed_template_dirs w with
    | (_, Raise e) => (w, Raise e)
    | (_, Return changed) =>
        match for_each (sorted changed) bump_if_needed w with
        | (w1, Raise e) => (w1, Raise e)
        | (w1, Return _) =>
            match regenerate_info w1 with
            | (w2, Raise e) => (w2, Raise e)
            | (w2, Return _) => (w2, Return 0%Z)
            end
        end
    end.
Proof.
  unfold Update.main. unfold bind at 1.
  pose proof (get_changed_template_dirs_world w) as Hw.
  destruct (Update.get_changed_template_dirs w) as [w' [changed|e]];
    simpl in Hw; subst w'; [|done].
  unfold bind at 1.
  destruct (for_each (sorted changed) _ w) as [w1 [[]|e]]; [|done].
  unfold bind, ret.
  by destruct (Update.regenerate_info _ _ w1) as [w2 [[]|e]].
Qed.

(** A template whose manifest cannot be used makes the run end with an
    exception; [info.yaml] is neither written nor changed. *)
Lemma main_aborts (w : world) (template_dir text : string) :
  template_dir ∈ dirs w ->
  PyStr.startswith "." template_dir = false ->
  files w !! manifest_path template_dir = Some text ->
  unusable yaml_safe_load text ->
  exists w' e,
    main w = (w', Raise e)
    /\ files w' !! "info.yaml" = files w !! "info.yaml"
    /\ exists l, writes w' = (writes w ++ l)%list /\ "info.yaml" ∉ l.
Proof.
  intros Hin Hdot Hf Hu. rewrite main_run.
  assert (bump_loop_frame w (manifest_path template_dir) text w) as Hframe.
  { repeat split; try done. exists []. split; [by rewrite app_nil_r|].
    apply not_elem_of_nil. }
  destruct (Update.get_changed_template_dirs w) as [w' [changed|e]].
  2:{ exists w, e. repeat split; try done. exists [].
      split; [by rewrite app_nil_r | apply not_elem_of_nil]. }
  pose proof (for_each_invariant _ bump_if_needed (sorted changed) w Hframe
                (fun x w0 _ => bump_if_needed_frame w _ _ x w0 Hu)) as Hloop.
  destruct (for_each (sorted changed) _ w) as [w1 [[]|e]]; simpl in Hloop.
  2:{ destruct Hloop as (_ & _ & _ & Hi & Hl). by exists w1, e. }
  destruct Hloop as (Hd & Hg & Hp & Hi & Hl).
  rewrite regenerate_info_run.
  destruct (build_templates_unusable
              (List.filter (is_template_dir w1) (dirs w1)) template_dir text w1)
    as [e He]; try done.
  { apply list_elem_of_In, filter_In. split.
    - apply list_elem_of_In. by rewrite Hd.
    - unfold is_template_dir. rewrite Hdot, Hp. reflexivity. }
  rewrite He. cbn [snd]. by exists w1, e.
Qed.

(** The templates reported as changed are template directories. *)
Lemma get_changed_template_dirs_subset (w w' : world) (changed : gset string) (d : string) :
  Update.get_changed_template_dirs w = (w', Return changed) ->
  d ∈ changed -> d ∈ List.filter (is_template_dir w) (dirs w).
Proof.
  unfold Update.get_changed_template_dirs, Update.get_template_dirs, bind,
    get_world, ret, raise.
  destruct (has_parent (git w)); simpl.
  - destruct (diff_name_only (git w)) as [out|]; [|done].
    intros [= _ <-] Hd. apply elem_of_list_to_set in Hd.
    apply list_elem_of_In, in_map_iff in Hd as (f & <- & Hf).
    apply filter_In in Hf as [_ Hf]. apply andb_true_iff in Hf as [_ Hf].
    by apply bool_decide_eq_true_1 in Hf.
  - intros [= _ <-] Hd. by apply elem_of_list_to_set in Hd.
Qed.

(** A repository whose only template has a manifest on which both the bump
    and the rebuild raise [e]: whatever the gate decides, [main] ends with
    [e] and has written nothing. *)
Lemma main_single_template (w : world) (template_dir : string) (e : py_error) :
  List.filter (is_template_dir w) (dirs w) = [template_dir] ->
  (has_parent (git w) = true -> diff_name_only (git w) <> None) ->
  bump_manifest_version template_dir w = (w, Raise e) ->
  build_templates [template_dir] w = (w, Raise e) ->
  main w = (w, Raise e).
Proof.
  intros Hdirs Hgit Hbump Hbuild. rewrite main_run.
  destruct (Update.get_changed_template_dirs w) as [w' [changed|e']] eqn:Hchanged.
  2:{ revert Hchanged.
      unfold Update.get_changed_template_dirs, Update.get_template_dirs, bind,
        get_world, ret, raise.
      destruct (has_parent (git w)); simpl; [|done].
      destruct (diff_name_only (git w)); [done | by destruct Hgit]. }
  assert (forall l, (forall d, d ∈ l -> d = template_dir) ->
            for_each l bump_if_needed w = (w, Return tt)
            \/ for_each l bump_if_needed w = (w, Raise e)) as Hloop.
  { induction l as [|d l IH]; intros Hl; [by left|].
    cbn [for_each]. unfold bind.
    rewrite (Hl d) by apply list_elem_of_here.
    rewrite bump_if_needed_run, Hbump.
    destruct (author_bumped w template_dir); [|by right].
    apply IH. intros d' Hd'. apply Hl. by apply list_elem_of_further. }
  destruct (Hloop (sorted changed)) as [-> | ->]; [| |done].
  - intros d Hd. unfold sorted in Hd. rewrite merge_sort_Permutation in Hd.
    apply elem_of_elements in Hd.
    apply (get_changed_template_dirs_subset _ _ _ _ Hchanged) in Hd.
    rewrite Hdirs in Hd. by apply list_elem_of_singleton in Hd.
  - by rewrite regenerate_info_run, Hdirs, Hbuild.
Qed.

End UpdateRuns.

(** ** The manifest written by a bump *)

Section BumpWrites.
Variable yaml_safe_load : string -> string + pyval.
Variable yaml_dump : pyval -> string.
Variable py_repr : pyval -> string.

#[local] Abbreviation py_str := (Update.py_str py_repr).
#[local] Abbreviation load_yaml := (Update.load_yaml yaml_safe_load).
#[local] Abbreviation bump_manifest_version :=
  (Update.bump_manifest_version yaml_safe_load yaml_dump py_repr).

(** The fields of the document a bump writes: those read, with the version
    replaced. *)
Lemma manifest_view_bumped (data : pyval) (m : PyDict.t) :
  manifest_view data = Some m ->
  manifest_view (bumped_document py_repr data m)
  = Some (PyDict.set "version"
            (PStr (bump_patch_version (py_str (version_or_default m)))) m).
Proof.
  intros Hm. unfold bumped_document.
  apply (manifest_view_with_manifest _ m); [done|].
  by apply dict_get_set_ne.
Qed.

(** A successful bump read a usable manifest and wrote that one file. *)
Lemma bump_manifest_version_inv (template_dir : string) (w w' : world) (b : bool) :
  bump_manifest_version template_dir w = (w', Return b) ->
  exists text data m,
    files w !! manifest_path template_dir = Some text
    /\ loads_as yaml_safe_load text data m
    /\ b = true
    /\ w' = after_bump w template_dir
              (yaml_dump (bumped_document py_repr data m))
              (bump_message py_repr template_dir m).
Proof.
  rewrite bump_manifest_version_run.
  destruct (files w !! manifest_path template_dir) as [text|]; [|done].
  destruct (yaml_safe_load text) as [msg|data] eqn:Hl; [done|].
  destruct (manifest_view data) as [m|] eqn:Hm; [|done].
  intros [= <- <-]. by exists text, data, m.
Qed.

(** C2 (as corrected).  The document [bump_manifest_version] writes has the
    shape of the document it read: a flat manifest is written back flat, and
    a manifest read with its fields under the [manifest] key is written back
    with its fields, the new version among them, still under that key. *)
Theorem bump_keeps_document_shape
    (template_dir : string) (w w' : world) (b : bool) :
  bump_manifest_version template_dir w = (w', Return b) ->
  exists text data m,
    files w !! manifest_path template_dir = Some text
    /\ loads_as yaml_safe_load text data m
    /\ files w'
       = <[manifest_path template_dir := yaml_dump (bumped_document py_repr data m)]>
           (files w)
    /\ writes w' = (writes w ++ [manifest_path template_dir])%list
    /\ (flat_form data -> flat_form (bumped_document py_repr data m))
    /\ (nested_form data -> nested_form (bumped_document py_repr data m))
    /\ manifest_view (bumped_document py_repr data m)
       = Some (PyDict.set "version"
                 (PStr (bump_patch_version (py_str (version_or_default m)))) m).
Proof.
  intros H. apply bump_manifest_version_inv in H
    as (text & data & m & Hf & [Hl Hm] & -> & ->).
  exists text, data, m. repeat split; try done.
  - intros Hflat. unfold bumped_document.
    apply (with_manifest_shape data m); [done | by apply dict_get_set_ne | done].
  - intros Hnested. unfold bumped_document.
    apply (with_manifest_shape data m); [done | by apply dict_get_set_ne | done].
  - by apply manifest_view_bumped.
Qed.

(** C10.  The default ["0.0.0"] is used only when the [version] key is
    missing.  A [version] key holding null is read as [None], which [str]
    turns into ["None"]; the engine leaves that text alone and the manifest
    is written with the string ["None"] as its version.  A manifest without
    the key is written with ["0.0.1"]. *)
Theorem null_version_is_written_as_None
    (template_dir text : string) (data : pyval) (m : PyDict.t) (w : world) :
  files w !! manifest_path template_dir = Some text ->
  loads_as yaml_safe_load text data m ->
  (PyDict.get "version" m = Some PNone ->
   bump_manifest_version template_dir w
   = (after_bump w template_dir
        (yaml_dump (with_manifest data (PyDict.set "version" (PStr "None") m)))
        ("Bumped " +:+ template_dir +:+ " version: None -> None"),
      Return true))
  /\ (PyDict.get "version" m = None ->
      bump_manifest_version template_dir w
      = (after_bump w template_dir
           (yaml_dump (with_manifest data (PyDict.set "version" (PStr "0.0.1") m)))
           ("Bumped " +:+ template_dir +:+ " version: 0.0.0 -> 0.0.1"),
         Return true)).
Proof.
  intros Hf [Hl Hm]. rewrite bump_manifest_version_run, Hf, Hl, Hm.
  unfold bumped_document, bump_message, version_or_default.
  split; intros ->; reflexivity.
Qed.

(** C3.  When PyYAML reads back the document it dumped, re-reading a
    manifest written by [bump_manifest_version] gives the fields that were
    read before the write, in the same order and with the same values, except
    [version], which holds [bump_patch_version] of the version read before
    (of ["0.0.0"] when there was none, the key then coming last). *)
Theorem bump_round_trip
    (template_dir text : string) (data : pyval) (m : PyDict.t)
    (w w' : world) (b : bool) :
  files w !! manifest_path template_dir = Some text ->
  loads_as yaml_safe_load text data m ->
  bump_manifest_version template_dir w = (w', Return b) ->
  yaml_safe_load (yaml_dump (bumped_document py_repr data m))
  = inr (bumped_document py_repr data m) ->
  exists data' m',
    load_yaml (manifest_path template_dir) w' = (w', Return data')
    /\ manifest_view data' = Some m'
    /\ PyDict.without "version" m' = PyDict.without "version" m
    /\ (forall k, k <> "version" -> PyDict.get k m' = PyDict.get k m)
    /\ PyDict.get "version" m'
       = Some (PStr (bump_patch_version (py_str (version_or_default m))))
    /\ PyDict.keys m'
       = match PyDict.get "version" m with
         | Some _ => PyDict.keys m
         | None => (PyDict.keys m ++ ["version"])%list
         end.
Proof.
  intros Hf [Hl Hm] Hrun Hback.
  apply bump_manifest_version_inv in Hrun
    as (text' & data0 & m0 & Hf' & [Hl' Hm'] & -> & ->).
  rewrite Hf in Hf'. injection Hf' as <-.
  rewrite Hl in Hl'. injection Hl' as <-.
  rewrite Hm in Hm'. injection Hm' as <-.
  eexists _, _. split; [|split; [by apply manifest_view_bumped|]].
  - rewrite load_yaml_run. unfold after_bump; cbn [files].
    by rewrite lookup_insert_eq, Hback.
  - split; [apply dict_without_set|].
    split; [intros k Hk; by apply dict_get_set_ne|].
    split; [apply dict_get_set_eq | apply dict_keys_set].
Qed.

End BumpWrites.

(** *** Closed instances *)

(** C2 at work on a manifest in the nested form: the document written is
    still nested. *)
Lemma bump_keeps_document_shape_witness :
  Sample.bump_manifest_version "api" Sample.after_readme_commit
  = (fst (Sample.bump_manifest_version "api" Sample.after_readme_commit), Return true)
  /\ exists data m,
       loads_as BlockCodec.safe_load Sample.nested_manifest data m
       /\ nested_form (bumped_document BlockCodec.repr data m)
       /\ files (fst (Sample.bump_manifest_version "api" Sample.after_readme_commit))
            !! "api/manifest.yaml"
          = Some "manifest:
  id: api
  version: 0.9.10
".
Proof.
  assert (Sample.bump_manifest_version "api" Sample.after_readme_commit
          = (fst (Sample.bump_manifest_version "api" Sample.after_readme_commit),
             Return true)) as Hrun by (vm_compute; reflexivity).
  split; [exact Hrun|].
  destruct (bump_keeps_document_shape _ _ _ _ _ _ _ Hrun)
    as (text & data & m & Hf & Hl & _ & _ & _ & Hnested & _).
  vm_compute in Hf. injection Hf as <-.
  exists data, m. split; [exact Hl|]. split.
  - apply Hnested. destruct Hl as [Hl _]. vm_compute in Hl. injection Hl as <-.
    eexists _, _. split; reflexivity.
  - vm_compute. reflexivity.
Defined.

(** The claim as the specification states it fails on a manifest in the
    nested form: the document handed to [yaml.dump] still has a [manifest]
    key at its top level. *)
Lemma writes_flat_form_as_specified_fails : ~ writes_flat_form_as_specified.
Proof.
  intros H.
  pose (data := PDict [("manifest", PDict [("id", PStr "api"); ("version", PStr "0.9.9")])]).
  pose (data' := PDict [("manifest", PDict [("id", PStr "api"); ("version", PStr "0.9.10")])]).
  assert (Update.bump_document BlockCodec.repr data Sample.after_readme_commit
          = (Sample.after_readme_commit, Return (data', PStr "0.9.9", "0.9.10"))) as Hrun
    by (rewrite bump_document_run; reflexivity).
  apply H in Hrun. destruct Hrun as (d & Hd & Hget).
  injection Hd as <-. discriminate Hget.
Qed.

(** C10 at work: [version: null] is written back as the text [None]. *)
Lemma null_version_is_written_as_None_witness :
  files (fst (Sample.bump_manifest_version "web" Sample.with_null_version))
    !! "web/manifest.yaml"
  = Some "id: web
version: None
".
Proof.
  destruct (null_version_is_written_as_None
              BlockCodec.safe_load BlockCodec.dump BlockCodec.repr
              "web" Sample.null_version_manifest
              (PDict [("id", PStr "web"); ("version", PNone)])
              [("id", PStr "web"); ("version", PNone)]
              Sample.with_null_version) as [Hnull _].
  - reflexivity.
  - split; reflexivity.
  - unfold Sample.bump_manifest_version. rewrite Hnull by reflexivity.
    reflexivity.
Defined.

(** C3 at work on a flat manifest, with the block codec, which reads back
    the document it wrote. *)
Lemma bump_round_trip_witness :
  exists data' m',
    Update.load_yaml BlockCodec.safe_load "web/manifest.yaml"
      (fst (Sample.bump_manifest_version "web" Sample.after_readme_commit))
    = (fst (Sample.bump_manifest_version "web" Sample.after_readme_commit), Return data')
    /\ manifest_view data' = Some m'
    /\ PyDict.without "version" m' = [("id", PStr "web")]
    /\ PyDict.get "version" m' = Some (PStr "1.2.4")
    /\ PyDict.keys m' = ["id"; "version"].
Proof.
  destruct (bump_round_trip
              BlockCodec.safe_load BlockCodec.dump BlockCodec.repr
              "web" Sample.flat_manifest
              (PDict [("id", PStr "web"); ("version", PStr "1.2.3")])
              [("id", PStr "web"); ("version", PStr "1.2.3")]
              Sample.after_readme_commit
              (fst (Sample.bump_manifest_version "web" Sample.after_readme_commit))
              true)
    as (data' & m' & Hload & Hview & Hwithout & _ & Hversion & Hkeys).
  - reflexivity.
  - split; reflexivity.
  - vm_compute. reflexivity.
  - vm_compute. reflexivity.
  - exists data', m'. repeat split; try assumption.
Defined.

(** ** Manifests the update cannot use *)

Section BadManifests.
Variable yaml_safe_load : string -> string + pyval.
Variable yaml_dump : pyval -> string.
Variable py_repr : pyval -> string.

#[local] Abbreviation bump_manifest_version :=
  (Update.bump_manifest_version yaml_safe_load yaml_dump py_repr).
#[local] Abbreviation build_templates := (Update.build_templates yaml_safe_load).
#[local] Abbreviation build_info_yaml := (Update.build_info_yaml yaml_safe_load).
#[local] Abbreviation main := (Update.main yaml_safe_load yaml_dump py_repr).

(** The loop of [build_info_yaml] gets past the templates whose manifest
    can be used. *)
Lemma build_templates_app (pre rest : list string) (w : world) :
  (forall d, d ∈ pre ->
     exists text data m,
       files w !! manifest_path d = Some text /\ loads_as yaml_safe_load text data m) ->
  forall e, build_templates rest w = (w, Raise e) ->
  build_templates (pre ++ rest) w = (w, Raise e).
Proof.
  intros Hpre e Hrest. induction pre as [|d pre IH]; [done|].
  rewrite <- app_comm_cons, build_templates_cons.
  destruct (Hpre d) as (text & data & m & -> & -> & ->); [apply list_elem_of_here|].
  rewrite IH; [done|]. intros d' Hd'. apply Hpre. by apply list_elem_of_further.
Qed.

(** C8.  A manifest whose text is not valid YAML makes the load raise the
    parser's error.  In [bump_manifest_version] the error escapes before
    anything is written.  In [build_info_yaml] it escapes from the loop, as
    that very error when the manifests listed before can be used.  Nothing in
    [main] catches it: a run over a repository with such a template ends with
    an exception, hence with exit status 1, and [info.yaml] is not written;
    when the template is the only one, the exception that ends the run is the
    parser's error. *)
Theorem malformed_manifest_aborts
    (template_dir text msg : string) (w : world) :
  files w !! manifest_path template_dir = Some text ->
  yaml_safe_load text = inl msg ->
  bump_manifest_version template_dir w = (w, Raise (YAMLError msg))
  /\ (forall pre rest,
        (forall d, d ∈ pre ->
           exists text' data m,
             files w !! manifest_path d = Some text'
             /\ loads_as yaml_safe_load text' data m) ->
        build_templates (pre ++ template_dir :: rest) w = (w, Raise (YAMLError msg)))
  /\ (List.filter (is_template_dir w) (dirs w) = [template_dir] ->
      build_info_yaml w = (w, Raise (YAMLError msg))
      /\ ((has_parent (git w) = true -> diff_name_only (git w) <> None) ->
          main w = (w, Raise (YAMLError msg))))
  /\ (template_dir ∈ dirs w ->
      PyStr.startswith "." template_dir = false ->
      exists w' e,
        main w = (w', Raise e)
        /\ exit_status (snd (main w)) = 1%Z
        /\ files w' !! "info.yaml" = files w !! "info.yaml"
        /\ exists l, writes w' = (writes w ++ l)%list /\ "info.yaml" ∉ l).
Proof.
  intros Hf Hl.
  assert (forall rest, build_templates (template_dir :: rest) w
                       = (w, Raise (YAMLError msg))) as Hcons.
  { intros rest. by rewrite build_templates_cons, Hf, Hl. }
  split; [by rewrite bump_manifest_version_run, Hf, Hl|].
  split; [intros pre rest Hpre; by apply build_templates_app|].
  split.
  - intros Hdirs. split; [by rewrite build_info_yaml_run, Hdirs, Hcons|].
    intros Hgit. apply (main_single_template _ _ _ w template_dir); try done.
    by rewrite bump_manifest_version_run, Hf, Hl.
  - intros Hin Hdot.
    destruct (main_aborts yaml_safe_load yaml_dump py_repr w template_dir text)
      as (w' & e & Hmain & Hinfo & Hwrites); try done.
    { unfold unusable. by rewrite Hl. }
    exists w', e. by rewrite Hmain.
Qed.

(** C9.  A manifest that is valid YAML but is not a mapping (an empty
    document, a list, a scalar), or whose [manifest] key does not hold a
    mapping, makes both [bump_manifest_version] and [build_info_yaml] end
    with an [AttributeError]: the value has no [get].  That exception is not
    the parser's, nothing catches it, and the run ends with exit status 1. *)
Theorem manifest_without_get_raises
    (template_dir text : string) (data : pyval) (w : world) :
  files w !! manifest_path template_dir = Some text ->
  yaml_safe_load text = inr data ->
  manifest_view data = None ->
  bump_manifest_version template_dir w = (w, Raise AttributeError)
  /\ (forall rest, build_templates (template_dir :: rest) w = (w, Raise AttributeError))
  /\ (forall rest,
        List.filter (is_template_dir w) (dirs w) = template_dir :: rest ->
        build_info_yaml w = (w, Raise AttributeError))
  /\ (forall msg, AttributeError <> YAMLError msg)
  /\ (List.filter (is_template_dir w) (dirs w) = [template_dir] ->
      (has_parent (git w) = true -> diff_name_only (git w) <> None) ->
      main w = (w, Raise AttributeError))
  /\ (template_dir ∈ dirs w ->
      PyStr.startswith "." template_dir = false ->
      exists w' e, main w = (w', Raise e) /\ exit_status (snd (main w)) = 1%Z).
Proof.
  intros Hf Hl Hm.
  assert (forall rest, build_templates (template_dir :: rest) w
                       = (w, Raise AttributeError)) as Hcons.
  { intros rest. by rewrite build_templates_cons, Hf, Hl, Hm. }
  split; [by rewrite bump_manifest_version_run, Hf, Hl, Hm|].
  split; [exact Hcons|]. split.
  - intros rest Hdirs. by rewrite build_info_yaml_run, Hdirs, Hcons.
  - split; [done|]. split.
    { intros Hdirs Hgit. apply (main_single_template _ _ _ w template_dir); try done.
      by rewrite bump_manifest_version_run, Hf, Hl, Hm. }
    intros Hin Hdot.
    destruct (main_aborts yaml_safe_load yaml_dump py_repr w template_dir text)
      as (w' & e & Hmain & _); try done.
    { unfold unusable. by rewrite Hl. }
    exists w', e. by rewrite Hmain.
Qed.

(** The documents without a [get]: everything but a mapping. *)
Lemma manifest_view_not_a_mapping (data : pyval) :
  (forall d, data <> PDict d) -> manifest_view data = None.
Proof. destruct data; try done. intros H. by destruct (H d). Qed.

End BadManifests.

(** C8 at work: a manifest that reads [id web] stops the run; the error is
    the parser's, raised by the rebuild since the commit did not touch the
    template, and no index is written. *)
Lemma malformed_manifest_aborts_witness :
  Sample.bump_manifest_version "web" Sample.with_invalid_manifest
  = (Sample.with_invalid_manifest,
     Raise (YAMLError "mapping values are not allowed here"))
  /\ exit_status (snd (Sample.update_main Sample.with_invalid_manifest)) = 1%Z
  /\ files (fst (Sample.update_main Sample.with_invalid_manifest)) !! "info.yaml" = None.
Proof.
  destruct (malformed_manifest_aborts
              BlockCodec.safe_load BlockCodec.dump BlockCodec.repr
              "web" "id web" "mapping values are not allowed here"
              Sample.with_invalid_manifest)
    as (Hbump & _ & _ & Hmain).
  - reflexivity.
  - reflexivity.
  - split; [exact Hbump|].
    destruct Hmain as (w' & e & Hrun & Hexit & Hinfo & _).
    + apply list_elem_of_In. simpl. tauto.
    + reflexivity.
    + split; [exact Hexit|]. unfold Sample.update_main. rewrite Hrun.
      cbn [fst]. rewrite Hinfo. reflexivity.
Defined.

(** C9 at work: an empty manifest is valid YAML and loads as [None]. *)
Lemma manifest_without_get_raises_witness :
  BlockCodec.safe_load "" = inr PNone
  /\ Sample.bump_manifest_version "web" Sample.with_empty_manifest
     = (Sample.with_empty_manifest, Raise AttributeError)
  /\ Update.build_templates BlockCodec.safe_load ["web"] Sample.with_empty_manifest
     = (Sample.with_empty_manifest, Raise AttributeError)
  /\ exit_status (snd (Sample.update_main Sample.with_empty_manifest)) = 1%Z.
Proof.
  destruct (manifest_without_get_raises
              BlockCodec.safe_load BlockCodec.dump BlockCodec.repr
              "web" "" PNone Sample.with_empty_manifest)
    as (Hbump & Hbuild & _ & _ & _ & Hmain).
  - reflexivity.
  - reflexivity.
  - reflexivity.
  - split; [reflexivity|]. split; [exact Hbump|]. split; [apply Hbuild|].
    destruct Hmain as (w' & e & _ & Hexit).
    + apply list_elem_of_In. simpl. tauto.
    + reflexivity.
    + exact Hexit.
Defined.

(** ** The Bump Decision Gate *)

Section Gate.
Variable yaml_safe_load : string -> string + pyval.
Variable yaml_dump : pyval -> string.
Variable py_repr : pyval -> string.

#[local] Abbreviation bump_manifest_version :=
  (Update.bump_manifest_version yaml_safe_load yaml_dump py_repr).
#[local] Abbreviation bump_if_needed :=
  (Update.bump_if_needed yaml_safe_load yaml_dump py_repr).

(** C6.  With a parent commit, [version_was_bumped] answers [True] exactly
    when the diff of the manifest between the two commits succeeds, is not
    empty and has [version:] somewhere in it.  On [True] the loop of [main]
    leaves the template alone; on an empty diff or a failed command it calls
    [bump_manifest_version].  In particular, when the commit did not touch
    the manifest and its version is [major.minor.patch], the manifest is
    written with [major.minor.(patch+1)]. *)
Theorem bump_decision_gate (template_dir : string) (w : world) :
  has_parent (git w) = true ->
  let returncode := fst (diff_path (git w) (manifest_path template_dir)) in
  let out := snd (diff_path (git w) (manifest_path template_dir)) in
  Update.version_was_bumped template_dir w = (w, Return (author_bumped w template_dir))
  /\ (author_bumped w template_dir = true
      <-> returncode = 0%Z /\ out <> ""
          /\ exists pre post, out = pre +:+ "version:" +:+ post)
  /\ (author_bumped w template_dir = true ->
      bump_if_needed template_dir w = (w, Return tt))
  /\ (returncode <> 0%Z \/ out = "" ->
      author_bumped w template_dir = false
      /\ bump_if_needed template_dir w
         = (do _ <- bump_manifest_version template_dir; ret tt) w)
  /\ (forall text data m major minor patch,
        out = "" ->
        files w !! manifest_path template_dir = Some text ->
        loads_as yaml_safe_load text data m ->
        PyDict.get "version" m = Some (PStr (format_version major minor patch)) ->
        exists w' m',
          bump_if_needed template_dir w = (w', Return tt)
          /\ files w' !! manifest_path template_dir
             = Some (yaml_dump (bumped_document py_repr data m))
          /\ manifest_view (bumped_document py_repr data m) = Some m'
          /\ PyDict.get "version" m'
             = Some (PStr (format_version major minor (patch + 1)))).
Proof.
  intros Hparent returncode out.
  assert (author_bumped w template_dir
          = (returncode =? 0)%Z && negb (PyStr.is_empty out)
            && PyStr.contains "version:" out) as Hgate.
  { unfold author_bumped. by rewrite Hparent. }
  assert (returncode <> 0%Z \/ out = "" -> author_bumped w template_dir = false)
    as Hskip.
  { rewrite Hgate. intros [Hrc | ->].
    - by apply Z.eqb_neq in Hrc as ->.
    - simpl. by rewrite andb_false_r. }
  assert (author_bumped w template_dir = false ->
          bump_if_needed template_dir w
          = (do _ <- bump_manifest_version template_dir; ret tt) w) as Hbump.
  { intros Hno. rewrite bump_if_needed_run, Hno. unfold bind, ret.
    by destruct (Update.bump_manifest_version _ _ _ _ w) as [w' [b|e]]. }
  split; [apply version_was_bumped_run|]. split; [|split; [|split]].
  - rewrite Hgate, !andb_true_iff, Z.eqb_eq, negb_true_iff, is_empty_false,
      contains_spec. tauto.
  - intros Hyes. by rewrite bump_if_needed_run, Hyes.
  - intros H. split; [by apply Hskip | by apply Hbump, Hskip].
  - intros text data m major minor patch Hout Hf [Hl Hm] Hv.
    rewrite bump_if_needed_run, Hskip by (by right).
    rewrite bump_manifest_version_run, Hf, Hl, Hm.
    eexists _, _. split; [done|]. split.
    { unfold after_bump; cbn [files]. apply lookup_insert_eq. }
    split; [by apply manifest_view_bumped|].
    rewrite dict_get_set_eq. unfold version_or_default. rewrite Hv.
    cbn [Update.py_str].
    by rewrite bump_patch_version_format.
Qed.

End Gate.

(** C6 at work: the commit changed [web/readme.md] only, the diff of
    [web/manifest.yaml] is empty, and the version goes from 1.2.3 to 1.2.4. *)
Lemma bump_decision_gate_witness :
  Update.version_was_bumped "web" Sample.after_readme_commit
  = (Sample.after_readme_commit, Return false)
  /\ files
       (fst (Update.bump_if_needed BlockCodec.safe_load BlockCodec.dump BlockCodec.repr
               "web" Sample.after_readme_commit))
       !! "web/manifest.yaml"
     = Some "id: web
version: 1.2.4
".
Proof.
  destruct (bump_decision_gate
              BlockCodec.safe_load BlockCodec.dump BlockCodec.repr
              "web" Sample.after_readme_commit)
    as (Hgate & _ & _ & _ & Hbump).
  - reflexivity.
  - split; [exact Hgate|].
    destruct (Hbump Sample.flat_manifest
                (PDict [("id", PStr "web"); ("version", PStr "1.2.3")])
                [("id", PStr "web"); ("version", PStr "1.2.3")] 1%N 2%N 3%N)
      as (w' & m' & Hrun & Hfile & _ & _).
    + reflexivity.
    + reflexivity.
    + split; reflexivity.
    + reflexivity.
    + rewrite Hrun. cbn [fst]. exact Hfile.
Defined.

(** ** The Catalog Builder *)

Section CatalogBuilder.
Variable yaml_safe_load : string -> string + pyval.
Variable yaml_dump : pyval -> string.

#[local] Abbreviation build_templates := (Update.build_templates yaml_safe_load).
#[local] Abbreviation build_info_yaml := (Update.build_info_yaml yaml_safe_load).
#[local] Abbreviation regenerate_info :=
  (Update.regenerate_info yaml_safe_load yaml_dump).

(** The records depend on the manifests only. *)
Lemma build_templates_frame (l : list string) (w w2 : world) :
  (forall d, files w2 !! manifest_path d = files w !! manifest_path d) ->
  snd (build_templates l w2) = snd (build_templates l w).
Proof.
  intros Hsame. induction l as [|d l IH]; [done|].
  rewrite !build_templates_cons, Hsame.
  destruct (files w !! manifest_path d) as [text|]; [|done].
  destruct (yaml_safe_load text) as [msg|data]; [done|].
  destruct (manifest_view data) as [m|]; [|done].
  destruct (Update.build_templates _ l w2) as [w2' [rs2|e2]],
           (Update.build_templates _ l w) as [w' [rs|e]];
    simpl in IH; by inversion IH.
Qed.

Lemma template_dirs_frame (w w2 : world) :
  dirs w2 = dirs w ->
  (forall d, files w2 !! manifest_path d = files w !! manifest_path d) ->
  List.filter (is_template_dir w2) (dirs w2) = List.filter (is_template_dir w) (dirs w).
Proof.
  intros -> Hsame. apply filter_ext. intros d.
  unfold is_template_dir. by rewrite Hsame.
Qed.

(** C4.  A rebuild that follows a rebuild, with no change to a manifest or
    to the listing in between, computes the same index text, finds it equal
    to the text on disk and leaves the world as it is: no file is written
    and nothing is printed. *)
Theorem catalog_rebuild_idempotent (w w1 : world) :
  regenerate_info w = (w1, Return tt) ->
  exists templates,
    build_info_yaml w = (w, Return (PDict [("templates", PList templates)]))
    /\ build_info_yaml w1 = (w1, Return (PDict [("templates", PList templates)]))
    /\ existing_index w1 = yaml_dump (PDict [("templates", PList templates)])
    /\ regenerate_info w1 = (w1, Return tt)
    /\ writes (fst (regenerate_info w1)) = writes w1
    /\ files (fst (regenerate_info w1)) = files w1.
Proof.
  intros Hrun. pose proof Hrun as Hrun0. rewrite regenerate_info_run in Hrun.
  pose proof (build_templates_world yaml_safe_load
                (List.filter (is_template_dir w) (dirs w)) w) as Hworld.
  destruct (snd (Update.build_templates _ _ w)) as [templates|e] eqn:Hbuild;
    [|done].
  exists templates.
  assert (build_info_yaml w = (w, Return (PDict [("templates", PList templates)])))
    as Hinfo.
  { rewrite build_info_yaml_run.
    destruct (Update.build_templates _ _ w) as [w' [rs|e]];
      simpl in Hworld, Hbuild; subst w'; by inversion Hbuild. }
  cbv zeta in Hrun.
  destruct (String.eqb_spec (existing_index w)
              (yaml_dump (PDict [("templates", PList templates)]))) as [Heq|Hne].
  - injection Hrun as <-. by rewrite Hrun0.
  - injection Hrun as <-.
    set (new_content := yaml_dump (PDict [("templates", PList templates)])) in *.
    assert (forall d, files (after_index w new_content) !! manifest_path d
                      = files w !! manifest_path d) as Hsame.
    { intros d. unfold after_index; cbn [files].
      apply lookup_insert_ne. intros H. symmetry in H.
      by apply manifest_path_not_index in H. }
    assert (snd (build_templates
                   (List.filter (is_template_dir (after_index w new_content))
                      (dirs (after_index w new_content)))
                   (after_index w new_content))
            = Return templates) as Hbuild1.
    { rewrite (template_dirs_frame w) by done.
      by rewrite (build_templates_frame _ w). }
    assert (existing_index (after_index w new_content) = new_content) as Hexisting.
    { unfold existing_index, after_index; cbn [files]. by rewrite lookup_insert_eq. }
    assert (regenerate_info (after_index w new_content)
            = (after_index w new_content, Return tt)) as Hagain.
    { rewrite regenerate_info_run, Hbuild1. cbv zeta.
      fold new_content. by rewrite Hexisting, String.eqb_refl. }
    split; [done|]. split; [|by rewrite Hagain].
    rewrite build_info_yaml_run.
    pose proof (build_templates_world yaml_safe_load
                  (List.filter (is_template_dir (after_index w new_content))
                     (dirs (after_index w new_content)))
                  (after_index w new_content)) as Hworld1.
    destruct (Update.build_templates _ _ (after_index w new_content))
      as [w' [rs|e]]; simpl in Hworld1, Hbuild1; subst w'; by inversion Hbuild1.
Qed.

End CatalogBuilder.

(** C4 at work: the first rebuild writes the index, the second one writes
    nothing. *)
Lemma catalog_rebuild_idempotent_witness :
  writes (fst (Sample.regenerate_info Sample.after_readme_commit)) = ["info.yaml"]
  /\ Sample.regenerate_info (fst (Sample.regenerate_info Sample.after_readme_commit))
     = (fst (Sample.regenerate_info Sample.after_readme_commit), Return tt).
Proof.
  split; [reflexivity|].
  destruct (catalog_rebuild_idempotent BlockCodec.safe_load BlockCodec.dump
              Sample.after_readme_commit
              (fst (Sample.regenerate_info Sample.after_readme_commit)))
    as (templates & _ & _ & _ & Hagain & _).
  - vm_compute. reflexivity.
  - exact Hagain.
Defined.

(** ** A repository with a single commit *)

Section FirstCommit.
Variable yaml_safe_load : string -> string + pyval.
Variable yaml_dump : pyval -> string.
Variable py_repr : pyval -> string.

#[local] Abbreviation bump_if_needed :=
  (Update.bump_if_needed yaml_safe_load yaml_dump py_repr).
#[local] Abbreviation regenerate_info :=
  (Update.regenerate_info yaml_safe_load yaml_dump).
#[local] Abbreviation main := (Update.main yaml_safe_load yaml_dump py_repr).

(** [sorted] lists the members of the set, each once, in increasing order. *)
Lemma sorted_elements (s : gset string) :
  NoDup (sorted s) /\ forall d, d ∈ sorted s <-> d ∈ s.
Proof.
  unfold sorted. split.
  - rewrite merge_sort_Permutation. apply NoDup_elements.
  - intros d. rewrite merge_sort_Permutation. apply elem_of_elements.
Qed.

Lemma sorted_increasing (s : gset string) : Sorted String.le (sorted s).
Proof. apply (Sorted_merge_sort String.le). Qed.

(** Without a parent commit the loop of [main], run over distinct templates
    whose manifests can be used, rewrites each manifest once, in turn. *)
Lemma bump_loop_first_commit (l : list string) (w : world) :
  has_parent (git w) = false ->
  NoDup l ->
  (forall d, d ∈ l ->
     exists text data m,
       files w !! manifest_path d = Some text /\ loads_as yaml_safe_load text data m) ->
  exists w1,
    for_each l bump_if_needed w = (w1, Return tt)
    /\ writes w1 = (writes w ++ List.map manifest_path l)%list
    /\ (forall d, d ∉ l -> files w1 !! manifest_path d = files w !! manifest_path d)
    /\ (forall d text data m,
          d ∈ l ->
          files w !! manifest_path d = Some text ->
          loads_as yaml_safe_load text data m ->
          files w1 !! manifest_path d
          = Some (yaml_dump (bumped_document py_repr data m))).
Proof.
  revert w. induction l as [|d l IH]; intros w Hparent Hnodup Hgood.
  { exists w. repeat split; try done.
    - simpl. by rewrite app_nil_r.
    - intros d text data m Hd. by apply elem_of_nil in Hd. }
  apply NoDup_cons in Hnodup as [Hd Hnodup].
  destruct (Hgood d) as (text & data & m & Hf & Hl & Hm); [apply list_elem_of_here|].
  assert (bump_if_needed d w
          = (after_bump w d (yaml_dump (bumped_document py_repr data m))
               (bump_message py_repr d m), Return tt)) as Hstep.
  { rewrite bump_if_needed_run, bump_manifest_version_run, Hf, Hl, Hm.
    unfold author_bumped. by rewrite Hparent. }
  set (w' := after_bump w d (yaml_dump (bumped_document py_repr data m))
               (bump_message py_repr d m)) in *.
  assert (forall d', d' <> d ->
            files w' !! manifest_path d' = files w !! manifest_path d') as Hother.
  { intros d' Hne. unfold w', after_bump; cbn [files].
    apply lookup_insert_ne. intros H. by apply manifest_path_inj in H. }
  destruct (IH w') as (w1 & Hloop & Hwrites & Hout & Hin); [done | done | |].
  { intros d' Hd'. rewrite Hother by (intros ->; done).
    apply Hgood. by apply list_elem_of_further. }
  exists w1. split; [|split; [|split]].
  - cbn [for_each]. unfold bind. by rewrite Hstep.
  - rewrite Hwrites. unfold w', after_bump; cbn [writes List.map].
    by rewrite <- app_assoc.
  - intros d' Hd'. apply not_elem_of_cons in Hd' as [Hne Hd'].
    by rewrite Hout, Hother.
  - intros d' text' data' m' Hd' Hf' Hl'.
    apply elem_of_cons in Hd' as [-> | Hd'].
    + rewrite Hout by done. rewrite Hf in Hf'. injection Hf' as <-.
      destruct Hl' as [Hl' Hm']. rewrite Hl in Hl'. injection Hl' as <-.
      rewrite Hm in Hm'. injection Hm' as <-.
      unfold w', after_bump; cbn [files]. apply lookup_insert_eq.
    + apply (Hin d' text' data' m'); [done | | done].
      rewrite Hother; [done | intros ->; done].
Qed.

(** C5.  With no parent commit, [get_changed_template_dirs] reports every
    template directory and [version_was_bumped] answers [False] for each.
    When the manifests can be used, the loop of [main] then rewrites the
    manifest of every template exactly once, with its version bumped, before
    the index is rebuilt. *)
Theorem first_commit_bumps_every_template (w : world) :
  has_parent (git w) = false ->
  let template_dirs := List.filter (is_template_dir w) (dirs w) in
  let changed : gset string := list_to_set template_dirs in
  Update.get_changed_template_dirs w = (w, Return changed)
  /\ (forall d, Update.version_was_bumped d w = (w, Return false))
  /\ NoDup (sorted changed)
  /\ (forall d, d ∈ sorted changed <-> d ∈ template_dirs)
  /\ ((forall d, d ∈ template_dirs ->
         exists text data m,
           files w !! manifest_path d = Some text
           /\ loads_as yaml_safe_load text data m) ->
      exists w1,
        for_each (sorted changed) bump_if_needed w = (w1, Return tt)
        /\ main w = (do _ <- regenerate_info; ret 0%Z) w1
        /\ writes w1 = (writes w ++ List.map manifest_path (sorted changed))%list
        /\ (forall d text data m,
              d ∈ template_dirs ->
              files w !! manifest_path d = Some text ->
              loads_as yaml_safe_load text data m ->
              files w1 !! manifest_path d
              = Some (yaml_dump (bumped_document py_repr data m)))).
Proof.
  intros Hparent template_dirs changed.
  destruct (sorted_elements changed) as [Hnodup Hmem].
  assert (forall d, d ∈ sorted changed <-> d ∈ template_dirs) as Hmem'.
  { intros d. rewrite Hmem. unfold changed. apply elem_of_list_to_set. }
  assert (Update.get_changed_template_dirs w = (w, Return changed)) as Hchanged.
  { unfold Update.get_changed_template_dirs, Update.get_template_dirs, bind,
      get_world, ret. by rewrite Hparent. }
  split; [done|]. split.
  { intros d. rewrite version_was_bumped_run. unfold author_bumped.
    by rewrite Hparent. }
  split; [done|]. split; [done|].
  intros Hgood.
  destruct (bump_loop_first_commit (sorted changed) w) as (w1 & Hloop & Hwrites & _ & Hin);
    [done | done | |].
  { intros d Hd. apply Hgood. by apply Hmem'. }
  exists w1. split; [done|]. split; [|split; [done|]].
  - rewrite main_run, Hchanged, Hloop. unfold bind, ret.
    by destruct (Update.regenerate_info _ _ w1) as [w2 [[]|e]].
  - intros d text data m Hd. apply Hin. by apply Hmem'.
Qed.

End FirstCommit.

(** C5 at work on a first commit with two templates: both manifests are
    written, each once, with the versions 0.9.10 and 1.2.4. *)
Lemma first_commit_bumps_every_template_witness :
  Update.get_changed_template_dirs Sample.after_first_commit
  = (Sample.after_first_commit, Return (list_to_set ["api"; "web"]))
  /\ exists w1,
       for_each (sorted (list_to_set ["api"; "web"]))
         (Update.bump_if_needed BlockCodec.safe_load BlockCodec.dump BlockCodec.repr)
         Sample.after_first_commit = (w1, Return tt)
       /\ writes w1
          = List.map manifest_path (sorted (list_to_set ["api"; "web"]))
       /\ files w1 !! "api/manifest.yaml" = Some "manifest:
  id: api
  version: 0.9.10
"
       /\ files w1 !! "web/manifest.yaml" = Some "id: web
version: 1.2.4
".
Proof.
  destruct (first_commit_bumps_every_template
              BlockCodec.safe_load BlockCodec.dump BlockCodec.repr
              Sample.after_first_commit)
    as (Hchanged & _ & _ & _ & Hloop).
  - reflexivity.
  - split; [exact Hchanged|].
    destruct Hloop as (w1 & Hrun & _ & Hwrites & Hfiles).
    + intros d Hd. apply list_elem_of_In in Hd. simpl in Hd.
      destruct Hd as [<- | [<- | []]].
      * eexists _, _, _. split; [reflexivity|]. split; reflexivity.
      * eexists _, _, _. split; [reflexivity|]. split; reflexivity.
    + exists w1. split; [exact Hrun|]. split; [exact Hwrites|]. split.
      * apply (Hfiles "api" Sample.nested_manifest
                 (PDict [("manifest", PDict [("id", PStr "api"); ("version", PStr "0.9.9")])])
                 [("id", PStr "api"); ("version", PStr "0.9.9")]).
        -- apply list_elem_of_In. vm_compute. tauto.
        -- reflexivity.
        -- split; reflexivity.
      * apply (Hfiles "web" Sample.flat_manifest
                 (PDict [("id", PStr "web"); ("version", PStr "1.2.3")])
                 [("id", PStr "web"); ("version", PStr "1.2.3")]).
        -- apply list_elem_of_In. vm_compute. tauto.
        -- reflexivity.
        -- split; reflexivity.
Defined.

(** ** Runs of validate-catalog.py *)

Section Validator.
Variable yaml_safe_load : string -> string + pyval.
Variable load_escapes : string -> option py_error.

#[local] Abbreviation check_files :=
  (Validate.check_files yaml_safe_load load_escapes).
#[local] Abbreviation validate_yaml_files :=
  (Validate.validate_yaml_files yaml_safe_load load_escapes).
#[local] Abbreviation error_of := (parse_error yaml_safe_load).
#[local] Abbreviation fails := (fails_to_parse yaml_safe_load).
#[local] Abbreviation quiet := (loads_quietly load_escapes).

(** When no file ends the loop with an exception of its own, the loop goes
    through every file and gathers every failure, in order. *)
Lemma check_files_run (yaml_files errors : list string) (w : world) :
  (forall f, f ∈ yaml_files -> quiet w f) ->
  check_files yaml_files errors w
  = (w, Return (errors ++ flat_map (error_of w) yaml_files)%list).
Proof.
  revert errors. induction yaml_files as [|f l IH]; intros errors Hquiet.
  - simpl. by rewrite app_nil_r.
  - cbn [Validate.check_files flat_map].
    assert (forall f', f' ∈ l -> quiet w f') as Hl
      by (intros f' Hf'; apply Hquiet; by apply list_elem_of_further).
    unfold bind at 1, path_exists, parse_error.
    destruct (files w !! f) as [text|] eqn:Hf.
    + rewrite bool_decide_eq_true_2 by eauto. cbn [negb].
      unfold bind, read_file. rewrite Hf.
      rewrite (Hquiet f (list_elem_of_here f l) text Hf).
      destruct (yaml_safe_load text) as [e|v]; rewrite IH by done.
      * by rewrite <- app_assoc.
      * done.
    + rewrite bool_decide_eq_false_2 by (intros [? ?]; done). cbn [negb].
      by rewrite IH.
Qed.

(** A file whose loading raises an exception the handler does not catch
    ends the loop: the messages gathered so far are dropped with it. *)
Lemma check_files_escape
    (pre post errors : list string) (f text : string) (e : py_error) (w : world) :
  (forall f', f' ∈ pre -> quiet w f') ->
  files w !! f = Some text ->
  load_escapes text = Some e ->
  check_files (pre ++ f :: post) errors w = (w, Raise e).
Proof.
  revert errors. induction pre as [|g pre IH]; intros errors Hquiet Hf He.
  - cbn [app Validate.check_files]. unfold bind at 1, path_exists.
    rewrite Hf. rewrite bool_decide_eq_true_2 by eauto. cbn [negb].
    unfold bind, read_file. by rewrite Hf, He.
  - cbn [app Validate.check_files].
    assert (forall f', f' ∈ pre -> quiet w f') as Hpre
      by (intros f' Hf'; apply Hquiet; by apply list_elem_of_further).
    unfold bind at 1, path_exists.
    destruct (files w !! g) as [text'|] eqn:Hg.
    + rewrite bool_decide_eq_true_2 by eauto. cbn [negb].
      unfold bind, read_file. rewrite Hg.
      rewrite (Hquiet g (list_elem_of_here g pre) text' Hg).
      destruct (yaml_safe_load text'); by apply IH.
    + rewrite bool_decide_eq_false_2 by (intros [? ?]; done). cbn [negb].
      by apply IH.
Qed.

Lemma print_errors_run (errors : list string) (w : world) :
  for_each errors (fun err => print_err ("ERROR: " +:+ err)) w
  = (World (dirs w) (files w) (git w) (stdout w)
       (stderr w ++ List.map (String.append "ERROR: ") errors)%list (writes w),
     Return tt).
Proof.
  revert w. induction errors as [|e l IH]; intros w.
  - simpl. unfold ret. rewrite app_nil_r. by destruct w.
  - cbn [for_each List.map]. unfold bind at 1, print_err. rewrite IH. cbn.
    by rewrite <- app_assoc.
Qed.

Lemma validate_yaml_files_run (changed_files : list string) (w : world) :
  (forall f, f ∈ changed_files -> Validate.is_yaml_file f = true -> quiet w f) ->
  validate_yaml_files changed_files w
  = match flat_map (error_of w) (List.filter Validate.is_yaml_file changed_files) with
    | [] => (w, Return true)
    | errors =>
        (World (dirs w) (files w) (git w) (stdout w)
           (stderr w ++ List.map (String.append "ERROR: ") errors)%list (writes w),
         Return false)
    end.
Proof.
  intros Hquiet. unfold Validate.validate_yaml_files. unfold bind at 1.
  rewrite check_files_run.
  - cbn [app]. destruct (flat_map _ _) as [|e l]; [done|].
    unfold bind. by rewrite print_errors_run.
  - intros f Hf. apply list_elem_of_In, filter_In in Hf as [Hf Hy].
    apply Hquiet; [by apply list_elem_of_In | done].
Qed.

(** A message reported comes from a file that fails. *)
Lemma parse_errors_sound (l : list string) (w : world) (msg : string) :
  msg ∈ flat_map (error_of w) (List.filter Validate.is_yaml_file l) ->
  exists f, f ∈ l /\ fails w f.
Proof.
  intros H. apply list_elem_of_In, in_flat_map in H as (f & Hin & Hmsg).
  apply filter_In in Hin as [Hin Hy]. exists f.
  split; [by apply list_elem_of_In|]. split; [done|].
  unfold parse_error in Hmsg.
  destruct (files w !! f) as [text|]; [|done].
  destruct (yaml_safe_load text) as [e|v] eqn:Hl; [|done]. eauto.
Qed.

(** Every failing file has its message among those reported. *)
Lemma parse_errors_complete (l : list string) (w : world) (f text e : string) :
  f ∈ l -> Validate.is_yaml_file f = true ->
  files w !! f = Some text -> yaml_safe_load text = inl e ->
  (f +:+ ": " +:+ e) ∈ flat_map (error_of w) (List.filter Validate.is_yaml_file l).
Proof.
  intros Hin Hy Hf Hl. apply list_elem_of_In, in_flat_map. exists f. split.
  - apply filter_In. split; [by apply list_elem_of_In | done].
  - unfold parse_error. rewrite Hf, Hl. by left.
Qed.

Lemma changed_template_dirs_spec (changed_files template_dirs : list string) (d : string) :
  d ∈ Validate.get_changed_template_dirs changed_files template_dirs
  <-> exists f, f ∈ changed_files /\ PyStr.contains "/" f = true
                /\ PyStr.first_segment f = d /\ d ∈ template_dirs.
Proof.
  unfold Validate.get_changed_template_dirs.
  assert (forall acc : gset string,
            d ∈ fold_left
                  (fun changed f =>
                     if PyStr.contains "/" f
                        && bool_decide (PyStr.first_segment f ∈ template_dirs)
                     then changed ∪ {[PyStr.first_segment f]} else changed)
                  changed_files acc
            <-> d ∈ acc
                \/ exists f, f ∈ changed_files /\ PyStr.contains "/" f = true
                             /\ PyStr.first_segment f = d /\ d ∈ template_dirs) as H.
  { induction changed_files as [|f l IH]; intros acc.
    - simpl. split; [by left|]. intros [H | (f & Hf & _)]; [done|].
      by apply elem_of_nil in Hf.
    - cbn [fold_left]. rewrite IH. split.
      + intros [Hacc | (f' & Hin & H)].
        * destruct (PyStr.contains "/" f) eqn:Hc; simpl in Hacc; [|by left].
          destruct (bool_decide_reflect (PyStr.first_segment f ∈ template_dirs))
            as [Ht|Ht]; [|by left].
          apply elem_of_union in Hacc as [Hacc | Hd]; [by left|].
          apply elem_of_singleton in Hd as ->. right. exists f.
          split; [apply list_elem_of_here | done].
        * right. exists f'. split; [by apply list_elem_of_further | done].
      + intros [Hacc | (f' & Hin & Hc & Hseg & Ht)].
        * left. destruct (_ && _); [|done]. apply elem_of_union. by left.
        * apply elem_of_cons in Hin as [-> | Hin]; [|right; by exists f'].
          left. rewrite Hc, Hseg. rewrite bool_decide_eq_true_2 by done.
          simpl. apply elem_of_union. right. by apply elem_of_singleton. }
  rewrite H. split; [|by right]. intros [Hd | Hd]; [|done].
  by apply not_elem_of_empty in Hd.
Qed.

(** [", ".join(names)] puts the separator between the names and nowhere
    else. *)
Lemma join_concat (sep : string) (l : list string) :
  PyStr.join sep l = String.concat sep l.
Proof.
  induction l as [|x l IH]; [done|].
  destruct l as [|y l]; [done|].
  change (PyStr.join sep (x :: y :: l))
    with (x +:+ sep +:+ PyStr.join sep (y :: l)).
  change (String.concat sep (x :: y :: l))
    with (x +:+ sep +:+ String.concat sep (y :: l)).
  by rewrite IH.
Qed.

(** The line printed on success names the changed template directories in
    increasing order, each once. *)
Lemma validated_line_spec (changed : gset string) :
  ("Validated: " +:+
   (if bool_decide (changed ≠ ∅) then PyStr.join ", " (sorted changed)
    else "no template changes"))
  = validated (sorted changed).
Proof.
  unfold validated. f_equal.
  destruct (sorted_elements changed) as [_ Hmem].
  destruct (sorted changed) as [|d l] eqn:Hs.
  - rewrite bool_decide_eq_false_2; [done|]. intros Hne. apply Hne.
    apply set_eq. intros d. rewrite <- Hmem. split; intros H.
    + by apply elem_of_nil in H.
    + by apply not_elem_of_empty in H.
  - rewrite bool_decide_eq_true_2.
    + apply join_concat.
    + intros ->. specialize (Hmem d). rewrite elem_of_cons in Hmem.
      destruct Hmem as [Hmem _]. by apply (not_elem_of_empty (C:=gset string) d), Hmem; left.
Qed.

(** The run of [main] once git has delivered the change set and no changed
    YAML file raises an exception of its own. *)
Lemma validate_main_run (w : world) (changed_files : list string) :
  Validate.get_changed_files w = (w, Return changed_files) ->
  (forall f, f ∈ changed_files -> Validate.is_yaml_file f = true -> quiet w f) ->
  Validate.main yaml_safe_load load_escapes w
  = match flat_map (error_of w) (List.filter Validate.is_yaml_file changed_files) with
    | [] =>
        (World (dirs w) (files w) (git w)
           (stdout w
            ++ [validated
                  (sorted (Validate.get_changed_template_dirs changed_files
                             (template_dirs_of w)))])%list
           (stderr w) (writes w),
         Return 0%Z)
    | errors =>
        (World (dirs w) (files w) (git w) (stdout w)
           (stderr w ++ List.map (String.append "ERROR: ") errors)%list (writes w),
         Return 1%Z)
    end.
Proof.
  intros Hchanged Hquiet.
  unfold Validate.main, Validate.get_template_dirs.
  unfold bind at 1, get_world at 1. unfold bind at 1, ret at 1.
  unfold bind at 1. rewrite Hchanged. unfold bind at 1.
  rewrite validate_yaml_files_run by done.
  fold (template_dirs_of w).
  destruct (flat_map _ _) as [|e l]; cbn [negb]; [|done].
  unfold bind, print, ret. by rewrite validated_line_spec.
Qed.

(** C7 (as corrected).  When git cannot deliver the change set the
    Validator ends at once with that failure, having printed nothing.  When
    git delivers it, and loading the changed YAML files raises nothing but
    [yaml.YAMLError], the Validator returns 1 exactly when some changed YAML
    file that is still on disk fails to parse and 0 otherwise; it goes
    through all the files, every failure has its line on standard error, in
    the order of the change set, and a file that is gone adds none; on
    success it prints the changed template directories, in increasing order
    and separated by [", "]; and it never writes a file. *)
Theorem validator_signals_failures (w : world) :
  (forall e, Validate.get_changed_files w = (w, Raise e) ->
     Validate.main yaml_safe_load load_escapes w = (w, Raise e)
     /\ exit_status (Raise e) = 1%Z)
  /\ (forall changed_files,
        Validate.get_changed_files w = (w, Return changed_files) ->
        (forall f, f ∈ changed_files -> Validate.is_yaml_file f = true -> quiet w f) ->
        let errors :=
          flat_map (error_of w) (List.filter Validate.is_yaml_file changed_files) in
        exists w' status names,
          Validate.main yaml_safe_load load_escapes w = (w', Return status)
          /\ (status = 0%Z \/ status = 1%Z)
          /\ (status <> 0%Z <-> exists f, f ∈ changed_files /\ fails w f)
          /\ stderr w' = (stderr w ++ List.map (String.append "ERROR: ") errors)%list
          /\ (forall f text e,
                f ∈ changed_files -> Validate.is_yaml_file f = true ->
                files w !! f = Some text -> yaml_safe_load text = inl e ->
                ("ERROR: " +:+ f +:+ ": " +:+ e) ∈ stderr w')
          /\ (forall f, files w !! f = None -> error_of w f = [])
          /\ (status = 0%Z -> stdout w' = (stdout w ++ [validated names])%list)
          /\ Sorted String.le names /\ NoDup names
          /\ (forall d,
                d ∈ names
                <-> exists f, f ∈ changed_files /\ PyStr.contains "/" f = true
                              /\ PyStr.first_segment f = d
                              /\ d ∈ template_dirs_of w)
          /\ files w' = files w /\ writes w' = writes w /\ dirs w' = dirs w).
Proof.
  split.
  { intros e He. split; [|done].
    unfold Validate.main, Validate.get_template_dirs.
    unfold bind at 1, get_world at 1. unfold bind at 1, ret at 1.
    unfold bind at 1. by rewrite He. }
  intros changed_files Hchanged Hquiet errors.
  pose proof (parse_errors_sound changed_files w) as Hsound.
  fold errors in Hsound.
  assert (forall f text e,
            f ∈ changed_files -> Validate.is_yaml_file f = true ->
            files w !! f = Some text -> yaml_safe_load text = inl e ->
            ("ERROR: " +:+ f +:+ ": " +:+ e)
              ∈ List.map (String.append "ERROR: ") errors) as Hall.
  { intros f text e Hin Hy Hf Hl. apply list_elem_of_In, in_map_iff.
    exists (f +:+ ": " +:+ e). split; [done|].
    apply list_elem_of_In. by eapply parse_errors_complete. }
  assert (forall f, files w !! f = None -> error_of w f = []) as Hgone.
  { intros f Hf. unfold parse_error. by rewrite Hf. }
  set (changed := Validate.get_changed_template_dirs changed_files (template_dirs_of w)).
  destruct (sorted_elements changed) as [Hnodup Hmem].
  assert (forall d,
            d ∈ sorted changed
            <-> exists f, f ∈ changed_files /\ PyStr.contains "/" f = true
                          /\ PyStr.first_segment f = d /\ d ∈ template_dirs_of w)
    as Hnames.
  { intros d. rewrite Hmem. apply changed_template_dirs_spec. }
  rewrite (validate_main_run w changed_files) by done. fold errors. fold changed.
  destruct errors as [|e errors'] eqn:Herrors.
  - eexists _, 0%Z, (sorted changed). split; [done|]. split; [by left|]. split.
    { split; [done|]. intros (f & Hin & Hy & text & e & Hf & Hl).
      specialize (Hall f text e Hin Hy Hf Hl). by apply elem_of_nil in Hall. }
    cbn. rewrite app_nil_r. repeat split; try done.
    + intros f text e Hin Hy Hf Hl.
      specialize (Hall f text e Hin Hy Hf Hl). by apply elem_of_nil in Hall.
    + apply sorted_increasing.
    + by apply Hnames.
    + by apply Hnames.
  - eexists _, 1%Z, (sorted changed). split; [done|]. split; [by right|]. split.
    { split; [|done]. intros _. apply (Hsound e). apply list_elem_of_here. }
    cbn. repeat split; try done.
    + intros f text e' Hin Hy Hf Hl. apply elem_of_app. right. by eapply Hall.
    + apply sorted_increasing.
    + by apply Hnames.
    + by apply Hnames.
Qed.

End Validator.

(** C7 at work: of four changed YAML files on disk one is not valid, a
    fifth was deleted; one error is reported and the status is 1. *)
Lemma validator_signals_failures_witness :
  snd (Sample.validate_main Sample.after_yaml_commit) = Return 1%Z
  /\ stderr (fst (Sample.validate_main Sample.after_yaml_commit))
     = ["ERROR: web/broken.yaml: mapping values are not allowed here"]
  /\ files (fst (Sample.validate_main Sample.after_yaml_commit))
     = files Sample.after_yaml_commit
  /\ writes (fst (Sample.validate_main Sample.after_yaml_commit)) = [].
Proof.
  destruct (validator_signals_failures BlockCodec.safe_load Sample.no_escape
              Sample.after_yaml_commit) as [_ Hrun].
  destruct (Hrun ["api/manifest.yaml"; "web/manifest.yaml"; "web/extra.yml";
                  "web/broken.yaml"; "web/deleted.yaml"; "web/readme.md"])
    as (w' & status & names & Hmain & _ & _ & Hstderr & _ & _ & _ & _ & _ & _
        & Hfiles & Hwrites & _).
  - reflexivity.
  - intros f _ _ text _. reflexivity.
  - unfold Sample.validate_main. rewrite Hmain. cbn [fst snd].
    split; [|split; [|split]].
    + vm_compute in Hmain. by injection Hmain as _ <-.
    + rewrite Hstderr. reflexivity.
    + exact Hfiles.
    + rewrite Hwrites. reflexivity.
Defined.

(** C7 as the specification states it does not hold: when git fails the
    Validator ends with status 1 although no changed file fails to parse. *)
Lemma validator_contract_as_specified_fails : ~ validator_contract_as_specified.
Proof.
  intros H.
  destruct (H BlockCodec.safe_load Sample.no_escape Sample.with_broken_git)
    as [Hfail _].
  destruct Hfail as (changed_files & f & Hchanged & _); [discriminate|].
  discriminate Hchanged.
Qed.

(** * Further properties of the scripts *)

(** ** The Version Bump Engine, continued *)

Section BumpEngineMore.
Import PyStr.

(** The three runs of a text in strict form are determined by the text. *)
Lemma dotted_inj (a b c a' b' c' : string) :
  digit_run a -> digit_run b -> digit_run c ->
  digit_run a' -> digit_run b' -> digit_run c' ->
  dotted a b c = dotted a' b' c' -> a = a' /\ b = b' /\ c = c'.
Proof.
  intros Ha Hb Hc Ha' Hb' Hc' H.
  pose proof (SEMVER_PATTERN_match_dotted a b c Ha Hb Hc) as H1.
  pose proof (SEMVER_PATTERN_match_dotted a' b' c' Ha' Hb' Hc') as H2.
  rewrite H in H1. rewrite H1 in H2. by inversion H2.
Qed.

Lemma strict_form_matches (s : string) :
  strict_form s -> SEMVER_PATTERN_match s <> None.
Proof.
  intros (a & b & c & Ha & Hb & Hc & ->).
  by rewrite SEMVER_PATTERN_match_dotted.
Qed.

Lemma bump_patch_version_other (s : string) :
  ~ strict_form (strip s) -> bump_patch_version s = s.
Proof.
  intros Hs. unfold bump_patch_version.
  destruct (SEMVER_PATTERN_match (strip s)) as [[[a b] c]|] eqn:E; [|done].
  apply SEMVER_PATTERN_match_strip in E as (Ha & Hb & Hc & E).
  destruct Hs. by exists a, b, c.
Qed.

Lemma format_version_strict (major minor patch : N) :
  strict_form (format_version major minor patch)
  /\ strip (format_version major minor patch) = format_version major minor patch.
Proof.
  split.
  - exists (pretty major), (pretty minor), (pretty patch).
    repeat split; try apply digit_run_pretty.
  - apply strip_dotted; apply digit_run_pretty.
Qed.

(** On texts of code points 0..255 [bump_patch_version] returns its argument
    unchanged exactly when the argument, once stripped, is not in the strict
    form. *)
Lemma bump_patch_version_unchanged_iff (s : string) :
  bump_patch_version s = s <-> ~ strict_form (strip s).
Proof.
  split; [|apply bump_patch_version_other].
  intros Hsame (a & b & c & Ha & Hb & Hc & Hs).
  rewrite (bump_patch_version_dotted s a b c) in Hsame by done.
  destruct (format_version_strict (int_of_digits a) (int_of_digits b)
              (int_of_digits c + 1)) as [_ Hstrip].
  assert (dotted a b c
          = format_version (int_of_digits a) (int_of_digits b) (int_of_digits c + 1))
    as Hboth by (rewrite <- Hs, <- Hsame; exact Hstrip).
  apply dotted_inj in Hboth as (_ & _ & Hc'); try done; try apply digit_run_pretty.
  apply (f_equal int_of_digits) in Hc'.
  destruct (pretty_N_digits (int_of_digits c + 1)) as (_ & Hint & _).
  rewrite Hint in Hc'. lia.
Qed.

(** X2.  The result of a bump is again in the strict form, whatever white
    space or leading zeros the input had, so bumps compose: two of them
    add two to the patch component and leave the other two alone. *)
Theorem bump_patch_version_twice (s a b c : string) :
  digit_run a -> digit_run b -> digit_run c ->
  strip s = dotted a b c ->
  strict_form (bump_patch_version s)
  /\ bump_patch_version (bump_patch_version s)
     = format_version (int_of_digits a) (int_of_digits b) (int_of_digits c + 2).
Proof.
  intros Ha Hb Hc Hs.
  rewrite (bump_patch_version_dotted s a b c) by done. split.
  - apply format_version_strict.
  - rewrite bump_patch_version_format. f_equal. lia.
Qed.

End BumpEngineMore.

(** X1.  On every Python string [bump_patch_version] returns its argument
    unchanged exactly when the argument, once stripped, is not three runs of
    decimal digits (of any script) separated by two dots: a version that
    matches never comes back as it was. *)
Theorem unicode_bump_patch_version_unchanged_iff
    (to_decimal : N -> option N) (is_space : N -> bool) (s : PyUnicode.str) :
  PyUnicode.tables_of_python to_decimal is_space ->
  PyUnicode.bump_patch_version to_decimal is_space s = s
  <-> ~ PyUnicode.strict_form to_decimal (PyUnicode.strip is_space s).
Proof.
  intros Htables. split;
    [|apply (unicode_bump_patch_version_other _ _ Htables)].
  intros Hsame (a & b & c & Ha & Hb & Hc & Hs).
  rewrite (unicode_bump_patch_version_dotted _ _ Htables s a b c) in Hsame by done.
  set (n := PyUnicode.int_of_digits to_decimal c) in *.
  destruct (unicode_format_version_strict _ _ Htables
              (PyUnicode.int_of_digits to_decimal a)
              (PyUnicode.int_of_digits to_decimal b) (n + 1)) as [_ Hstrip].
  rewrite Hsame, Hs in Hstrip. rewrite <- Hsame in Hstrip.
  rewrite unicode_format_version_dotted in Hstrip.
  apply (unicode_dotted_inj _ _ Htables) in Hstrip as (_ & _ & Hc');
    try done; try apply (unicode_pretty_digits _ _ Htables).
  apply (f_equal (PyUnicode.int_of_digits to_decimal)) in Hc'.
  destruct (unicode_pretty_digits _ _ Htables (n + 1)) as [_ Hint].
  rewrite Hint in Hc'. subst n. lia.
Qed.

(** X1 at work: the version in Arabic-Indic digits does not come back as it
    was, so it is in the strict form; ["v1.2.3"] comes back as it was. *)
Lemma unicode_bump_patch_version_unchanged_iff_witness :
  PyUnicode.tables_of_python Sample.to_decimal Sample.is_space
  /\ ~ ~ PyUnicode.strict_form Sample.to_decimal
         (PyUnicode.strip Sample.is_space Sample.arabic_indic_version)
  /\ ~ PyUnicode.strict_form Sample.to_decimal
         (PyUnicode.strip Sample.is_space (PyUnicode.of_string "v1.2.3")).
Proof.
  split; [exact sample_tables_of_python|]. split.
  - intros H.
    apply (unicode_bump_patch_version_unchanged_iff _ _ _ sample_tables_of_python)
      in H.
    discriminate H.
  - apply (unicode_bump_patch_version_unchanged_iff _ _ _ sample_tables_of_python).
    reflexivity.
Defined.

(** X2 at work: white space and leading zeros are gone after the first
    bump. *)
Lemma bump_patch_version_twice_witness :
  strict_form (bump_patch_version " 01.02.09 ")
  /\ bump_patch_version (bump_patch_version " 01.02.09 ") = "1.2.11".
Proof.
  assert (forall t, t <> "" -> PyStr.all_digits t = true -> digit_run t) as Hrun
    by (intros t ? ?; by split).
  exact (bump_patch_version_twice " 01.02.09 " "01" "02" "09"
           (Hrun "01" ltac:(discriminate) eq_refl)
           (Hrun "02" ltac:(discriminate) eq_refl)
           (Hrun "09" ltac:(discriminate) eq_refl) eq_refl).
Defined.

(** ** [bump_manifest_version] and [get_manifest_version], continued *)

Section BumpMore.
Variable yaml_safe_load : string -> string + pyval.
Variable yaml_dump : pyval -> string.
Variable py_repr : pyval -> string.

#[local] Abbreviation py_str := (Update.py_str py_repr).
#[local] Abbreviation bump_manifest_version :=
  (Update.bump_manifest_version yaml_safe_load yaml_dump py_repr).
#[local] Abbreviation get_manifest_version :=
  (Update.get_manifest_version yaml_safe_load py_repr).

(** X3.  The footprint of a [bump_manifest_version] that returns.  It
    returns [True]; the manifest of the template was on disk and loaded as a
    document of one of the two shapes; that file now holds the dump of the
    bumped document and no other file has changed; the write log has one
    more entry and standard output one more line; nothing else of the world
    has moved. *)
Theorem bump_manifest_version_footprint
    (template_dir : string) (w w' : world) (b : bool) :
  bump_manifest_version template_dir w = (w', Return b) ->
  b = true
  /\ (exists text data m,
        files w !! manifest_path template_dir = Some text
        /\ loads_as yaml_safe_load text data m
        /\ files w' !! manifest_path template_dir
           = Some (yaml_dump (bumped_document py_repr data m))
        /\ stdout w' = (stdout w ++ [bump_message py_repr template_dir m])%list)
  /\ writes w' = (writes w ++ [manifest_path template_dir])%list
  /\ (forall p, p <> manifest_path template_dir -> files w' !! p = files w !! p)
  /\ dirs w' = dirs w /\ git w' = git w /\ stderr w' = stderr w.
Proof.
  rewrite bump_manifest_version_run.
  destruct (files w !! manifest_path template_dir) as [text|] eqn:Hf; [|done].
  destruct (yaml_safe_load text) as [msg|data] eqn:Hl; [done|].
  destruct (manifest_view data) as [m|] eqn:Hm; [|done].
  intros [= <- <-]. unfold after_bump; cbn.
  split; [done|]. split.
  { exists text, data, m. repeat split; try done. apply lookup_insert_eq. }
  split; [done|].
  split; [intros p Hp; by rewrite lookup_insert_ne|].
  done.
Qed.

(** X4.  A version that [SEMVER_PATTERN] does not match once stripped does
    not stop the bump and is not repaired by it: the manifest is rewritten
    all the same, with the old version as a string (whatever its type was),
    and the line printed names the same text twice.  Such a version is one
    the manifest gives: the default ["0.0.0"] matches. *)
Theorem version_outside_strict_form_is_kept
    (template_dir text : string) (data : pyval) (m : PyDict.t) (w : world) :
  files w !! manifest_path template_dir = Some text ->
  loads_as yaml_safe_load text data m ->
  SEMVER_PATTERN_match (PyStr.strip (py_str (version_or_default m))) = None ->
  bump_manifest_version template_dir w
  = (after_bump w template_dir
       (yaml_dump
          (with_manifest data
             (PyDict.set "version" (PStr (py_str (version_or_default m))) m)))
       ("Bumped " +:+ template_dir +:+ " version: "
        +:+ py_str (version_or_default m) +:+ " -> "
        +:+ py_str (version_or_default m)),
     Return true)
  /\ exists v, PyDict.get "version" m = Some v.
Proof.
  intros Hf [Hl Hm] Hv. split.
  - rewrite bump_manifest_version_run, Hf, Hl, Hm.
    unfold bumped_document, bump_message, bump_patch_version.
    by rewrite Hv.
  - unfold version_or_default in Hv.
    destruct (PyDict.get "version" m) as [v|]; [by eauto|].
    discriminate Hv.
Qed.

(** X5.  Bumps compose through the file.  When PyYAML reads back the
    document written by the first bump, a second bump of a manifest whose
    version was [major.minor.patch] writes [major.minor.(patch+2)]; the other
    fields are those of the manifest the first bump read. *)
Theorem bump_manifest_version_twice
    (template_dir text : string) (data : pyval) (m : PyDict.t) (w : world)
    (major minor patch : N) :
  files w !! manifest_path template_dir = Some text ->
  loads_as yaml_safe_load text data m ->
  PyDict.get "version" m = Some (PStr (format_version major minor patch)) ->
  yaml_safe_load (yaml_dump (bumped_document py_repr data m))
  = inr (bumped_document py_repr data m) ->
  exists w1 w2 data2 m2,
    bump_manifest_version template_dir w = (w1, Return true)
    /\ bump_manifest_version template_dir w1 = (w2, Return true)
    /\ files w2 !! manifest_path template_dir = Some (yaml_dump data2)
    /\ manifest_view data2 = Some m2
    /\ PyDict.get "version" m2
       = Some (PStr (format_version major minor (patch + 2)))
    /\ PyDict.without "version" m2 = PyDict.without "version" m
    /\ writes w2
       = (writes w ++ [manifest_path template_dir; manifest_path template_dir])%list.
Proof.
  intros Hf [Hl Hm] Hv Hback.
  assert (version_or_default m = PStr (format_version major minor patch)) as Hold
    by (unfold version_or_default; by rewrite Hv).
  set (data1 := bumped_document py_repr data m) in *.
  set (m1 := PyDict.set "version"
               (PStr (format_version major minor (patch + 1))) m).
  assert (manifest_view data1 = Some m1) as Hm1.
  { unfold data1. rewrite manifest_view_bumped by done.
    rewrite Hold. cbn [Update.py_str]. by rewrite bump_patch_version_format. }
  assert (version_or_default m1 = PStr (format_version major minor (patch + 1)))
    as Hold1 by (unfold version_or_default, m1; by rewrite dict_get_set_eq).
  set (w1 := after_bump w template_dir (yaml_dump data1)
               (bump_message py_repr template_dir m)).
  assert (files w1 !! manifest_path template_dir = Some (yaml_dump data1)) as Hf1
    by (unfold w1, after_bump; cbn [files]; apply lookup_insert_eq).
  exists w1. eexists _, (bumped_document py_repr data1 m1), _.
  split; [by rewrite bump_manifest_version_run, Hf, Hl, Hm|].
  split; [by rewrite bump_manifest_version_run, Hf1, Hback, Hm1|].
  split; [unfold after_bump at 1; cbn [files]; by rewrite lookup_insert_eq|].
  split; [by apply manifest_view_bumped|].
  rewrite Hold1. cbn [Update.py_str]. rewrite bump_patch_version_format.
  split; [rewrite dict_get_set_eq; do 3 f_equal; lia|].
  split; [unfold m1; by rewrite !dict_without_set|].
  unfold w1, after_bump; cbn [writes]. by rewrite <- app_assoc.
Qed.

Lemma get_manifest_version_run (path : string) (w : world) :
  get_manifest_version path w
  = (w, match files w !! path with
        | None => Raise FileNotFoundError
        | Some text =>
            match yaml_safe_load text with
            | inl msg => Raise (YAMLError msg)
            | inr data =>
                match manifest_view data with
                | None => Raise AttributeError
                | Some m =>
                    Return
                      match PyDict.get "version" m with
                      | Some v => if Update.py_truthy v then Some (py_str v) else None
                      | None => None
                      end
                end
            end
        end).
Proof.
  unfold Update.get_manifest_version. unfold bind at 1. rewrite load_yaml_run.
  destruct (files w !! path) as [text|]; [|done].
  destruct (yaml_safe_load text) as [msg|data]; [done|].
  unfold bind, Update.get_manifest, manifest_view, Update.py_get, ret, raise.
  destruct data as [| | | | |l|d]; try reflexivity.
  destruct (PyDict.get "manifest" d) as [v|]; cbn [snd].
  - destruct v as [| | | | |l|md]; try reflexivity.
    by destruct (PyDict.get "version" md).
  - by destruct (PyDict.get "version" d).
Qed.

(** X6.  [get_manifest_version] reads without changing anything and gives
    the same answer for the two shapes of a manifest.  The answer is [None]
    not only when the [version] key is missing but whenever its value counts
    as false (null, [0], an empty string, ...); otherwise it is [str] of the
    value. *)
Theorem get_manifest_version_spec
    (path text : string) (data : pyval) (m : PyDict.t) (w : world) :
  files w !! path = Some text ->
  loads_as yaml_safe_load text data m ->
  exists result,
    get_manifest_version path w = (w, Return result)
    /\ (result = None
        <-> PyDict.get "version" m = None
            \/ exists v, PyDict.get "version" m = Some v /\ Update.py_truthy v = false)
    /\ (forall v, PyDict.get "version" m = Some v -> Update.py_truthy v = true ->
        result = Some (py_str v))
    /\ (forall path' text' data',
          files w !! path' = Some text' ->
          loads_as yaml_safe_load text' data' m ->
          get_manifest_version path' w = (w, Return result)).
Proof.
  intros Hf [Hl Hm]. eexists. split.
  { by rewrite get_manifest_version_run, Hf, Hl, Hm. }
  split; [|split].
  - destruct (PyDict.get "version" m) as [v|]; [|by split; [left|]].
    destruct (Update.py_truthy v) eqn:Ht.
    + split; [done|]. intros [H | (v' & [= <-] & H)]; congruence.
    + split; [|done]. intros _. right. by exists v.
  - intros v -> ->. done.
  - intros path' text' data' Hf' [Hl' Hm'].
    by rewrite get_manifest_version_run, Hf', Hl', Hm'.
Qed.

(** X7.  After a bump that PyYAML reads back, [get_manifest_version] finds
    the version the bump computed; it finds none only when that text is
    empty. *)
Theorem get_manifest_version_after_bump
    (template_dir text : string) (data : pyval) (m : PyDict.t)
    (w w' : world) (b : bool) :
  files w !! manifest_path template_dir = Some text ->
  loads_as yaml_safe_load text data m ->
  bump_manifest_version template_dir w = (w', Return b) ->
  yaml_safe_load (yaml_dump (bumped_document py_repr data m))
  = inr (bumped_document py_repr data m) ->
  let new_version := bump_patch_version (py_str (version_or_default m)) in
  get_manifest_version (manifest_path template_dir) w'
  = (w', Return (if PyStr.is_empty new_version then None else Some new_version)).
Proof.
  intros Hf [Hl Hm] Hrun Hback new_version.
  rewrite bump_manifest_version_run, Hf, Hl, Hm in Hrun.
  injection Hrun as <- _.
  rewrite get_manifest_version_run.
  assert (files (after_bump w template_dir
                   (yaml_dump (bumped_document py_repr data m))
                   (bump_message py_repr template_dir m))
            !! manifest_path template_dir
          = Some (yaml_dump (bumped_document py_repr data m))) as ->
    by (unfold after_bump; cbn [files]; apply lookup_insert_eq).
  rewrite Hback, manifest_view_bumped by done.
  rewrite dict_get_set_eq. fold new_version. cbn [Update.py_truthy Update.py_str].
  by destruct (PyStr.is_empty new_version).
Qed.

End BumpMore.

(** ** The Catalog Builder, continued *)

Section BuilderMore.
Variable yaml_safe_load : string -> string + pyval.

#[local] Abbreviation build_templates := (Update.build_templates yaml_safe_load).
#[local] Abbreviation build_info_yaml := (Update.build_info_yaml yaml_safe_load).
#[local] Abbreviation record_of := (template_record yaml_safe_load).

Lemma build_templates_records (l : list string) (w : world) (rs : list pyval) :
  build_templates l w = (w, Return rs) <-> Forall2 (record_of w) l rs.
Proof.
  revert rs. induction l as [|d l IH]; intros rs.
  - simpl. unfold ret. split.
    + intros [= <-]. constructor.
    + intros H. by inversion H.
  - rewrite build_templates_cons. split.
    + destruct (files w !! manifest_path d) as [text|] eqn:Hf; [|done].
      destruct (yaml_safe_load text) as [msg|data] eqn:Hl; [done|].
      destruct (manifest_view data) as [m|] eqn:Hm; [|done].
      pose proof (build_templates_world yaml_safe_load l w) as Hw.
      destruct (Update.build_templates _ l w) as [w' [rs'|e]] eqn:Hb;
        simpl in Hw; subst w'; [|done].
      intros [= <-]. constructor; [|by apply IH].
      by exists text, data, m.
    + intros H. inversion H as [|d0 r l0 rs' Hr Hrest]; subst.
      destruct Hr as (text & data & m & -> & [-> ->] & ->).
      apply IH in Hrest. by rewrite Hrest.
Qed.

(** X8.  [build_info_yaml] returns a document exactly when the manifest of
    every template directory can be used; the document then has one record
    per template directory, in the order of the listing, each the summary of
    its manifest with the six keys in a fixed order.  Building changes
    nothing in the world. *)
Theorem build_info_yaml_records (w w' : world) (doc : pyval) :
  build_info_yaml w = (w', Return doc)
  <-> w' = w
      /\ exists rs,
           doc = PDict [("templates", PList rs)]
           /\ Forall2 (record_of w) (template_dirs_of w) rs
           /\ length rs = length (template_dirs_of w)
           /\ Forall (fun r => exists fields,
                        r = PDict fields /\ PyDict.keys fields = summary_keys) rs.
Proof.
  rewrite build_info_yaml_run. fold (template_dirs_of w).
  pose proof (build_templates_world yaml_safe_load (template_dirs_of w) w) as Hw.
  destruct (Update.build_templates _ _ w) as [w1 [rs|e]] eqn:Hb;
    simpl in Hw; subst w1.
  - apply build_templates_records in Hb. split.
    + intros [= <- <-]. split; [done|]. exists rs. split; [done|]. split; [done|].
      split; [symmetry; by eapply Forall2_length|].
      clear -Hb. induction Hb as [|d r l rs (text & data & m & _ & _ & ->) _ IH];
        constructor; [|done].
      eexists. split; reflexivity.
    + intros (-> & rs' & -> & Hrs & _).
      apply build_templates_records in Hb, Hrs.
      rewrite Hb in Hrs. by injection Hrs as <-.
  - split; [done|]. intros (_ & rs' & _ & Hrs & _).
    apply build_templates_records in Hrs. congruence.
Qed.

(** X9.  The two shapes of a manifest are equivalent for the Catalog
    Builder: a document with its fields under [manifest] and a document with
    the same fields at the top level give the same summary record, in which
    a missing [id] is the directory name, a missing [name], [description] or
    [version] is null and missing [tags] or [keywords] are empty. *)
Theorem both_shapes_give_the_same_record
    (template_dir flat_text nested_text : string) (m : PyDict.t) (w1 w2 : world) :
  PyDict.get "manifest" m = None ->
  files w1 !! manifest_path template_dir = Some flat_text ->
  yaml_safe_load flat_text = inr (PDict m) ->
  files w2 !! manifest_path template_dir = Some nested_text ->
  yaml_safe_load nested_text = inr (PDict [("manifest", PDict m)]) ->
  let field k default :=
    match PyDict.get k m with Some v => v | None => default end in
  let record :=
    PDict [("id", field "id" (PStr template_dir)); ("name", field "name" PNone);
           ("description", field "description" PNone);
           ("version", field "version" PNone); ("tags", field "tags" (PList []));
           ("keywords", field "keywords" (PList []))] in
  build_templates [template_dir] w1 = (w1, Return [record])
  /\ build_templates [template_dir] w2 = (w2, Return [record]).
Proof.
  intros Hflat Hf1 Hl1 Hf2 Hl2 field record.
  split; rewrite build_templates_cons.
  - rewrite Hf1, Hl1. unfold manifest_view. by rewrite Hflat.
  - by rewrite Hf2, Hl2.
Qed.

End BuilderMore.

(** ** [main] of update-catalog.py, continued *)

Section MainMore.
Variable yaml_safe_load : string -> string + pyval.
Variable yaml_dump : pyval -> string.
Variable py_repr : pyval -> string.

#[local] Abbreviation build_templates := (Update.build_templates yaml_safe_load).
#[local] Abbreviation build_info_yaml := (Update.build_info_yaml yaml_safe_load).
#[local] Abbreviation regenerate_info :=
  (Update.regenerate_info yaml_safe_load yaml_dump).
#[local] Abbreviation bump_if_needed :=
  (Update.bump_if_needed yaml_safe_load yaml_dump py_repr).
#[local] Abbreviation main := (Update.main yaml_safe_load yaml_dump py_repr).

Lemma update_footprint_refl (w : world) : update_footprint w w.
Proof.
  repeat split; try done. exists []. split; [by rewrite app_nil_r|].
  intros p Hp. by apply elem_of_nil in Hp.
Qed.

Lemma update_footprint_bump (w0 w : world) (d text line old : string) :
  d ∈ template_dirs_of w0 ->
  files w !! manifest_path d = Some old ->
  update_footprint w0 w ->
  update_footprint w0 (after_bump w d text line).
Proof.
  intros Hd Hold (Hdirs & Hgit & Herr & Hsome & (l & Hw & Hl) & Hfiles).
  unfold update_footprint, after_bump; cbn.
  split; [done|]. split; [done|]. split; [done|]. split; [|split].
  - intros d'. rewrite <- Hsome.
    destruct (decide (manifest_path d = manifest_path d')) as [<-|Hne].
    + rewrite lookup_insert_eq, Hold. split; eauto.
    + by rewrite lookup_insert_ne.
  - exists (l ++ [manifest_path d])%list. split; [by rewrite Hw, <- app_assoc|].
    intros p [Hp | Hp]%elem_of_app; [by apply Hl|].
    apply list_elem_of_singleton in Hp as ->. right. by exists d.
  - intros p Hinfo Hp. rewrite lookup_insert_ne; [by apply Hfiles|].
    intros <-. by apply (Hp d).
Qed.

Lemma update_footprint_index (w0 w : world) (text : string) :
  update_footprint w0 w -> update_footprint w0 (after_index w text).
Proof.
  intros (Hdirs & Hgit & Herr & Hsome & (l & Hw & Hl) & Hfiles).
  unfold update_footprint, after_index; cbn.
  split; [done|]. split; [done|]. split; [done|]. split; [|split].
  - intros d. rewrite <- Hsome. rewrite lookup_insert_ne; [done|].
    intros H. symmetry in H. by apply manifest_path_not_index in H.
  - exists (l ++ ["info.yaml"])%list. split; [by rewrite Hw, <- app_assoc|].
    intros p [Hp | Hp]%elem_of_app; [by apply Hl|].
    apply list_elem_of_singleton in Hp as ->. by left.
  - intros p Hinfo Hp. rewrite lookup_insert_ne; [by apply Hfiles | done].
Qed.

Lemma update_footprint_template_dirs (w0 w : world) :
  update_footprint w0 w -> template_dirs_of w = template_dirs_of w0.
Proof.
  intros (Hdirs & _ & _ & Hsome & _). unfold template_dirs_of. rewrite Hdirs.
  apply filter_ext. intros d. unfold is_template_dir. f_equal.
  apply bool_decide_ext, Hsome.
Qed.

(** X10.  Whatever a run of [main] does, and however it ends, it writes no
    file other than [info.yaml] and the manifests of template directories:
    every other file is as it was, the listing and the set of template
    directories are the same, nothing goes to standard error; and when it
    returns, it returns 0. *)
Theorem main_footprint (w w' : world) (r : outcome Z) :
  main w = (w', r) ->
  update_footprint w w'
  /\ template_dirs_of w' = template_dirs_of w
  /\ (forall n, r = Return n -> n = 0%Z).
Proof.
  intros Hmain.
  assert (update_footprint w w' /\ (forall n, r = Return n -> n = 0%Z)) as [Hfp Hret].
  { rewrite main_run in Hmain.
    destruct (Update.get_changed_template_dirs w) as [w0 [changed|e]] eqn:Hchanged.
    2:{ injection Hmain as <- <-. split; [apply update_footprint_refl | done]. }
    pose proof (for_each_invariant (update_footprint w) bump_if_needed
                  (sorted changed) w (update_footprint_refl w)) as Hloop.
    assert (update_footprint w (fst (for_each (sorted changed) bump_if_needed w)))
      as Hw1.
    { apply Hloop. intros d w1 Hd Hfp.
      assert (d ∈ template_dirs_of w) as Hd'.
      { unfold sorted in Hd. rewrite merge_sort_Permutation in Hd.
        apply elem_of_elements in Hd.
        by apply (get_changed_template_dirs_subset _ _ _ _ Hchanged). }
      destruct (bump_if_needed_cases yaml_safe_load yaml_dump py_repr d w1)
        as [-> | (text & data & m & Hf & _ & ->)]; [done|].
      cbn [fst]. by eapply update_footprint_bump. }
    destruct (for_each (sorted changed) _ w) as [w1 [[]|e]]; simpl in Hw1.
    2:{ by injection Hmain as <- <-. }
    rewrite regenerate_info_run in Hmain.
    destruct (snd (Update.build_templates _ _ w1)) as [templates|e].
    2:{ by injection Hmain as <- <-. }
    cbv zeta in Hmain. destruct (String.eqb _ _).
    - injection Hmain as <- <-. split; [done|]. by intros n [= <-].
    - injection Hmain as <- <-. split; [by apply update_footprint_index|].
      by intros n [= <-]. }
  split; [done|]. split; [by apply update_footprint_template_dirs | done].
Qed.

(** A rebuild that returns leaves an index that the next rebuild accepts. *)
Lemma regenerate_info_settles (w w1 : world) :
  regenerate_info w = (w1, Return tt) ->
  regenerate_info w1 = (w1, Return tt)
  /\ exists templates,
       build_info_yaml w1 = (w1, Return (PDict [("templates", PList templates)]))
       /\ existing_index w1 = yaml_dump (PDict [("templates", PList templates)]).
Proof.
  intros Hrun. pose proof Hrun as Hrun0. rewrite regenerate_info_run in Hrun.
  destruct (snd (Update.build_templates _ _ w)) as [templates|e] eqn:Hbuild;
    [|done].
  set (new_content := yaml_dump (PDict [("templates", PList templates)])) in *.
  assert (forall w2, snd (build_templates (template_dirs_of w2) w2) = Return templates ->
            build_info_yaml w2
            = (w2, Return (PDict [("templates", PList templates)]))) as Hinfo.
  { intros w2 H2. rewrite build_info_yaml_run. fold (template_dirs_of w2).
    pose proof (build_templates_world yaml_safe_load (template_dirs_of w2) w2) as Hw.
    destruct (Update.build_templates _ _ w2) as [w' [rs|e]];
      simpl in Hw, H2; subst w'; by inversion H2. }
  cbv zeta in Hrun.
  destruct (String.eqb_spec (existing_index w) new_content) as [Heq|Hne];
    injection Hrun as <-.
  - split; [done|]. exists templates. split; [by apply Hinfo | done].
  - assert (snd (build_templates (template_dirs_of (after_index w new_content))
                   (after_index w new_content)) = Return templates) as Hbuild1.
    { unfold template_dirs_of.
      rewrite (template_dirs_frame w), (build_templates_frame _ _ w); try done;
        intros d; unfold after_index; cbn [files];
        apply lookup_insert_ne; intros H; symmetry in H;
        by apply manifest_path_not_index in H. }
    assert (existing_index (after_index w new_content) = new_content) as Hexisting.
    { unfold existing_index, after_index; cbn [files]. by rewrite lookup_insert_eq. }
    split.
    + rewrite regenerate_info_run. fold (template_dirs_of (after_index w new_content)).
      rewrite Hbuild1. cbv zeta. fold new_content.
      by rewrite Hexisting, String.eqb_refl.
    + exists templates. split; [by apply Hinfo | done].
Qed.

(** X11.  After a run of [main] that returns, the index on disk is the
    dump of the summaries of the manifests as they are then, bumps of that
    run included: rebuilding it again finds nothing to write. *)
Theorem main_leaves_index_in_sync (w w' : world) (n : Z) :
  main w = (w', Return n) ->
  regenerate_info w' = (w', Return tt)
  /\ exists templates,
       build_info_yaml w' = (w', Return (PDict [("templates", PList templates)]))
       /\ existing_index w' = yaml_dump (PDict [("templates", PList templates)])
       /\ Forall2 (template_record yaml_safe_load w') (template_dirs_of w') templates.
Proof.
  rewrite main_run.
  destruct (Update.get_changed_template_dirs w) as [w0 [changed|e]]; [|done].
  destruct (for_each (sorted changed) _ w) as [w1 [[]|e]]; [|done].
  destruct (Update.regenerate_info _ _ w1) as [w2 [[]|e]] eqn:Hregen; [|done].
  intros [= <- _].
  apply regenerate_info_settles in Hregen as (Hagain & templates & Hinfo & Hidx).
  split; [done|]. exists templates. split; [done|]. split; [done|].
  apply build_info_yaml_records in Hinfo as (_ & rs & [= <-] & Hrs & _). done.
Qed.

(** X12.  With a parent commit and a change set in which no path lies
    inside a template directory (an empty diff, files at the root, files of
    other directories), nothing is bumped: [main] is the rebuild of the index
    alone. *)
Theorem no_changed_template_no_bump (w : world) (out : string) :
  has_parent (git w) = true ->
  diff_name_only (git w) = Some out ->
  (forall f, f ∈ Validate.output_lines out ->
     PyStr.contains "/" f = false \/ PyStr.first_segment f ∉ template_dirs_of w) ->
  Update.get_changed_template_dirs w = (w, Return ∅)
  /\ main w = (do _ <- regenerate_info; ret 0%Z) w.
Proof.
  intros Hparent Hdiff Hnone.
  assert (Update.get_changed_template_dirs w = (w, Return ∅)) as Hchanged.
  { unfold Update.get_changed_template_dirs, Update.get_template_dirs, bind,
      get_world, ret. rewrite Hparent, Hdiff. cbn [negb].
    fold (Validate.output_lines out). fold (template_dirs_of w).
    replace (List.filter _ (Validate.output_lines out)) with (@nil string); [done|].
    symmetry. induction (Validate.output_lines out) as [|f l IH]; [done|].
    cbn [List.filter].
    destruct (Hnone f (list_elem_of_here f l)) as [-> | Hf].
    - simpl. apply IH. intros f' Hf'. apply Hnone. by apply list_elem_of_further.
    - rewrite bool_decide_eq_false_2, andb_false_r by done.
      apply IH. intros f' Hf'. apply Hnone. by apply list_elem_of_further. }
  split; [done|]. rewrite main_run, Hchanged.
  assert (sorted ∅ = []) as -> by (unfold sorted; by rewrite elements_empty).
  cbn [for_each]. unfold ret at 1, bind, ret.
  by destruct (Update.regenerate_info _ _ w) as [w2 [[]|e]].
Qed.

Lemma for_each_app {A} (l1 l2 : list A) (body : A -> M unit) (w : world) :
  for_each (l1 ++ l2) body w
  = match for_each l1 body w with
    | (w1, Return _) => for_each l2 body w1
    | (w1, Raise e) => (w1, Raise e)
    end.
Proof.
  revert w. induction l1 as [|x l1 IH]; intros w; [done|].
  cbn [for_each app]. unfold bind.
  destruct (body x w) as [w1 [[]|e]]; [apply IH | done].
Qed.

(** X13.  A run is not all or nothing for the manifests.  On a first
    commit, when the templates that come first in name order have usable
    manifests and the next one does not, [main] ends with an exception and
    the bumps of the first ones stay on disk; [info.yaml] is not touched. *)
Theorem bumps_before_a_failure_persist
    (w : world) (good rest : list string) (bad text : string) :
  has_parent (git w) = false ->
  sorted (list_to_set (template_dirs_of w)) = (good ++ bad :: rest)%list ->
  (forall d, d ∈ good ->
     exists text' data m,
       files w !! manifest_path d = Some text'
       /\ loads_as yaml_safe_load text' data m) ->
  files w !! manifest_path bad = Some text ->
  unusable yaml_safe_load text ->
  exists w1 e,
    main w = (w1, Raise e)
    /\ writes w1 = (writes w ++ List.map manifest_path good)%list
    /\ (forall d text' data m,
          d ∈ good ->
          files w !! manifest_path d = Some text' ->
          loads_as yaml_safe_load text' data m ->
          files w1 !! manifest_path d
          = Some (yaml_dump (bumped_document py_repr data m)))
    /\ files w1 !! manifest_path bad = Some text
    /\ files w1 !! "info.yaml" = files w !! "info.yaml".
Proof.
  intros Hparent Hsorted Hgood Hbad Hunusable.
  assert (NoDup good) as Hnodup.
  { destruct (sorted_elements (list_to_set (template_dirs_of w))) as [Hnd _].
    rewrite Hsorted in Hnd. by apply NoDup_app in Hnd as (? & _ & _). }
  destruct (bump_loop_first_commit yaml_safe_load yaml_dump py_repr good w)
    as (w1 & Hloop & Hwrites & _ & Hfiles); try done.
  pose proof (for_each_invariant
                (bump_loop_frame w (manifest_path bad) text) bump_if_needed good w)
    as Hframe.
  rewrite Hloop in Hframe. cbn [fst] in Hframe.
  destruct Hframe as (_ & Hgit & Hbad1 & Hinfo & _).
  { repeat split; try done. exists []. split; [by rewrite app_nil_r|].
    apply not_elem_of_nil. }
  { intros d w0 _. by apply bump_if_needed_frame. }
  assert (exists e, bump_if_needed bad w1 = (w1, Raise e)) as [e Hstep].
  { rewrite bump_if_needed_run, bump_manifest_version_run, Hbad1.
    unfold author_bumped. rewrite Hgit, Hparent. cbn [andb].
    unfold unusable in Hunusable.
    destruct (yaml_safe_load text) as [msg|data]; [by eauto|].
    rewrite Hunusable. eauto. }
  exists w1, e. split; [|done].
  assert (Update.get_changed_template_dirs w
          = (w, Return (list_to_set (template_dirs_of w)))) as Hchanged.
  { unfold Update.get_changed_template_dirs, Update.get_template_dirs, bind,
      get_world, ret. by rewrite Hparent. }
  rewrite main_run, Hchanged, Hsorted, for_each_app, Hloop.
  cbn [for_each]. unfold bind. by rewrite Hstep.
Qed.

End MainMore.

(** ** The change set *)

Section ChangeSet.
Import PyStr.

Lemma first_segment_app (d rest : string) :
  contains "/" d = false -> first_segment (d +:+ "/" +:+ rest) = d.
Proof.
  induction d as [|c d IH]; [done|].
  cbn [contains startswith]. destruct (Ascii.eqb_spec "/" c) as [<-|Hc]; [done|].
  cbn [orb]. intros Hd.
  change (String c d +:+ "/" +:+ rest) with (String c (d +:+ "/" +:+ rest)).
  cbn [first_segment].
  destruct (Ascii.eqb_spec c "/") as [->|_]; [done|]. by rewrite IH.
Qed.

Lemma first_segment_split (f : string) :
  contains "/" f = true -> exists rest, f = first_segment f +:+ "/" +:+ rest.
Proof.
  induction f as [|c f IH]; [done|].
  cbn [contains startswith first_segment].
  destruct (Ascii.eqb_spec "/" c) as [<-|Hc].
  - intros _. exists f. by rewrite Ascii.eqb_refl.
  - cbn [orb]. intros Hf. destruct (IH Hf) as [rest Hrest].
    destruct (Ascii.eqb_spec c "/") as [->|_]; [done|].
    exists rest.
    change (String c (first_segment f) +:+ "/" +:+ rest)
      with (String c (first_segment f +:+ "/" +:+ rest)).
    by rewrite <- Hrest.
Qed.

(** X15.  A template directory is in the changed set exactly when the
    change set has a path inside it, that is a line [d/rest]; the name of
    the directory alone, or a file at the root, does not count. *)
Theorem changed_template_dir_iff
    (changed_files template_dirs : list string) (d : string) :
  contains "/" d = false ->
  d ∈ Validate.get_changed_template_dirs changed_files template_dirs
  <-> d ∈ template_dirs
      /\ exists rest, (d +:+ "/" +:+ rest) ∈ changed_files.
Proof.
  intros Hd. rewrite changed_template_dirs_spec. split.
  - intros (f & Hf & Hslash & Hseg & Ht). split; [done|].
    destruct (first_segment_split f Hslash) as [rest Hrest].
    exists rest. by rewrite <- Hseg, <- Hrest.
  - intros (Ht & rest & Hf). exists (d +:+ "/" +:+ rest).
    split; [done|]. split; [|split; [by apply first_segment_app | done]].
    apply contains_spec. by exists d, rest.
Qed.

(** X14.  The two scripts agree on the changed template directories.  With
    a parent commit [get_changed_template_dirs] of update-catalog.py returns
    the set that the function of the same name of validate-catalog.py builds
    from the lines of the same diff; without one it returns every template
    directory, of which the Validator's set is a part. *)
Theorem changed_sets_agree (w : world) :
  (forall out,
     has_parent (git w) = true -> diff_name_only (git w) = Some out ->
     Validate.get_changed_files w = (w, Return (Validate.output_lines out))
     /\ Update.get_changed_template_dirs w
        = (w, Return (Validate.get_changed_template_dirs
                        (Validate.output_lines out) (template_dirs_of w))))
  /\ (forall out,
        has_parent (git w) = false -> ls_tree (git w) = Some out ->
        exists changed : gset string,
          Update.get_changed_template_dirs w = (w, Return changed)
          /\ Validate.get_changed_template_dirs
               (Validate.output_lines out) (template_dirs_of w) ⊆ changed
          /\ forall d, d ∈ changed <-> d ∈ template_dirs_of w).
Proof.
  split.
  - intros out Hparent Hdiff. split.
    + unfold Validate.get_changed_files, bind, get_world, ret.
      by rewrite Hparent, Hdiff.
    + unfold Update.get_changed_template_dirs, Update.get_template_dirs, bind,
        get_world, ret. rewrite Hparent, Hdiff. cbn [negb].
      fold (Validate.output_lines out). fold (template_dirs_of w).
      do 2 f_equal. apply set_eq. intros d.
      rewrite changed_template_dirs_spec, elem_of_list_to_set.
      rewrite list_elem_of_In, in_map_iff. split.
      * intros (f & <- & Hf). apply filter_In in Hf as [Hf Hc].
        apply andb_true_iff in Hc as [Hslash Ht].
        apply bool_decide_eq_true_1 in Ht. exists f.
        split; [by apply list_elem_of_In | done].
      * intros (f & Hf & Hslash & <- & Ht). exists f. split; [done|].
        apply filter_In. split; [by apply list_elem_of_In|].
        rewrite Hslash. by apply bool_decide_eq_true_2.
  - intros out Hparent Htree. exists (list_to_set (template_dirs_of w)).
    split; [|split].
    + unfold Update.get_changed_template_dirs, Update.get_template_dirs, bind,
        get_world, ret. by rewrite Hparent.
    + intros d Hd. apply changed_template_dirs_spec in Hd as (_ & _ & _ & _ & Ht).
      by apply elem_of_list_to_set.
    + intros d. apply elem_of_list_to_set.
Qed.

(** *** Reading the lines git prints *)

Lemma splitlines_go_line (cur : list ascii) (x rest : string) :
  no_linebreak x = true ->
  splitlines_go cur (x +:+ String "010" rest)
  = string_of_list_ascii (rev cur ++ list_ascii_of_string x)
      :: splitlines_go [] rest.
Proof.
  revert cur. induction x as [|c x IH]; intros cur Hx.
  - cbn [String.append splitlines_go list_ascii_of_string].
    change (is_linebreak "010") with true. cbn match.
    rewrite app_nil_r. by destruct rest.
  - cbn [no_linebreak] in Hx. apply andb_true_iff in Hx as [Hc Hx].
    apply negb_true_iff in Hc.
    cbn [String.append splitlines_go list_ascii_of_string]. rewrite Hc.
    rewrite IH by done. cbn [rev]. by rewrite <- app_assoc.
Qed.

Lemma splitlines_go_last (cur : list ascii) (x : string) :
  no_linebreak x = true ->
  splitlines_go cur x
  = match (rev cur ++ list_ascii_of_string x)%list with
    | [] => []
    | l => [string_of_list_ascii l]
    end.
Proof.
  revert cur. induction x as [|c x IH]; intros cur Hx.
  - cbn [splitlines_go list_ascii_of_string]. rewrite app_nil_r.
    destruct cur as [|a cur]; [done|]. cbn [rev].
    by destruct (rev cur).
  - cbn [no_linebreak] in Hx. apply andb_true_iff in Hx as [Hc Hx].
    apply negb_true_iff in Hc.
    cbn [splitlines_go list_ascii_of_string]. rewrite Hc.
    rewrite IH by done. cbn [rev]. by rewrite <- app_assoc.
Qed.

Lemma splitlines_join (paths : list string) :
  Forall (fun p => no_linebreak p = true /\ p <> "") paths ->
  splitlines (join (String "010" "") paths) = paths.
Proof.
  unfold splitlines. induction 1 as [|p l [Hp Hne] Hl IH]; [done|].
  destruct l as [|q l].
  - cbn [join]. rewrite splitlines_go_last by done.
    destruct p as [|c p]; [done|]. simpl.
    by rewrite string_of_list_ascii_of_string.
  - change (join (String "010" "") (p :: q :: l))
      with (p +:+ String "010" "" +:+ join (String "010" "") (q :: l)).
    change (String "010" "" +:+ join (String "010" "") (q :: l))
      with (String "010" (join (String "010" "") (q :: l))).
    rewrite splitlines_go_line by done. simpl rev. simpl app.
    by rewrite string_of_list_ascii_of_string, IH.
Qed.

Lemma lines_text_cons (p : string) (l : list string) :
  lines_text (p :: l) = p +:+ String "010" "" +:+ lines_text l.
Proof.
  unfold lines_text. cbn [List.map String.concat].
  destruct (List.map _ l) as [|x r]; cbn [String.concat];
    rewrite ?append_assoc; simpl; by rewrite ?append_nil_r.
Qed.

Lemma lines_text_join (paths : list string) :
  paths <> [] -> lines_text paths = join (String "010" "") paths +:+ String "010" "".
Proof.
  induction paths as [|p l IH]; [done|]. intros _.
  rewrite lines_text_cons. destruct l as [|q l].
  - cbn [join]. change (lines_text []) with "". by rewrite append_nil_r.
  - rewrite IH by done.
    change (join (String "010" "") (p :: q :: l))
      with (p +:+ String "010" "" +:+ join (String "010" "") (q :: l)).
    by rewrite !append_assoc.
Qed.

Lemma rstrip_snoc_space (s : string) (c : ascii) :
  is_space c = true -> rstrip (s +:+ String c "") = rstrip s.
Proof.
  intros Hc. induction s as [|a s IH]; simpl.
  - by rewrite Hc.
  - by rewrite IH.
Qed.

Lemma join_ends (paths : list string) :
  paths <> [] ->
  Forall plain_line paths ->
  (exists c t, join (String "010" "") paths = String c t /\ is_space c = false)
  /\ (exists x c, join (String "010" "") paths = x +:+ String c ""
                  /\ is_space c = false).
Proof.
  intros Hne Hall. split.
  - destruct Hall as [|p l (_ & (c & t & -> & Hc) & _) _]; [done|].
    destruct l; cbn [join]; simpl; eauto.
  - induction Hall as [|p l (_ & _ & (x & c & -> & Hc)) Hl IH]; [done|].
    destruct l as [|q l]; [by exists x, c|].
    destruct IH as (x' & c' & Hx' & Hc'); [done|].
    change (join (String "010" "") ((x +:+ String c "") :: q :: l))
      with ((x +:+ String c "") +:+ String "010" ""
            +:+ join (String "010" "") (q :: l)).
    rewrite Hx'. exists ((x +:+ String c "") +:+ String "010" "" +:+ x'), c'.
    split; [by rewrite !append_assoc | done].
Qed.

(** X17.  [strip()] followed by [splitlines()], as [get_changed_files]
    applies them to the output of a command, undoes the ending of lines by
    line feeds: for lines of code points 0..255 that are not empty, hold no
    line boundary and neither start nor end with white space, the text in
    which each is ended by a line feed is read back as the list of those
    lines, and the empty text as the empty list.  How git writes a path on
    its line is not part of the statement. *)
Theorem output_lines_round_trip (paths : list string) :
  Forall plain_line paths ->
  Validate.output_lines (lines_text paths) = paths.
Proof.
  intros Hall. destruct paths as [|p l]; [done|].
  rewrite lines_text_join by done.
  destruct (join_ends (p :: l)) as ((c & t & Hhead & Hc) & (x & c' & Hlast & Hc'));
    [done | done |].
  assert (strip (join (String "010" "") (p :: l) +:+ String "010" "")
          = join (String "010" "") (p :: l)) as Hstrip.
  { unfold strip. rewrite lstrip_id.
    - rewrite rstrip_snoc_space by done. rewrite Hlast. by apply rstrip_id.
    - rewrite Hhead. simpl. done. }
  unfold Validate.output_lines. rewrite Hstrip, Hhead. cbn [is_empty].
  rewrite <- Hhead. apply splitlines_join.
  eapply Forall_impl; [exact Hall|].
  intros q (Hq & (c0 & t0 & -> & _) & _). by split.
Qed.

End ChangeSet.

(** ** Failures of git, and the files the Validator looks at *)

Section GitAndFiles.
Variable yaml_safe_load : string -> string + pyval.
Variable yaml_dump : pyval -> string.
Variable py_repr : pyval -> string.
Variable load_escapes : string -> option py_error.

(** X16.  A failing [git diff --name-only] is fatal to both scripts: they
    end with [CalledProcessError] before printing or writing anything.  In a
    repository without a parent commit the same holds of the Validator when
    [git ls-tree] fails, while update-catalog.py does not call git again and
    takes every template directory as changed. *)
Theorem git_failure_is_fatal (w : world) :
  (has_parent (git w) = true -> diff_name_only (git w) = None ->
   Update.main yaml_safe_load yaml_dump py_repr w = (w, Raise CalledProcessError)
   /\ Validate.main yaml_safe_load load_escapes w = (w, Raise CalledProcessError))
  /\ (has_parent (git w) = false -> ls_tree (git w) = None ->
      Validate.main yaml_safe_load load_escapes w = (w, Raise CalledProcessError)
      /\ Update.get_changed_template_dirs w
         = (w, Return (list_to_set (template_dirs_of w)))).
Proof.
  split; intros Hparent Hgit.
  - split.
    + rewrite main_run.
      unfold Update.get_changed_template_dirs, bind, get_world, raise.
      by rewrite Hparent, Hgit.
    + unfold Validate.main, Validate.get_template_dirs, Validate.get_changed_files,
        bind, get_world, ret, raise. by rewrite Hparent, Hgit.
  - split.
    + unfold Validate.main, Validate.get_template_dirs, Validate.get_changed_files,
        bind, get_world, ret, raise. by rewrite Hparent, Hgit.
    + unfold Update.get_changed_template_dirs, Update.get_template_dirs, bind,
        get_world, ret. by rewrite Hparent.
Qed.

Lemma endswith_spec (p s : string) :
  PyStr.endswith p s = true <-> exists stem, s = stem +:+ p.
Proof.
  induction s as [|c s IH].
  - cbn [PyStr.endswith]. rewrite orb_false_r, String.eqb_eq. split.
    + intros ->. by exists "".
    + intros [stem H]. destruct stem; [done | discriminate H].
  - cbn [PyStr.endswith]. rewrite orb_true_iff, String.eqb_eq, IH. split.
    + intros [-> | [stem ->]]; [by exists "" | by exists (String c stem)].
    + intros [stem H]. destruct stem as [|x stem]; [by left|].
      right. exists stem. simpl in H. by inversion H.
Qed.

(** X18.  The Validator parses a changed file only when its name ends in
    [.yaml] or [.yml], in lower case, and the file is on disk.  A change set
    without such a file passes, whatever the other files contain, and leaves
    the world as it was. *)
Theorem only_yaml_files_are_parsed (w : world) (changed_files : list string) :
  (forall f, Validate.is_yaml_file f = true
             <-> exists stem, f = stem +:+ ".yaml" \/ f = stem +:+ ".yml")
  /\ ((forall f, f ∈ changed_files ->
         Validate.is_yaml_file f = false \/ files w !! f = None) ->
      Validate.validate_yaml_files yaml_safe_load load_escapes changed_files w = (w, Return true)).
Proof.
  split.
  - intros f. unfold Validate.is_yaml_file.
    rewrite orb_true_iff, !endswith_spec. split.
    + intros [[stem H] | [stem H]]; exists stem; auto.
    + intros [stem [H | H]]; [left | right]; by exists stem.
  - intros Hskip. rewrite validate_yaml_files_run.
    2:{ intros f Hf Hy text Htext.
        destruct (Hskip f Hf) as [Hno | Hgone]; congruence. }
    replace (flat_map _ _) with (@nil string); [done|].
    symmetry. induction changed_files as [|f l IH]; [done|].
    cbn [List.filter].
    assert (flat_map (parse_error yaml_safe_load w)
              (List.filter Validate.is_yaml_file l) = []) as Hl.
    { apply IH. intros f' Hf'. apply Hskip. by apply list_elem_of_further. }
    destruct (Hskip f (list_elem_of_here f l)) as [-> | Hf]; [done|].
    destruct (Validate.is_yaml_file f); [|done].
    cbn [flat_map]. unfold parse_error at 1. by rewrite Hf, Hl.
Qed.

(** X19.  The handler of the Validator catches [yaml.YAMLError] only.  A
    changed YAML file on disk whose reading or loading raises another
    exception ends the run with that exception, status 1: the failures
    gathered from the files before it are not printed, the files after it
    are not looked at, and nothing is written. *)
Theorem uncaught_load_error_ends_validation
    (w : world) (pre post : list string) (f text : string) (e : py_error) :
  Validate.get_changed_files w = (w, Return (pre ++ f :: post)%list) ->
  (forall f', f' ∈ pre -> Validate.is_yaml_file f' = true ->
              loads_quietly load_escapes w f') ->
  Validate.is_yaml_file f = true ->
  files w !! f = Some text ->
  load_escapes text = Some e ->
  Validate.main yaml_safe_load load_escapes w = (w, Raise e)
  /\ exit_status (Raise (A:=Z) e) = 1%Z.
Proof.
  intros Hchanged Hquiet Hy Hf He. split; [|done].
  unfold Validate.main, Validate.get_template_dirs.
  unfold bind at 1, get_world at 1. unfold bind at 1, ret at 1.
  unfold bind at 1. rewrite Hchanged. unfold bind at 1.
  unfold Validate.validate_yaml_files. unfold bind at 1.
  rewrite List.filter_app. cbn [List.filter]. rewrite Hy.
  rewrite (check_files_escape yaml_safe_load load_escapes _ _ _ f text e); [done| |done|done].
  intros f' Hf'. apply list_elem_of_In, filter_In in Hf' as [Hin Hy'].
  apply Hquiet; [by apply list_elem_of_In | done].
Qed.

End GitAndFiles.

(** ** Closed instances of the further properties *)

(** X3 at work: the bump of [web] writes [web/manifest.yaml] and leaves the
    manifest of [api] alone. *)
Lemma bump_manifest_version_footprint_witness :
  writes (fst (Sample.bump_manifest_version "web" Sample.after_readme_commit))
  = ["web/manifest.yaml"]
  /\ files (fst (Sample.bump_manifest_version "web" Sample.after_readme_commit))
       !! "api/manifest.yaml"
     = Some Sample.nested_manifest.
Proof.
  assert (Sample.bump_manifest_version "web" Sample.after_readme_commit
          = (fst (Sample.bump_manifest_version "web" Sample.after_readme_commit),
             Return true)) as Hrun by (vm_compute; reflexivity).
  destruct (bump_manifest_version_footprint _ _ _ _ _ _ _ Hrun)
    as (_ & _ & Hwrites & Hother & _).
  split; [exact Hwrites|]. rewrite Hother by discriminate. reflexivity.
Defined.

(** X4 at work on the version [1.2]. *)
Lemma version_outside_strict_form_is_kept_witness :
  stdout (fst (Sample.bump_manifest_version "web" Sample.with_short_version))
  = ["Bumped web version: 1.2 -> 1.2"]
  /\ files (fst (Sample.bump_manifest_version "web" Sample.with_short_version))
       !! "web/manifest.yaml"
     = Some "id: web
version: 1.2
".
Proof.
  destruct (version_outside_strict_form_is_kept
              BlockCodec.safe_load BlockCodec.dump BlockCodec.repr
              "web" "id: web
version: 1.2
" (PDict [("id", PStr "web"); ("version", PStr "1.2")])
              [("id", PStr "web"); ("version", PStr "1.2")]
              Sample.with_short_version) as [Hrun _].
  - reflexivity.
  - split; reflexivity.
  - reflexivity.
  - unfold Sample.bump_manifest_version. rewrite Hrun. split; reflexivity.
Defined.

(** X5 at work: 1.2.3 is 1.2.5 after two bumps. *)
Lemma bump_manifest_version_twice_witness :
  exists w1 w2 m2,
    Sample.bump_manifest_version "web" Sample.after_readme_commit = (w1, Return true)
    /\ Sample.bump_manifest_version "web" w1 = (w2, Return true)
    /\ PyDict.get "version" m2 = Some (PStr "1.2.5")
    /\ writes w2 = ["web/manifest.yaml"; "web/manifest.yaml"].
Proof.
  destruct (bump_manifest_version_twice
              BlockCodec.safe_load BlockCodec.dump BlockCodec.repr
              "web" Sample.flat_manifest
              (PDict [("id", PStr "web"); ("version", PStr "1.2.3")])
              [("id", PStr "web"); ("version", PStr "1.2.3")]
              Sample.after_readme_commit 1%N 2%N 3%N)
    as (w1 & w2 & data2 & m2 & H1 & H2 & _ & _ & Hversion & _ & Hwrites).
  - reflexivity.
  - split; reflexivity.
  - reflexivity.
  - vm_compute. reflexivity.
  - by exists w1, w2, m2.
Defined.

(** X6 at work on a manifest in the nested form. *)
Lemma get_manifest_version_spec_witness :
  Sample.get_manifest_version "api/manifest.yaml" Sample.after_readme_commit
  = (Sample.after_readme_commit, Return (Some "0.9.9")).
Proof.
  destruct (get_manifest_version_spec
              BlockCodec.safe_load BlockCodec.repr
              "api/manifest.yaml" Sample.nested_manifest
              (PDict [("manifest", PDict [("id", PStr "api"); ("version", PStr "0.9.9")])])
              [("id", PStr "api"); ("version", PStr "0.9.9")]
              Sample.after_readme_commit)
    as (result & Hrun & _ & Htruthy & _).
  - reflexivity.
  - split; reflexivity.
  - unfold Sample.get_manifest_version. rewrite Hrun.
    by rewrite (Htruthy (PStr "0.9.9")).
Defined.

(** X7 at work: the version read after the bump of 1.2.3. *)
Lemma get_manifest_version_after_bump_witness :
  Sample.get_manifest_version "web/manifest.yaml"
    (fst (Sample.bump_manifest_version "web" Sample.after_readme_commit))
  = (fst (Sample.bump_manifest_version "web" Sample.after_readme_commit),
     Return (Some "1.2.4")).
Proof.
  exact (get_manifest_version_after_bump
           BlockCodec.safe_load BlockCodec.dump BlockCodec.repr
           "web" Sample.flat_manifest
           (PDict [("id", PStr "web"); ("version", PStr "1.2.3")])
           [("id", PStr "web"); ("version", PStr "1.2.3")]
           Sample.after_readme_commit
           (fst (Sample.bump_manifest_version "web" Sample.after_readme_commit))
           true eq_refl (conj eq_refl eq_refl) eq_refl eq_refl).
Defined.

(** X9 at work: the template [web], flat and nested. *)
Lemma both_shapes_give_the_same_record_witness :
  Update.build_templates BlockCodec.safe_load ["web"] Sample.after_readme_commit
  = (Sample.after_readme_commit,
     Return [PDict [("id", PStr "web"); ("name", PNone); ("description", PNone);
                    ("version", PStr "1.2.3"); ("tags", PList []);
                    ("keywords", PList [])]])
  /\ Update.build_templates BlockCodec.safe_load ["web"] Sample.with_nested_web
     = (Sample.with_nested_web,
        Return [PDict [("id", PStr "web"); ("name", PNone); ("description", PNone);
                       ("version", PStr "1.2.3"); ("tags", PList []);
                       ("keywords", PList [])]]).
Proof.
  exact (both_shapes_give_the_same_record BlockCodec.safe_load
           "web" Sample.flat_manifest "manifest:
  id: web
  version: 1.2.3
" [("id", PStr "web"); ("version", PStr "1.2.3")]
           Sample.after_readme_commit Sample.with_nested_web
           eq_refl eq_refl eq_refl eq_refl eq_refl).
Defined.

(** X10 at work on a first commit: two bumps and a new index later the
    template directories are the same. *)
Lemma main_footprint_witness :
  template_dirs_of (fst (Sample.update_main Sample.after_first_commit)) = ["api"; "web"]
  /\ files (fst (Sample.update_main Sample.after_first_commit)) !! "web/readme.md"
     = Some "hello".
Proof.
  assert (Sample.update_main Sample.after_first_commit
          = (fst (Sample.update_main Sample.after_first_commit),
             snd (Sample.update_main Sample.after_first_commit))) as Hrun
    by (by destruct (Sample.update_main Sample.after_first_commit)).
  destruct (main_footprint _ _ _ _ _ _ Hrun)
    as ((_ & _ & _ & _ & _ & Hfiles) & Hdirs & _).
  split; [rewrite Hdirs; reflexivity|].
  rewrite Hfiles; [reflexivity | discriminate |].
  intros d Hd. apply list_elem_of_In in Hd. vm_compute in Hd.
  destruct Hd as [<- | [<- | []]]; discriminate.
Defined.

(** X11 at work: after the run on a first commit the index is settled. *)
Lemma main_leaves_index_in_sync_witness :
  Sample.regenerate_info (fst (Sample.update_main Sample.after_first_commit))
  = (fst (Sample.update_main Sample.after_first_commit), Return tt).
Proof.
  assert (Sample.update_main Sample.after_first_commit
          = (fst (Sample.update_main Sample.after_first_commit), Return 0%Z)) as Hrun
    by (vm_compute; reflexivity).
  by destruct (main_leaves_index_in_sync _ _ _ _ _ _ Hrun) as [Hagain _].
Defined.

(** X12 at work on a commit that changed [README.md] and [docs/guide.md]. *)
Lemma no_changed_template_no_bump_witness :
  Update.get_changed_template_dirs Sample.after_docs_commit
  = (Sample.after_docs_commit, Return ∅)
  /\ writes (fst (Sample.update_main Sample.after_docs_commit)) = ["info.yaml"].
Proof.
  destruct (no_changed_template_no_bump
              BlockCodec.safe_load BlockCodec.dump BlockCodec.repr
              Sample.after_docs_commit "README.md
docs/guide.md
") as [Hchanged Hmain].
  - reflexivity.
  - reflexivity.
  - intros f Hf. apply list_elem_of_In in Hf. vm_compute in Hf.
    destruct Hf as [<- | [<- | []]].
    + by left.
    + right. intros H. apply list_elem_of_In in H. vm_compute in H.
      destruct H as [H | [H | []]]; discriminate H.
  - split; [exact Hchanged|]. unfold Sample.update_main. rewrite Hmain.
    reflexivity.
Defined.

(** X14 at work: both scripts find [web] changed by the commit of
    [web/readme.md]. *)
Lemma changed_sets_agree_witness :
  Update.get_changed_template_dirs Sample.after_readme_commit
  = (Sample.after_readme_commit,
     Return (Validate.get_changed_template_dirs ["web/readme.md"] ["api"; "web"])).
Proof.
  destruct (changed_sets_agree Sample.after_readme_commit) as [Hparent _].
  destruct (Hparent "web/readme.md
" eq_refl eq_refl) as [_ Hsame].
  exact Hsame.
Defined.

(** X15 at work. *)
Lemma changed_template_dir_iff_witness :
  "web" ∈ Validate.get_changed_template_dirs ["README.md"; "web/readme.md"] ["api"; "web"]
  /\ "api" ∉ Validate.get_changed_template_dirs ["README.md"; "web/readme.md"] ["api"; "web"].
Proof.
  split.
  - apply (changed_template_dir_iff _ _ "web" eq_refl). split.
    + apply list_elem_of_In. simpl. tauto.
    + exists "readme.md". apply list_elem_of_In. simpl. tauto.
  - intros H. apply (changed_template_dir_iff _ _ "api" eq_refl) in H
      as (_ & rest & H).
    apply list_elem_of_In in H. simpl in H.
    destruct H as [H | [H | []]]; discriminate H.
Defined.

(** X16 at work: git fails, both scripts end with status 1. *)
Lemma git_failure_is_fatal_witness :
  exit_status (snd (Sample.update_main Sample.with_broken_git)) = 1%Z
  /\ exit_status (snd (Sample.validate_main Sample.with_broken_git)) = 1%Z
  /\ fst (Sample.validate_main Sample.with_broken_git) = Sample.with_broken_git.
Proof.
  destruct (git_failure_is_fatal BlockCodec.safe_load BlockCodec.dump BlockCodec.repr
              Sample.no_escape Sample.with_broken_git) as [Hdiff _].
  destruct (Hdiff eq_refl eq_refl) as [Hupdate Hvalidate].
  unfold Sample.update_main, Sample.validate_main. rewrite Hupdate, Hvalidate.
  by repeat split.
Defined.

(** X17 at work on two lines. *)
Lemma output_lines_round_trip_witness :
  Validate.output_lines "api/manifest.yaml
web/readme.md
" = ["api/manifest.yaml"; "web/readme.md"].
Proof.
  apply (output_lines_round_trip ["api/manifest.yaml"; "web/readme.md"]).
  repeat constructor; try reflexivity.
  - eexists _, _. split; reflexivity.
  - exists "api/manifest.yam", "l"%char. split; reflexivity.
  - eexists _, _. split; reflexivity.
  - exists "web/readme.m", "d"%char. split; reflexivity.
Defined.

(** X18 at work: a change set of a text file and of a deleted YAML file
    passes. *)
Lemma only_yaml_files_are_parsed_witness :
  Validate.validate_yaml_files BlockCodec.safe_load Sample.no_escape
    ["web/readme.md"; "web/deleted.yaml"] Sample.after_yaml_commit
  = (Sample.after_yaml_commit, Return true).
Proof.
  destruct (only_yaml_files_are_parsed BlockCodec.safe_load Sample.no_escape
              Sample.after_yaml_commit
              ["web/readme.md"; "web/deleted.yaml"]) as [_ Hskip].
  apply Hskip. intros f Hf. apply list_elem_of_In in Hf. simpl in Hf.
  destruct Hf as [<- | [<- | []]]; [by left | by right].
Defined.

(** X13 at work: [api] is bumped, then [web] stops the run. *)
Lemma bumps_before_a_failure_persist_witness :
  exists w1 e,
    Sample.update_main Sample.first_commit_with_invalid_manifest = (w1, Raise e)
    /\ writes w1 = ["api/manifest.yaml"]
    /\ files w1 !! "api/manifest.yaml" = Some "manifest:
  id: api
  version: 0.9.10
"
    /\ files w1 !! "info.yaml" = None.
Proof.
  destruct (bumps_before_a_failure_persist
              BlockCodec.safe_load BlockCodec.dump BlockCodec.repr
              Sample.first_commit_with_invalid_manifest ["api"] [] "web" "id web")
    as (w1 & e & Hmain & Hwrites & Hfiles & _ & Hinfo).
  - reflexivity.
  - vm_compute. reflexivity.
  - intros d Hd. apply list_elem_of_singleton in Hd as ->.
    eexists _, _, _. split; [reflexivity|]. split; reflexivity.
  - reflexivity.
  - exact I.
  - exists w1, e. split; [exact Hmain|]. split; [exact Hwrites|]. split.
    + apply (Hfiles "api" Sample.nested_manifest
               (PDict [("manifest", PDict [("id", PStr "api"); ("version", PStr "0.9.9")])])
               [("id", PStr "api"); ("version", PStr "0.9.9")]).
      * apply list_elem_of_here.
      * reflexivity.
      * split; reflexivity.
    + rewrite Hinfo. reflexivity.
Defined.

(** X19 at work: the file with the date comes after the file that does not
    parse; the run ends with [ValueError] and no error line is printed. *)
Lemma uncaught_load_error_ends_validation_witness :
  Validate.main BlockCodec.safe_load Sample.date_escape Sample.with_bad_date
  = (Sample.with_bad_date, Raise ValueError)
  /\ stderr Sample.with_bad_date = [].
Proof.
  split; [|reflexivity].
  apply (uncaught_load_error_ends_validation BlockCodec.safe_load
           Sample.date_escape Sample.with_bad_date
           ["api/manifest.yaml"; "web/manifest.yaml"; "web/extra.yml";
            "web/broken.yaml"]
           ["web/readme.md"] "web/deleted.yaml" "day: 2024-13-45" ValueError).
  - reflexivity.
  - intros f' Hf' _ text Htext.
    repeat (apply elem_of_cons in Hf' as [-> | Hf']);
      [| | | |by apply elem_of_nil in Hf'];
      vm_compute in Htext; injection Htext as <-; reflexivity.
  - reflexivity.
  - reflexivity.
  - reflexivity.
Defined.
